(** * FluffOS build monitor: a shallow embedding of
    [tools/fluffos_build_monitor.py] and the properties of its
    build-status inference engine.

    Text is modelled as [string] over ASCII: [lower], [strip] and the
    regular-expression classes follow Python's behaviour on code points
    below 128.  Python integers are [Z]; the two scheduler counters, which
    only count upwards from zero, are [nat].  Clock readings (float
    seconds in the source) are [Z]: the source only subtracts and compares
    them. *)

From Stdlib Require Import String Ascii List Bool ZArith Arith Lia Sorted.
Import ListNotations.
Local Open Scope string_scope.
Local Open Scope Z_scope.

(* ================================================================= *)
(** ** Python string primitives *)

Module Py.

(** The line feed, the separator of [str.split('\n')]. *)
Definition nl : ascii := ascii_of_nat 10.

(** [str.isspace] on one ASCII character: tab to carriage return,
    the four separators 28..31 and the blank. *)
Definition is_space (c : ascii) : bool :=
  let n := nat_of_ascii c in
  ((9 <=? n)%nat && (n <=? 13)%nat) || ((28 <=? n)%nat && (n <=? 32)%nat).

(** [str.isdigit] / the class [\d] on ASCII. *)
Definition is_digit (c : ascii) : bool :=
  let n := nat_of_ascii c in (48 <=? n)%nat && (n <=? 57)%nat.

(** [str.lower] on one ASCII character. *)
Definition lower_ascii (c : ascii) : ascii :=
  let n := nat_of_ascii c in
  if (65 <=? n)%nat && (n <=? 90)%nat then ascii_of_nat (n + 32) else c.

(** [s.lower()] *)
Fixpoint lower (s : string) : string :=
  match s with
  | EmptyString => EmptyString
  | String c s' => String (lower_ascii c) (lower s')
  end.

(** [s.startswith(p)] *)
Fixpoint starts_with (p s : string) : bool :=
  match p, s with
  | EmptyString, _ => true
  | String a p', String b s' => Ascii.eqb a b && starts_with p' s'
  | String _ _, EmptyString => false
  end.

(** [p in s] for strings: [p] occurs in [s] as a contiguous substring. *)
Fixpoint contains (p s : string) : bool :=
  starts_with p s ||
  match s with
  | EmptyString => false
  | String _ s' => contains p s'
  end.

(** [s.split('\n')]: never empty, the empty string gives one empty line. *)
Fixpoint split_lines (s : string) : list string :=
  match s with
  | EmptyString => [EmptyString]
  | String c s' =>
      if Ascii.eqb c nl then EmptyString :: split_lines s'
      else match split_lines s' with
           | h :: t => String c h :: t
           | [] => [String c EmptyString]
           end
  end.

(** [s.lstrip()] *)
Fixpoint lstrip (s : string) : string :=
  match s with
  | EmptyString => EmptyString
  | String c s' => if is_space c then lstrip s' else s
  end.

(** [s.rstrip()] *)
Fixpoint rstrip (s : string) : string :=
  match s with
  | EmptyString => EmptyString
  | String c s' =>
      match rstrip s' with
      | EmptyString => if is_space c then EmptyString else String c EmptyString
      | r => String c r
      end
  end.

(** [s.strip()] *)
Definition strip (s : string) : string := rstrip (lstrip s).

(** Truthiness of a string: [if s] / [if not s]. *)
Definition truthy (s : string) : bool :=
  match s with EmptyString => false | String _ _ => true end.

(** [int(p)] for a string of decimal digits. *)
Definition digit_val (c : ascii) : Z := Z.of_nat (nat_of_ascii c) - 48.

Fixpoint int_of_digits_from (acc : Z) (s : string) : Z :=
  match s with
  | EmptyString => acc
  | String c s' => int_of_digits_from (10 * acc + digit_val c) s'
  end.

Definition int (s : string) : Z := int_of_digits_from 0 s.

(** [max(xs)] of a non-empty list of integers, given its head. *)
Definition max_list (x : Z) (xs : list Z) : Z := fold_left Z.max xs x.

(** [x in xs] for a list of strings. *)
Definition mem (x : string) (xs : list string) : bool :=
  existsb (String.eqb x) xs.

End Py.

(* ================================================================= *)
(** ** Regular expressions

    The patterns of the monitor only use literal characters, escaped
    literals, the classes [.], [\s] and [\d], and the postfix quantifiers
    [*] and [+] on a single character or class.  [Re.compile] reads
    exactly that fragment, so the patterns below are the source's raw
    strings, character for character. *)

Module Re.

Inductive cclass : Type :=
  | Lit (c : ascii)   (* a literal character *)
  | Dot               (* [.]: anything but a line feed *)
  | Space             (* [\s] *)
  | Digit.            (* [\d] *)

Inductive item : Type :=
  | One (c : cclass)
  | Star (c : cclass)
  | Plus (c : cclass).

Definition pattern := list item.

(** Does the class accept the character?  With [re.IGNORECASE] a literal
    letter accepts both of its cases. *)
Definition accepts (ic : bool) (c : cclass) (x : ascii) : bool :=
  match c with
  | Lit a => if ic then Ascii.eqb (Py.lower_ascii a) (Py.lower_ascii x)
             else Ascii.eqb a x
  | Dot => negb (Ascii.eqb x Py.nl)
  | Space => Py.is_space x
  | Digit => Py.is_digit x
  end.

(** [c*] followed by the continuation [k]. *)
Fixpoint star_then (ic : bool) (c : cclass) (k : string -> bool)
    (s : string) : bool :=
  k s ||
  match s with
  | EmptyString => false
  | String x s' => accepts ic c x && star_then ic c k s'
  end.

(** The pattern matches a prefix of [s] ([re.match]). *)
Fixpoint match_here (ic : bool) (p : pattern) (s : string) : bool :=
  match p with
  | [] => true
  | One c :: p' =>
      match s with
      | EmptyString => false
      | String x s' => accepts ic c x && match_here ic p' s'
      end
  | Star c :: p' => star_then ic c (match_here ic p') s
  | Plus c :: p' =>
      match s with
      | EmptyString => false
      | String x s' => accepts ic c x && star_then ic c (match_here ic p') s'
      end
  end.

(** The pattern matches somewhere in [s] ([re.search] is not [None]). *)
Fixpoint search_pat (ic : bool) (p : pattern) (s : string) : bool :=
  match_here ic p s ||
  match s with
  | EmptyString => false
  | String _ s' => search_pat ic p s'
  end.

(** One atom of the pattern text and the rest of the text. *)
Definition read_atom (s : string) : option (cclass * string) :=
  match s with
  | EmptyString => None
  | String "\" (String "s" r) => Some (Space, r)
  | String "\" (String "d" r) => Some (Digit, r)
  | String "\" (String c r) => Some (Lit c, r)
  | String "." r => Some (Dot, r)
  | String c r => Some (Lit c, r)
  end.

(** Reading a pattern: an atom, then an optional [*] or [+]. *)
Fixpoint compile_fuel (n : nat) (s : string) : pattern :=
  match n with
  | O => []
  | S n' =>
      match read_atom s with
      | None => []
      | Some (c, String "*" r) => Star c :: compile_fuel n' r
      | Some (c, String "+" r) => Plus c :: compile_fuel n' r
      | Some (c, r) => One c :: compile_fuel n' r
      end
  end.

Definition compile (s : string) : pattern := compile_fuel (String.length s) s.

(** [re.search(pat, s, re.IGNORECASE)] as a truth value. *)
Definition search_ic (pat s : string) : bool := search_pat true (compile pat) s.

(** [any(re.search(p, s, re.IGNORECASE) for p in pats)] *)
Definition any_search_ic (pats : list string) (s : string) : bool :=
  existsb (fun p => search_ic p s) pats.

End Re.

(* ================================================================= *)
(** ** Data model *)

Inductive BuildState : Type :=
  | STARTING
  | CONFIGURING
  | COMPILING_CORE
  | COMPILING_PACKAGES
  | LINKING
  | COMPLETED
  | FAILED
  | TIMEOUT.

(** An entry of [self.errors]: a dict with the keys ["message"] and
    ["critical"], and ["package_related"] when the entry comes from the
    line classifier (the entry written after a failed fetch has no such
    key). *)
Record ErrorEntry : Type := mkError {
  message : string;
  package_related : option bool;
  critical : bool
}.

(** An entry of [self.warnings]. *)
Record WarningEntry : Type := mkWarning {
  warning_message : string;
  warning_package_related : bool
}.

(** The dict [self.milestones], whose six keys are fixed in [__init__]. *)
Record Milestones : Type := mkMilestones {
  cmake_start : Z;
  cmake_done : Z;
  core_start : Z;
  packages_start : Z;
  linking_start : Z;
  build_complete : Z
}.

(** The dataclass [BuildStatus].  The two descriptive strings
    [current_task] and [last_activity] come from [_get_current_activity],
    which reads the chunk and [focus_packages] only and feeds no decision;
    they are left out. *)
Module BuildStatus.
Record t : Type := mk {
  state : BuildState;
  progress : Z;
  packages_built : list string;
  packages_total : list string;
  errors : list ErrorEntry;
  warnings : list WarningEntry;
  duration : Z
}.
End BuildStatus.

(** The fields of a [FluffOSBuildMonitor] object. *)
Record Monitor : Type := mkMonitor {
  bash_id : string;
  focus_packages : list string;
  max_duration : Z;
  start_time : Z;
  state : BuildState;
  packages_built : list string;
  errors : list ErrorEntry;
  warnings : list WarningEntry;
  wait_intervals : list Z;
  current_interval_index : nat;
  consecutive_no_activity : nat;
  milestones : Milestones;
  current_progress : Z
}.

(** Assignments to the fields the methods write. *)
Definition set_state (self : Monitor) (v : BuildState) : Monitor :=
  mkMonitor (bash_id self) (focus_packages self) (max_duration self)
    (start_time self) v (packages_built self) (errors self) (warnings self)
    (wait_intervals self) (current_interval_index self)
    (consecutive_no_activity self) (milestones self) (current_progress self).

Definition set_packages_built (self : Monitor) (v : list string) : Monitor :=
  mkMonitor (bash_id self) (focus_packages self) (max_duration self)
    (start_time self) (state self) v (errors self) (warnings self)
    (wait_intervals self) (current_interval_index self)
    (consecutive_no_activity self) (milestones self) (current_progress self).

Definition set_errors (self : Monitor) (v : list ErrorEntry) : Monitor :=
  mkMonitor (bash_id self) (focus_packages self) (max_duration self)
    (start_time self) (state self) (packages_built self) v (warnings self)
    (wait_intervals self) (current_interval_index self)
    (consecutive_no_activity self) (milestones self) (current_progress self).

Definition set_warnings (self : Monitor) (v : list WarningEntry) : Monitor :=
  mkMonitor (bash_id self) (focus_packages self) (max_duration self)
    (start_time self) (state self) (packages_built self) (errors self) v
    (wait_intervals self) (current_interval_index self)
    (consecutive_no_activity self) (milestones self) (current_progress self).

Definition set_current_interval_index (self : Monitor) (v : nat) : Monitor :=
  mkMonitor (bash_id self) (focus_packages self) (max_duration self)
    (start_time self) (state self) (packages_built self) (errors self)
    (warnings self) (wait_intervals self) v
    (consecutive_no_activity self) (milestones self) (current_progress self).

Definition set_consecutive_no_activity (self : Monitor) (v : nat) : Monitor :=
  mkMonitor (bash_id self) (focus_packages self) (max_duration self)
    (start_time self) (state self) (packages_built self) (errors self)
    (warnings self) (wait_intervals self) (current_interval_index self)
    v (milestones self) (current_progress self).

Definition set_current_progress (self : Monitor) (v : Z) : Monitor :=
  mkMonitor (bash_id self) (focus_packages self) (max_duration self)
    (start_time self) (state self) (packages_built self) (errors self)
    (warnings self) (wait_intervals self) (current_interval_index self)
    (consecutive_no_activity self) (milestones self) v.

(** [FluffOSBuildMonitor.__init__]; [now] is the reading of [time.time()].
    [focus_packages or [...]] takes the default for [None] and for the
    empty list. *)
Definition init (bash_id : string) (focus_packages : option (list string))
    (max_duration : Z) (now : Z) : Monitor :=
  {| bash_id := bash_id;
     focus_packages :=
       match focus_packages with
       | Some (p :: ps) => p :: ps
       | _ => ["http"; "rest"; "openapi"]
       end;
     max_duration := max_duration;
     start_time := now;
     state := STARTING;
     packages_built := [];
     errors := [];
     warnings := [];
     wait_intervals := [30; 60; 120; 240; 480; 900];
     current_interval_index := 0%nat;
     consecutive_no_activity := 0%nat;
     milestones := mkMilestones 10 20 30 50 80 100;
     current_progress := 0 |}.

(* ================================================================= *)
(** ** The process output source

    What [subprocess.run] does when [_run_bash_output] calls it: it
    returns a completed process, or raises [TimeoutExpired], or raises
    another exception whose [str] is [text]. *)

Inductive run_outcome : Type :=
  | CompletedProcess (returncode : Z) (stdout stderr : string)
  | TimeoutExpired
  | OtherException (text : string).

(** The surroundings of one call: the clock, what the next
    [subprocess.run] will do, and how many times it has been run. *)
Record World : Type := mkWorld {
  clock : Z;
  bash_output : run_outcome;
  fetches : nat
}.

(** [subprocess.run(cmd, capture_output=True, text=True, timeout=10)] *)
Definition subprocess_run (w : World) : run_outcome * World :=
  (bash_output w, mkWorld (clock w) (bash_output w) (S (fetches w))).

(** [_run_bash_output]: the triple (stdout, stderr, completed). *)
Definition _run_bash_output (w : World) : (string * string * bool) * World :=
  let '(result, w) := subprocess_run w in
  match result with
  | CompletedProcess returncode out err =>
      if returncode =? 0 then
        let output := out in
        if Py.contains "status:completed" (Py.lower output) then
          ((output, "", true), w)
        else if Py.contains "status:running" (Py.lower output) then
          ((output, "", false), w)
        else ((output, err, false), w)
      else (("", "Failed to get bash output: " ++ err, false), w)
  | TimeoutExpired => (("", "Timeout getting bash output", false), w)
  | OtherException e => (("", "Error getting bash output: " ++ e, false), w)
  end.

(* ================================================================= *)
(** ** Text classifier *)

(** [_detect_build_activity] *)
Definition activity_indicators : list string :=
  [ "\[\s*\d+%\]";         (* Progress percentages *)
    "Building.*\.o";       (* Compiling files *)
    "Linking.*executable"; (* Linking *)
    "Built target";        (* Target completion *)
    "make.*:";             (* Make activity *)
    "cmake" ].             (* CMake activity *)

Definition _detect_build_activity (output : string) : bool :=
  Re.any_search_ic activity_indicators output.

(** *** [re.findall(r"\[\s*(\d+)%\]", output)]

    The pattern has no choice to make: [\s*] and [\d+] take every blank
    and every digit there is, and giving one back never helps, because
    what follows accepts neither.  So a match at a position is read off
    deterministically; the value is the text of the group and the number
    of characters the whole match spans. *)

Fixpoint skip_spaces (s : string) : nat * string :=
  match s with
  | String c s' =>
      if Py.is_space c then let '(n, r) := skip_spaces s' in (S n, r)
      else (O, s)
  | EmptyString => (O, s)
  end.

Fixpoint take_digits (s : string) : string * string :=
  match s with
  | String c s' =>
      if Py.is_digit c then let '(d, r) := take_digits s' in (String c d, r)
      else (EmptyString, s)
  | EmptyString => (EmptyString, s)
  end.

Definition progress_match_at (s : string) : option (string * nat) :=
  match s with
  | String "[" s1 =>
      let '(n, s2) := skip_spaces s1 in
      match take_digits s2 with
      | (String d ds, String "%" (String "]" _)) =>
          Some (String d ds, (1 + n + String.length (String d ds) + 2)%nat)
      | _ => None
      end
  | _ => None
  end.

(** Matches are taken left to right and do not overlap: after a match of
    [k] characters the scan resumes [k] characters further ([skip] counts
    the characters of the current match still to be passed). *)
Fixpoint findall_progress_from (skip : nat) (s : string) : list string :=
  match s with
  | EmptyString => []
  | String _ s' =>
      match skip with
      | S k => findall_progress_from k s'
      | O =>
          match progress_match_at s with
          | Some (p, len) => p :: findall_progress_from (len - 1) s'
          | None => findall_progress_from O s'
          end
      end
  end.

Definition findall_progress (output : string) : list string :=
  findall_progress_from O output.

(** [_extract_progress] *)
Definition _extract_progress (self : Monitor) (output : string) : Z :=
  let progress_matches := findall_progress output in
  match map Py.int progress_matches with
  | p :: ps => Py.max_list p ps
  | [] =>
      if Py.contains "cmake" (Py.lower output)
         && Py.contains "configuring" (Py.lower output) then
        Z.max (current_progress self) (cmake_start (milestones self))
      else if Py.contains "generating done" (Py.lower output) then
        Z.max (current_progress self) (cmake_done (milestones self))
      else if Py.contains "building cxx object" (Py.lower output) then
        Z.max (current_progress self) (core_start (milestones self))
      else if existsb (fun pkg => Py.contains ("package_" ++ pkg) (Py.lower output))
                (focus_packages self) then
        Z.max (current_progress self) (packages_start (milestones self))
      else if Py.contains "linking" (Py.lower output)
              && Py.contains "executable" (Py.lower output) then
        Z.max (current_progress self) (linking_start (milestones self))
      else if Py.contains "built target" (Py.lower output)
              && (Py.contains "driver" (Py.lower output)
                  || Py.contains "100%" output) then
        build_complete (milestones self)
      else current_progress self
  end.

(** The characters that [re] reads as syntax when they stand in a
    pattern. *)
Definition regex_special : list ascii :=
  ["."; "^"; "$"; "*"; "+"; "?"; "{"; "}"; "["; "]"; "\"; "|"; "("; ")"]%char.

(** A character that stands for itself in a pattern: an ASCII character
    that is not regular-expression syntax. *)
Definition plain_char (c : ascii) : bool :=
  (nat_of_ascii c <? 128)%nat && negb (existsb (Ascii.eqb c) regex_special).

(** A text that, spliced into a pattern, is read character for
    character as a literal. *)
Fixpoint plain_name (s : string) : bool :=
  match s with
  | EmptyString => true
  | String c s' => plain_char c && plain_name s'
  end.

(** Every tracked name is plain.  The names are spliced into a pattern
    without [re.escape]; with plain names the pattern is a literal, and
    [re.search] neither raises [re.error] nor reads a part of a name as
    syntax. *)
Definition plain_names (self : Monitor) : bool :=
  forallb plain_name (focus_packages self).

(** [_extract_package_completions].  The package name is spliced into the
    pattern as the source does, without [re.escape].  For a plain name
    the pattern is a literal text and the search is the one [re.search]
    makes.  A name with regular-expression syntax in it is outside this
    embedding: [re] may read it otherwise than [Re.compile] does, or
    raise [re.error] and end the call.  The hypothesis [plain_names]
    rules such names out where a statement needs it.
    [self.packages_built] is appended to inside the loop, so the
    membership test of a later package sees the earlier appends. *)
Fixpoint package_completions_loop (output : string) (packages : list string)
    (self : Monitor) (newly_built : list string)
    : list string * Monitor :=
  match packages with
  | [] => (newly_built, self)
  | package :: rest =>
      let pattern := "Built target package_" ++ package in
      if Re.search_ic pattern output then
        if negb (Py.mem package (packages_built self)) then
          package_completions_loop output rest
            (set_packages_built self (packages_built self ++ [package]))
            (newly_built ++ [package])
        else package_completions_loop output rest self newly_built
      else package_completions_loop output rest self newly_built
  end.

Definition _extract_package_completions (self : Monitor) (output : string)
    : list string * Monitor :=
  package_completions_loop output (focus_packages self) self [].

(** [_filter_errors_and_warnings] *)
Definition critical_error_patterns : list string :=
  [ "error:";
    "fatal error:";
    "compilation failed";
    "build failed";
    "make.*error";
    "cmake.*error" ].

Definition package_patterns (self : Monitor) : list string :=
  map (fun pkg => "packages/" ++ pkg) (focus_packages self).

Definition noise_patterns : list string :=
  [ "warning.*third.*party";
    "warning.*libwebsockets";
    "warning.*libevent";
    "warning.*crypt";
    "note: unrecognized command-line option";
    "warning.*stringop-overflow";
    "warning.*deprecated" ].

(** The three per-line tests of the loop body. *)
Definition is_noise (line : string) : bool :=
  Re.any_search_ic noise_patterns line.

Definition is_critical (line : string) : bool :=
  Re.any_search_ic critical_error_patterns line.

Definition is_package_line (self : Monitor) (line : string) : bool :=
  existsb (fun pattern => Py.contains pattern line) (package_patterns self).

Definition has_warning_marker (line : string) : bool :=
  Py.contains "warning:" (Py.lower line).

(** The loop over the lines.  [self.errors] and [self.warnings] are read
    but not written here: the membership tests look at what was recorded
    before the call. *)
Fixpoint filter_lines (self : Monitor) (lines : list string)
    (new_errors : list ErrorEntry) (new_warnings : list WarningEntry)
    : list ErrorEntry * list WarningEntry :=
  match lines with
  | [] => (new_errors, new_warnings)
  | line :: rest =>
      let line := Py.strip line in
      if negb (Py.truthy line) then
        filter_lines self rest new_errors new_warnings
      else if is_noise line then
        filter_lines self rest new_errors new_warnings
      else
        let is_error := is_critical line in
        let is_package_related := is_package_line self line in
        let is_warning := has_warning_marker line in
        if is_error || (is_package_related && is_warning) then
          if negb (Py.mem line (map message (errors self))) then
            filter_lines self rest
              (new_errors ++ [mkError line (Some is_package_related) is_error])
              new_warnings
          else filter_lines self rest new_errors new_warnings
        else if is_warning && is_package_related then
          if negb (Py.mem line (map warning_message (warnings self))) then
            filter_lines self rest new_errors
              (new_warnings ++ [mkWarning line is_package_related])
          else filter_lines self rest new_errors new_warnings
        else filter_lines self rest new_errors new_warnings
  end.

Definition _filter_errors_and_warnings (self : Monitor) (output : string)
    : list ErrorEntry * list WarningEntry :=
  let lines := Py.split_lines output in
  filter_lines self lines [] [].

(* ================================================================= *)
(** ** Progress state machine and backoff scheduler *)

(** [_update_build_state].  [elif self.errors] is the truth value of the
    list: it is non-empty. *)
Definition _update_build_state (self : Monitor) (output : string)
    (completed : bool) : BuildState :=
  if completed then
    if Py.contains "built target driver" (Py.lower output)
       || (current_progress self >=? 100) then COMPLETED
    else match errors self with
         | _ :: _ => FAILED
         | [] => COMPLETED
         end
  else if existsb critical (errors self) then FAILED
  else if Py.contains "cmake" (Py.lower output)
          && (current_progress self <? 30) then CONFIGURING
  else if current_progress self <? 50 then COMPILING_CORE
  else if current_progress self <? 80 then COMPILING_PACKAGES
  else if current_progress self <? 100 then LINKING
  else COMPLETED.

(** The snapshot built from the fields of the object. *)
Definition snapshot (self : Monitor) (duration : Z) : BuildStatus.t :=
  BuildStatus.mk (state self) (current_progress self) (packages_built self)
    (focus_packages self) (errors self) (warnings self) duration.

(** [check_build_status] *)
Definition check_build_status (self : Monitor) (w : World)
    : BuildStatus.t * Monitor * World :=
  let current_time := clock w in
  let duration := current_time - start_time self in
  (* Check for timeout *)
  if duration >? max_duration self then
    let self := set_state self TIMEOUT in
    (snapshot self duration, self, w)
  else
    (* Get build output *)
    let '((stdout, stderr, completed), w) := _run_bash_output w in
    let self :=
      if Py.truthy stderr && Py.contains "error" (Py.lower stderr) then
        set_state (set_errors self (errors self ++ [mkError stderr None true]))
          FAILED
      else self in
    (* Analyze output *)
    let has_activity := _detect_build_activity stdout in
    let self :=
      if has_activity then
        set_current_interval_index (set_consecutive_no_activity self 0%nat) 0%nat
      else set_consecutive_no_activity self (consecutive_no_activity self + 1)%nat in
    (* Update progress and state *)
    let new_progress := _extract_progress self stdout in
    let self :=
      if new_progress >? current_progress self then
        set_current_progress self new_progress
      else self in
    (* Check for newly completed packages *)
    let '(newly_built, self) := _extract_package_completions self stdout in
    (* Extract errors and warnings *)
    let '(new_errors, new_warnings) := _filter_errors_and_warnings self stdout in
    let self := set_errors self (errors self ++ new_errors) in
    let self := set_warnings self (warnings self ++ new_warnings) in
    (* Update state *)
    let self := set_state self (_update_build_state self stdout completed) in
    (snapshot self duration, self, w).

(** [get_next_wait_interval]; [None] stands for the [IndexError] of an
    index outside [wait_intervals]. *)
Definition get_next_wait_interval (self : Monitor) : option Z * Monitor :=
  let self :=
    if (2 <? consecutive_no_activity self)%nat then
      set_current_interval_index self
        (Nat.min (current_interval_index self + 1)
                 (length (wait_intervals self) - 1))
    else self in
  (nth_error (wait_intervals self) (current_interval_index self), self).

(* ================================================================= *)
(** ** Sessions

    Between two calls the surroundings change freely: the clock moves and
    the process produces more output.  A session is the list of what each
    call finds: the clock reading and what [subprocess.run] would do. *)

Definition step_env : Type := (Z * run_outcome)%type.

Definition world_at (e : step_env) (calls : nat) : World :=
  mkWorld (fst e) (snd e) calls.

(** One call in the surroundings [e]: the snapshot, the object afterwards
    and the number of fetches made so far. *)
Definition call (self : Monitor) (calls : nat) (e : step_env)
    : BuildStatus.t * Monitor * nat :=
  let '(st, self, w) := check_build_status self (world_at e calls) in
  (st, self, fetches w).

(** The calls of a session, one after the other, with their snapshots. *)
Fixpoint run_session (self : Monitor) (calls : nat) (es : list step_env)
    : list BuildStatus.t * Monitor * nat :=
  match es with
  | [] => ([], self, calls)
  | e :: es' =>
      let '(st, self, calls) := call self calls e in
      let '(sts, self, calls) := run_session self calls es' in
      (st :: sts, self, calls)
  end.

(** [reaches self0 self]: the object [self0] becomes [self] after some
    calls of the two public methods, in any order and in any
    surroundings. *)
Inductive reaches (self0 : Monitor) : Monitor -> Prop :=
  | reaches_refl : reaches self0 self0
  | reaches_check : forall self w,
      reaches self0 self ->
      reaches self0 (snd (fst (check_build_status self w)))
  | reaches_wait : forall self,
      reaches self0 self ->
      reaches self0 (snd (get_next_wait_interval self)).

(** The objects a session can reach from a freshly built monitor. *)
Definition reachable (self : Monitor) : Prop :=
  exists bash_id focus max_duration now,
    reaches (init bash_id focus max_duration now) self.

(* ================================================================= *)
(** ** Patterns with a group

    [_get_current_activity] reads the text of group 1 of two patterns
    that use a lazy [.*?], a negated class, [\w] and an alternative
    inside the group.  [ReGroup] is a backtracking matcher for that
    fragment: alternatives are tried left to right, a greedy repetition
    tries the longest run first and a lazy one the shortest, and the
    first way through the whole pattern is the match. *)

Module ReGroup.

Inductive cset : Type :=
  | Cls (c : Re.cclass)    (* a literal, [.], [\s] or [\d] *)
  | NotChar (c : ascii)    (* [^c] *)
  | Word.                  (* [\w] on ASCII: letters, digits, underscore *)

Definition is_word (x : ascii) : bool :=
  let n := nat_of_ascii x in
  ((48 <=? n)%nat && (n <=? 57)%nat)
  || ((65 <=? n)%nat && (n <=? 90)%nat)
  || ((97 <=? n)%nat && (n <=? 122)%nat)
  || (n =? 95)%nat.

Definition accepts (c : cset) (x : ascii) : bool :=
  match c with
  | Cls c => Re.accepts false c x
  | NotChar a => negb (Ascii.eqb a x)
  | Word => is_word x
  end.

Inductive rx : Type :=
  | Emp                                   (* the empty pattern *)
  | Chr (c : cset)                        (* one character *)
  | Rep (greedy plus : bool) (c : cset)   (* [c*], [c+], [c*?], [c+?] *)
  | Cat (a b : rx)
  | Alt (a b : rx)                        (* [a|b] *)
  | Grp (a : rx).                         (* [(a)], the group *)

Section Matcher.
Variable R : Type.

(** [c*] greedy: the longest run first, one character less on failure. *)
Fixpoint rep_greedy (c : cset) (k : string -> option R) (s : string)
    : option R :=
  match s with
  | String x s' =>
      if accepts c x then
        match rep_greedy c k s' with
        | Some r => Some r
        | None => k s
        end
      else k s
  | EmptyString => k s
  end.

(** [c*?] lazy: the empty run first, one character more on failure. *)
Fixpoint rep_lazy (c : cset) (k : string -> option R) (s : string)
    : option R :=
  match k s with
  | Some r => Some r
  | None =>
      match s with
      | String x s' => if accepts c x then rep_lazy c k s' else None
      | EmptyString => None
      end
  end.

(** The pattern against a prefix of [s]; [cap] is the text of the group
    so far and [k] the rest of the match. *)
Fixpoint match_k (r : rx) (s : string) (cap : option string)
    (k : string -> option string -> option R) : option R :=
  match r with
  | Emp => k s cap
  | Chr c =>
      match s with
      | String x s' => if accepts c x then k s' cap else None
      | EmptyString => None
      end
  | Rep greedy plus c =>
      let loop := (if greedy then rep_greedy else rep_lazy) c
                    (fun s' => k s' cap) in
      if plus then
        match s with
        | String x s' => if accepts c x then loop s' else None
        | EmptyString => None
        end
      else loop s
  | Cat a b => match_k a s cap (fun s1 cap1 => match_k b s1 cap1 k)
  | Alt a b =>
      match match_k a s cap k with
      | Some r => Some r
      | None => match_k b s cap k
      end
  | Grp a =>
      match_k a s cap
        (fun s1 _ =>
           k s1 (Some (substring 0 (String.length s - String.length s1) s)))
  end.

End Matcher.

(** [re.search(r, s)]: the leftmost position with a match; the result is
    [match.group(1)] ([None] inside [Some] when the group took no part). *)
Fixpoint search (r : rx) (s : string) : option (option string) :=
  match match_k (option string) r s None (fun _ cap => Some cap) with
  | Some g => Some g
  | None =>
      match s with
      | String _ s' => search r s'
      | EmptyString => None
      end
  end.

(** A text as a pattern of literal characters. *)
Fixpoint lit (s : string) : rx :=
  match s with
  | EmptyString => Emp
  | String c s' => Cat (Chr (Cls (Re.Lit c))) (lit s')
  end.

End ReGroup.

Module PyMore.

(** [str.upper] on one ASCII character. *)
Definition upper_ascii (c : ascii) : ascii :=
  let n := nat_of_ascii c in
  if (97 <=? n)%nat && (n <=? 122)%nat then ascii_of_nat (n - 32) else c.

(** [s.upper()] *)
Fixpoint upper (s : string) : string :=
  match s with
  | EmptyString => EmptyString
  | String c s' => String (upper_ascii c) (upper s')
  end.

(** [xs[-n:]]: the last [n] elements, all of them if there are fewer. *)
Definition last_n {A : Type} (n : nat) (xs : list A) : list A :=
  skipn (length xs - n) xs.

(** [str(x)] for the value of [match.group(1)]. *)
Definition str_group (g : option string) : string :=
  match g with Some t => t | None => "None" end.

End PyMore.

(** [r"Building.*?([^/]+\.cc|[^/]+\.c)\.o"] *)
Definition compiling_pattern : ReGroup.rx :=
  ReGroup.Cat (ReGroup.lit "Building")
    (ReGroup.Cat (ReGroup.Rep false false (ReGroup.Cls Re.Dot))
       (ReGroup.Cat
          (ReGroup.Grp
             (ReGroup.Alt
                (ReGroup.Cat (ReGroup.Rep true true (ReGroup.NotChar "/"))
                   (ReGroup.lit ".cc"))
                (ReGroup.Cat (ReGroup.Rep true true (ReGroup.NotChar "/"))
                   (ReGroup.lit ".c"))))
          (ReGroup.lit ".o"))).

(** [r"Linking.*?(\w+)"] *)
Definition linking_pattern : ReGroup.rx :=
  ReGroup.Cat (ReGroup.lit "Linking")
    (ReGroup.Cat (ReGroup.Rep false false (ReGroup.Cls Re.Dot))
       (ReGroup.Grp (ReGroup.Rep true true ReGroup.Word))).

(** The [for package in self.focus_packages] loop of the body. *)
Fixpoint package_activity (packages : list string) (line : string)
    : option string :=
  match packages with
  | [] => None
  | package :: rest =>
      if Py.contains ("package_" ++ package) (Py.lower line) then
        Some ("Building " ++ PyMore.upper package ++ " package")
      else package_activity rest line
  end.

(** The body of the loop of [_get_current_activity] for one trimmed,
    non-empty line: the description to return, or [None] to go on with
    the line before. *)
Definition line_activity (self : Monitor) (line : string) : option string :=
  let compiling :=
    if Re.search_pat false (Re.compile "Building.*\.o") line then
      match ReGroup.search compiling_pattern line with
      | Some g => Some ("Compiling " ++ PyMore.str_group g)
      | None => None
      end
    else None in
  match compiling with
  | Some a => Some a
  | None =>
      match package_activity (focus_packages self) line with
      | Some a => Some a
      | None =>
          if Py.contains "linking" (Py.lower line) then
            match ReGroup.search linking_pattern line with
            | Some g => Some ("Linking " ++ PyMore.str_group g)
            | None => None
            end
          else None
      end
  end.

(** The loop over the recent lines, newest first. *)
Fixpoint first_activity (self : Monitor) (lines : list string) : string :=
  match lines with
  | [] => "Processing..."
  | line :: rest =>
      let line := Py.strip line in
      if negb (Py.truthy line) then first_activity self rest
      else match line_activity self line with
           | Some a => a
           | None => first_activity self rest
           end
  end.

(** [_get_current_activity] *)
Definition _get_current_activity (self : Monitor) (output : string) : string :=
  let recent_lines := PyMore.last_n 10 (Py.split_lines output) in
  first_activity self (rev recent_lines).

(* ================================================================= *)
(** ** The snapshot with its descriptions, the loop and the command line *)

(** The dataclass [BuildStatus] with the two descriptive strings that
    [BuildStatus.t] leaves out. *)
Record FullStatus : Type := mkFullStatus {
  status : BuildStatus.t;
  current_task : string;
  last_activity : string
}.

(** [check_build_status], with the descriptions: the fixed texts of the
    timeout branch, or the activity read from the chunk. *)
Definition check_build_status_full (self : Monitor) (w : World)
    : FullStatus * Monitor * World :=
  let '(st, self', w') := check_build_status self w in
  if clock w - start_time self >? max_duration self then
    (mkFullStatus st "Timed out" "Timeout reached", self', w')
  else
    let '((stdout, _, _), _) := _run_bash_output w in
    let current_activity := _get_current_activity self stdout in
    (mkFullStatus st current_activity current_activity, self', w').

(** [status.state in [COMPLETED, FAILED, TIMEOUT]] *)
Definition is_terminal (s : BuildState) : bool :=
  match s with
  | COMPLETED | FAILED | TIMEOUT => true
  | _ => false
  end.

(** What a turn of the loop does to the outside, in order.  The texts of
    the printed lines are left out but for what varies in them; the
    banner before the loop and the summary after it are left out. *)
Inductive loop_event : Type :=
  | PrintProgress (progress : Z) (task : string)
  | PrintPackage (package : string)
  | PrintCritical (message : string)
  | Callback (st : FullStatus)
  | Sleep (seconds : Z).

(** How the loop ends: it returns; or [wait_intervals[...]] raises
    [IndexError]; or the script of the surroundings is used up while the
    loop is still going. *)
Inductive loop_result : Type :=
  | LoopReturned (st : FullStatus) (self : Monitor) (events : list loop_event)
  | LoopIndexError (self : Monitor) (events : list loop_event)
  | LoopPending (self : Monitor) (events : list loop_event).

(** The reports of one turn.  [new_completions] is a set difference; its
    names are listed here in the order of [packages_built], Python's
    order of iteration over the set being unspecified. *)
Definition turn_reports (st : FullStatus) (last_reported_progress : Z)
    (last_reported_packages : list string) : list loop_event :=
  (if BuildStatus.progress (status st) >? last_reported_progress
   then [PrintProgress (BuildStatus.progress (status st)) (current_task st)]
   else [])
  ++ map PrintPackage
       (filter (fun p => negb (Py.mem p last_reported_packages))
          (nodup string_dec (BuildStatus.packages_built (status st))))
  ++ map (fun e => PrintCritical (message e))
       (filter critical (BuildStatus.errors (status st))).

Definition add_events (evs : list loop_event) (r : loop_result) : loop_result :=
  match r with
  | LoopReturned st self events => LoopReturned st self (evs ++ events)
  | LoopIndexError self events => LoopIndexError self (evs ++ events)
  | LoopPending self events => LoopPending self (evs ++ events)
  end.

(** The [while True] loop.  Each element of [script] serves one turn: it
    says what the fetch of that turn would do and how many seconds pass
    in the turn on top of the time slept. *)
Fixpoint monitor_loop (callback : bool) (self : Monitor) (now : Z)
    (calls : nat) (last_reported_progress : Z)
    (last_reported_packages : list string) (script : list (run_outcome * Z))
    : loop_result :=
  match script with
  | [] => LoopPending self []
  | (outcome, lag) :: script' =>
      let '(st, self, w) :=
        check_build_status_full self (mkWorld now outcome calls) in
      let reports :=
        turn_reports st last_reported_progress last_reported_packages in
      let last_reported_progress :=
        if BuildStatus.progress (status st) >? last_reported_progress
        then BuildStatus.progress (status st) else last_reported_progress in
      let last_reported_packages := BuildStatus.packages_built (status st) in
      if is_terminal (BuildStatus.state (status st)) then
        LoopReturned st self reports
      else
        let called := if callback then [Callback st] else [] in
        match get_next_wait_interval self with
        | (None, self) => LoopIndexError self (reports ++ called)
        | (Some wait_time, self) =>
            add_events (reports ++ called ++ [Sleep wait_time])
              (monitor_loop callback self (now + wait_time + lag) (fetches w)
                 last_reported_progress last_reported_packages script')
        end
  end.

(** [monitor_build_to_completion] *)
Definition monitor_build_to_completion (callback : bool) (self : Monitor)
    (now : Z) (calls : nat) (script : list (run_outcome * Z)) : loop_result :=
  monitor_loop callback self now calls (-1) [] script.

(** [BuildState.value] *)
Definition state_value (s : BuildState) : string :=
  match s with
  | STARTING => "starting"
  | CONFIGURING => "configuring"
  | COMPILING_CORE => "compiling_core"
  | COMPILING_PACKAGES => "compiling_packages"
  | LINKING => "linking"
  | COMPLETED => "completed"
  | FAILED => "failed"
  | TIMEOUT => "timeout"
  end.

(** The command line after [argparse]. *)
Record Args : Type := mkArgs {
  arg_bash_id : string;
  arg_packages : list string;
  arg_max_time : Z;
  arg_single_check : bool;
  arg_output_json : bool
}.

(** The dict that [main] prints with [json.dumps]. *)
Record JsonResult : Type := mkJson {
  json_state : string;
  json_progress : Z;
  json_current_task : string;
  json_packages_built : list string;
  json_packages_total : list string;
  json_errors : nat;
  json_warnings : nat;
  json_duration : Z;
  json_success : bool
}.

Definition BuildState_eqb (a b : BuildState) : bool :=
  match a, b with
  | STARTING, STARTING | CONFIGURING, CONFIGURING
  | COMPILING_CORE, COMPILING_CORE | COMPILING_PACKAGES, COMPILING_PACKAGES
  | LINKING, LINKING | COMPLETED, COMPLETED | FAILED, FAILED
  | TIMEOUT, TIMEOUT => true
  | _, _ => false
  end.

Definition json_of (st : FullStatus) : JsonResult :=
  mkJson (state_value (BuildStatus.state (status st)))
    (BuildStatus.progress (status st))
    (current_task st)
    (BuildStatus.packages_built (status st))
    (BuildStatus.packages_total (status st))
    (length (BuildStatus.errors (status st)))
    (length (BuildStatus.warnings (status st)))
    (BuildStatus.duration (status st))
    (BuildState_eqb (BuildStatus.state (status st)) COMPLETED).

(** How [main] ends: [sys.exit(code)], with the JSON report if one was
    printed; or the script is used up with the loop still going. *)
Inductive main_result : Type :=
  | Exit (code : Z) (report : option JsonResult)
  | MainPending.

(** [main].  [now] is the clock when the monitor is built, [startup] the
    seconds that pass before its first check.  An interrupt from the
    keyboard is not part of the script. *)
Definition main (args : Args) (now startup : Z)
    (script : list (run_outcome * Z)) : main_result :=
  let monitor := init (arg_bash_id args) (Some (arg_packages args))
                   (arg_max_time args) now in
  let outcome :=
    if arg_single_check args then
      match script with
      | [] => LoopPending monitor []
      | (o, _) :: _ =>
          let '(st, self, _) :=
            check_build_status_full monitor (mkWorld (now + startup) o 0) in
          LoopReturned st self []
      end
    else monitor_build_to_completion false monitor (now + startup) 0 script in
  match outcome with
  | LoopReturned st _ _ =>
      Exit (if BuildState_eqb (BuildStatus.state (status st)) COMPLETED
            then 0 else 1)
        (if arg_output_json args then Some (json_of st) else None)
  | LoopIndexError _ _ => Exit 1 None
  | LoopPending _ _ => MainPending
  end.

(* ================================================================= *)
(** ** Derived notions used in the statements *)

(** The pattern of the progress markers given to [re.findall], without
    the parentheses of its group, which mark the text to return and do
    not change what matches. *)
Definition progress_pattern : Re.pattern := Re.compile "\[\s*\d+%\]".

(** The packages one run of the completion loop appends, as a function
    of the built list it starts from; the search is that of the loop,
    and is [re.search] for plain names. *)
Fixpoint newly_from (output : string) (packages built : list string)
    : list string :=
  match packages with
  | [] => []
  | package :: rest =>
      if Re.search_ic ("Built target package_" ++ package) output
         && negb (Py.mem package built)
      then package :: newly_from output rest (built ++ [package])
      else newly_from output rest built
  end.

(** The entry a call records for the text a failed fetch hands back. *)
Definition transport_entry (stderr : string) : list ErrorEntry :=
  if Py.truthy stderr && Py.contains "error" (Py.lower stderr)
  then [mkError stderr None true] else [].

(** The object after a call that is not timed out, field by field. *)
Definition after_check (self : Monitor) (stdout stderr : string)
    (completed : bool) : Monitor :=
  let errors1 := (errors self ++ transport_entry stderr)%list in
  let has_activity := _detect_build_activity stdout in
  let new_progress := _extract_progress self stdout in
  let progress1 :=
    if new_progress >? current_progress self then new_progress
    else current_progress self in
  let built1 :=
    (packages_built self
       ++ newly_from stdout (focus_packages self) (packages_built self))%list in
  let found := filter_lines (set_errors self errors1)
                 (Py.split_lines stdout) [] [] in
  let self1 :=
    mkMonitor (bash_id self) (focus_packages self) (max_duration self)
      (start_time self) (state self) built1 (errors1 ++ fst found)
      (warnings self ++ snd found) (wait_intervals self)
      (if has_activity then 0%nat else current_interval_index self)
      (if has_activity then 0%nat else (consecutive_no_activity self + 1)%nat)
      (milestones self) progress1 in
  set_state self1 (_update_build_state self1 stdout completed).

(** ["\n".join(lines)], the text whose lines are [lines]. *)
Fixpoint join_lines (lines : list string) : string :=
  match lines with
  | [] => ""
  | [l] => l
  | l :: rest => l ++ String Py.nl (join_lines rest)
  end.

(** Does the line loop keep the (trimmed) line as an error? *)
Definition retained_as_error (self : Monitor) (l : string) : bool :=
  Py.truthy l && negb (is_noise l)
  && (is_critical l || (is_package_line self l && has_warning_marker l))
  && negb (Py.mem l (map message (errors self))).

(** An entry whose text carries a critical marker is marked critical. *)
Definition errors_consistent (self : Monitor) : Prop :=
  forall e, In e (errors self) ->
    is_critical (message e) = true -> critical e = true.

(** The phase a call reports once a critical entry is on record. *)
Definition phase_with_critical_error (self : Monitor) (w : World)
    (st : BuildStatus.t) : BuildState :=
  if clock w - start_time self >? max_duration self then TIMEOUT
  else
    let '(stdout, _, completed) := fst (_run_bash_output w) in
    if completed
       && (Py.contains "built target driver" (Py.lower stdout)
           || (BuildStatus.progress st >=? 100))
    then COMPLETED else FAILED.

(** The text holds no line feed: it is one line of a chunk. *)
Fixpoint single_line (s : string) : bool :=
  match s with
  | EmptyString => true
  | String c s' => negb (Ascii.eqb c Py.nl) && single_line s'
  end.

(** One turn of the monitoring loop: a check, then the choice of the
    next wait. *)
Definition poll (self : Monitor) (w : World) : Monitor :=
  snd (get_next_wait_interval (snd (fst (check_build_status self w)))).

(** The interval sequence is the one of [__init__] and the index stays
    inside it. *)
Definition scheduler_ok (self : Monitor) : Prop :=
  wait_intervals self = [30; 60; 120; 240; 480; 900]
  /\ (current_interval_index self <= 5)%nat.

(** The fetch failed: a non-zero return code or an exception. *)
Definition fetch_failed (o : run_outcome) : bool :=
  match o with
  | CompletedProcess returncode _ _ => negb (returncode =? 0)
  | TimeoutExpired => true
  | OtherException _ => true
  end.

(** The text [_run_bash_output] hands back for a failed fetch. *)
Definition failure_text (o : run_outcome) : string :=
  match o with
  | CompletedProcess _ _ err => "Failed to get bash output: " ++ err
  | TimeoutExpired => "Timeout getting bash output"
  | OtherException e => "Error getting bash output: " ++ e
  end.

(** A text read as a pattern of literal characters. *)
Fixpoint literal_pattern (s : string) : Re.pattern :=
  match s with
  | EmptyString => []
  | String c s' => Re.One (Re.Lit c) :: literal_pattern s'
  end.

(** Several turns of the loop, one after the other, each in its own
    surroundings. *)
Definition polls (self : Monitor) (ws : list World) : Monitor :=
  fold_left poll ws self.

(** The text is made of whitespace only (it may be empty). *)
Fixpoint blank (s : string) : bool :=
  match s with
  | EmptyString => true
  | String c s' => Py.is_space c && blank s'
  end.

(** The pattern begins with a literal character that is not a space. *)
Definition starts_visible (p : Re.pattern) : Prop :=
  exists a rest, p = Re.One (Re.Lit a) :: rest /\ Py.is_space a = false.

(** The text is made of decimal digits only. *)
Fixpoint digits (s : string) : bool :=
  match s with
  | EmptyString => true
  | String c s' => Py.is_digit c && digits s'
  end.

(** The scan for progress markers without the bookkeeping of match
    lengths: the group of the match at each position that has one. *)
Fixpoint scan_progress (s : string) : list string :=
  match s with
  | EmptyString => []
  | String _ s' =>
      match progress_match_at s with
      | Some (p, _) => p :: scan_progress s'
      | None => scan_progress s'
      end
  end.

(** No opening bracket among the first [k] characters. *)
Fixpoint no_bracket (k : nat) (s : string) : Prop :=
  match k, s with
  | O, _ => True
  | S _, EmptyString => True
  | S k', String c s' => c <> "["%char /\ no_bracket k' s'
  end.

(** Every character of the text is accepted by the class. *)
Fixpoint all_accepted (c : ReGroup.cset) (w : string) : bool :=
  match w with
  | EmptyString => true
  | String x w' => ReGroup.accepts c x && all_accepted c w'
  end.

(** What a pattern can consume: [denotes r w cap cap'] says that the
    text [w] is in the language of [r], and that a match of [r] on [w]
    turns the group text [cap] into [cap']. *)
Fixpoint denotes (r : ReGroup.rx) (w : string) (cap cap' : option string)
    : Prop :=
  match r with
  | ReGroup.Emp => w = "" /\ cap' = cap
  | ReGroup.Chr c =>
      exists x, w = String x "" /\ ReGroup.accepts c x = true /\ cap' = cap
  | ReGroup.Rep _ plus c =>
      all_accepted c w = true /\ (plus = true -> w <> "") /\ cap' = cap
  | ReGroup.Cat a b =>
      exists w1 w2 mid,
        w = w1 ++ w2 /\ denotes a w1 cap mid /\ denotes b w2 mid cap'
  | ReGroup.Alt a b => denotes a w cap cap' \/ denotes b w cap cap'
  | ReGroup.Grp a => (exists inner, denotes a w cap inner) /\ cap' = Some w
  end.

(** The three kinds of description a line can give. *)
Definition describes (self : Monitor) (line a : string) : Prop :=
  (exists pre mid stem ext post,
     line = pre ++ "Building" ++ mid ++ stem ++ ext ++ ".o" ++ post
     /\ a = "Compiling " ++ stem ++ ext
     /\ (ext = ".cc" \/ ext = ".c")
     /\ stem <> ""
     /\ all_accepted (ReGroup.NotChar "/") stem = true)
  \/ (exists package,
        In package (focus_packages self)
        /\ Py.contains ("package_" ++ package) (Py.lower line) = true
        /\ a = "Building " ++ PyMore.upper package ++ " package")
  \/ (exists pre mid word post,
        line = pre ++ "Linking" ++ mid ++ word ++ post
        /\ a = "Linking " ++ word
        /\ word <> ""
        /\ all_accepted ReGroup.Word word = true).

(** The package names announced, the progress values printed, the
    snapshots handed to the callback and the seconds slept, in order. *)
Definition printed_packages (events : list loop_event) : list string :=
  flat_map (fun e => match e with PrintPackage p => [p] | _ => [] end) events.

Definition printed_progress (events : list loop_event) : list Z :=
  flat_map (fun e => match e with PrintProgress v _ => [v] | _ => [] end) events.

Definition callbacks (events : list loop_event) : list FullStatus :=
  flat_map (fun e => match e with Callback st => [st] | _ => [] end) events.

Definition sleeps (events : list loop_event) : list Z :=
  flat_map (fun e => match e with Sleep d => [d] | _ => [] end) events.

Definition result_events (r : loop_result) : list loop_event :=
  match r with
  | LoopReturned _ _ events => events
  | LoopIndexError _ events => events
  | LoopPending _ events => events
  end.

Definition new_packages (st : FullStatus) (last : list string) : list string :=
  filter (fun p => negb (Py.mem p last))
    (nodup string_dec (BuildStatus.packages_built (status st))).

(** The texts of the critical errors announced, in order. *)
Definition printed_criticals (events : list loop_event) : list string :=
  flat_map (fun e => match e with PrintCritical m => [m] | _ => [] end) events.

(** The number of turns that are surely enough at clock reading [now]. *)
Definition turns_needed (self : Monitor) (now : Z) : nat :=
  if now - start_time self >? max_duration self then 1%nat
  else (Z.to_nat ((max_duration self - (now - start_time self)) / 30) + 2)%nat.

(* ================================================================= *)
(** ** Normal forms of the two loops *)

(** Writing a field back leaves the object as it was. *)
Lemma set_packages_built_same (self : Monitor) :
  set_packages_built self (packages_built self) = self.
Proof. destruct self; reflexivity. Qed.

Lemma package_completions_loop_eq output packages :
  forall self newly_built,
    package_completions_loop output packages self newly_built =
    ((newly_built ++ newly_from output packages (packages_built self))%list,
     set_packages_built self
       (packages_built self ++ newly_from output packages (packages_built self))).
Proof.
  induction packages as [|package rest IH]; intros self newly_built; simpl.
  - rewrite !app_nil_r, set_packages_built_same. reflexivity.
  - destruct (Re.search_ic _ output); simpl.
    + destruct (Py.mem package (packages_built self)); simpl.
      * apply IH.
      * rewrite IH. simpl. rewrite <- !app_assoc. reflexivity.
    + apply IH.
Qed.

Lemma _extract_package_completions_eq self output :
  _extract_package_completions self output =
  (newly_from output (focus_packages self) (packages_built self),
   set_packages_built self
     (packages_built self
        ++ newly_from output (focus_packages self) (packages_built self))).
Proof.
  unfold _extract_package_completions.
  rewrite package_completions_loop_eq. reflexivity.
Qed.

(** The accumulators of the line loop only grow at the end. *)
Lemma filter_lines_acc self lines :
  forall new_errors new_warnings,
    filter_lines self lines new_errors new_warnings =
    ((new_errors ++ fst (filter_lines self lines [] []))%list,
     (new_warnings ++ snd (filter_lines self lines [] []))%list).
Proof.
  induction lines as [|line rest IH]; intros ne nw; simpl.
  - rewrite !app_nil_r. reflexivity.
  - repeat match goal with
    | |- context [if ?b then _ else _] => destruct b
    end;
    try apply IH;
    rewrite IH; rewrite (IH [_] _) || rewrite (IH _ [_]); simpl;
    rewrite <- ?app_assoc; reflexivity.
Qed.

Lemma filter_lines_ext self self' lines ne nw :
  focus_packages self' = focus_packages self ->
  errors self' = errors self ->
  warnings self' = warnings self ->
  filter_lines self' lines ne nw = filter_lines self lines ne nw.
Proof.
  intros Hf He Hw. revert ne nw.
  induction lines as [|line rest IH]; intros ne nw; simpl; [reflexivity|].
  unfold is_package_line, package_patterns. rewrite Hf, He, Hw.
  repeat match goal with
  | |- context [if ?b then _ else _] => destruct b
  end; apply IH.
Qed.

Lemma check_build_status_timeout self w :
  (clock w - start_time self >? max_duration self) = true ->
  check_build_status self w =
  (snapshot (set_state self TIMEOUT) (clock w - start_time self),
   set_state self TIMEOUT, w).
Proof. intros H. unfold check_build_status. rewrite H. reflexivity. Qed.

Lemma _extract_progress_ext self self' output :
  current_progress self' = current_progress self ->
  milestones self' = milestones self ->
  focus_packages self' = focus_packages self ->
  _extract_progress self' output = _extract_progress self output.
Proof.
  intros Hp Hm Hf. unfold _extract_progress. rewrite Hp, Hm, Hf. reflexivity.
Qed.

Lemma check_build_status_live self w :
  (clock w - start_time self >? max_duration self) = false ->
  check_build_status self w =
  let '((stdout, stderr, completed), w') := _run_bash_output w in
  (snapshot (after_check self stdout stderr completed)
     (clock w - start_time self),
   after_check self stdout stderr completed, w').
Proof.
  intros H. unfold check_build_status. rewrite H.
  destruct (_run_bash_output w) as [[[stdout stderr] completed] w'].
  unfold after_check, transport_entry.
  destruct (Py.truthy stderr && Py.contains "error" (Py.lower stderr));
  destruct (_detect_build_activity stdout);
  cbv zeta; rewrite ?app_nil_r;
  rewrite (_extract_progress_ext self) by reflexivity;
  cbn [current_progress set_current_interval_index
       set_consecutive_no_activity set_state set_errors];
  destruct (_extract_progress self stdout >? current_progress self);
  rewrite _extract_package_completions_eq;
  unfold _filter_errors_and_warnings;
  match goal with
  | |- context [filter_lines (set_errors self ?e) ?l [] []] =>
      match goal with
      | |- context [let '(_, _) := filter_lines ?m l [] [] in _] =>
          rewrite (filter_lines_ext (set_errors self e) m l [] [])
            by reflexivity
      end
  end;
  match goal with
  | |- context [filter_lines ?m ?l [] []] =>
      destruct (filter_lines m l [] []) as [new_errors new_warnings]
  end;
  destruct self; reflexivity.
Qed.

(** Case analysis on a call: timed out, or live with the triple that
    [_run_bash_output] hands back. *)
Ltac check_cases self w :=
  let T := fresh "Htimeout" in
  destruct (clock w - start_time self >? max_duration self) eqn:T;
  [ rewrite (check_build_status_timeout self w T)
  | rewrite (check_build_status_live self w T);
    let stdout := fresh "stdout" in
    let stderr := fresh "stderr" in
    let completed := fresh "completed" in
    let w' := fresh "w'" in
    let R := fresh "Hrun" in
    destruct (_run_bash_output w) as [[[stdout stderr] completed] w'] eqn:R ].

(* ================================================================= *)
(** ** The progress scanner against its pattern

    [progress_match_at] finds a match at a position exactly when the
    backtracking matcher finds one for the source's pattern. *)

Lemma digit_not_space x : Py.is_digit x = true -> Py.is_space x = false.
Proof.
  destruct x as [[] [] [] [] [] [] [] []]; vm_compute; congruence.
Qed.

Lemma star_then_spaces (k : string -> bool) :
  (forall x s, k (String x s) = true -> Py.is_space x = false) ->
  forall s, Re.star_then false Re.Space k s = k (snd (skip_spaces s)).
Proof.
  intros Hk. induction s as [|x s IH]; cbn [Re.star_then skip_spaces Re.accepts].
  - cbn [snd]. apply orb_false_r.
  - destruct (Py.is_space x) eqn:E.
    + destruct (skip_spaces s) as [n r] eqn:R. cbn [snd] in *.
      rewrite IH. destruct (k (String x s)) eqn:K; [|reflexivity].
      apply Hk in K. congruence.
    + cbn [snd andb]. apply orb_false_r.
Qed.

Lemma star_then_digits (k : string -> bool) :
  (forall x s, k (String x s) = true -> Py.is_digit x = false) ->
  forall s, Re.star_then false Re.Digit k s = k (snd (take_digits s)).
Proof.
  intros Hk. induction s as [|x s IH]; cbn [Re.star_then take_digits Re.accepts].
  - cbn [snd]. apply orb_false_r.
  - destruct (Py.is_digit x) eqn:E.
    + destruct (take_digits s) as [n r] eqn:R. cbn [snd] in *.
      rewrite IH. destruct (k (String x s)) eqn:K; [|reflexivity].
      apply Hk in K. congruence.
    + cbn [snd andb]. apply orb_false_r.
Qed.

Lemma progress_match_at_regex s :
  Re.match_here false progress_pattern s =
  match progress_match_at s with Some _ => true | None => false end.
Proof.
  change progress_pattern with
    [Re.One (Re.Lit "["); Re.Star Re.Space; Re.Plus Re.Digit;
     Re.One (Re.Lit "%"); Re.One (Re.Lit "]")].
  destruct s as [|c s1]; [reflexivity|].
  cbn [Re.match_here Re.accepts].
  destruct (Ascii.eqb_spec "[" c) as [<-|Hc].
  - cbn [andb progress_match_at].
    rewrite star_then_spaces.
    + destruct (skip_spaces s1) as [n s2]. cbn [snd].
      destruct s2 as [|d s3]; [reflexivity|].
      cbn [take_digits].
      destruct (Py.is_digit d) eqn:D; [|reflexivity].
      cbn [andb]. rewrite star_then_digits.
      * destruct (take_digits s3) as [ds s4]. cbn [snd].
        destruct s4 as [|p s5]; [reflexivity|].
        destruct (Ascii.eqb_spec "%" p) as [<-|Hp].
        -- destruct s5 as [|q s6]; [reflexivity|].
           destruct (Ascii.eqb_spec "]" q) as [<-|Hq]; [reflexivity|].
           cbn [andb]. 
           destruct q as [[] [] [] [] [] [] [] []]; try reflexivity; congruence.
        -- cbn [andb].
           destruct p as [[] [] [] [] [] [] [] []]; try reflexivity; congruence.
      * intros x s K. destruct (Ascii.eqb_spec "%" x) as [<-|]; [reflexivity|discriminate].
    + intros x s K. apply andb_prop in K as [K _].
      destruct (Py.is_space x) eqn:E; [|reflexivity].
      destruct (Py.is_digit x) eqn:D'; [|discriminate].
      apply digit_not_space in D'. congruence.
  - cbn [andb].
    destruct c as [[] [] [] [] [] [] [] []]; try reflexivity; congruence.
Qed.

(* ================================================================= *)
(** ** Progress *)

Lemma check_progress self w :
  BuildStatus.progress (fst (fst (check_build_status self w))) =
    current_progress (snd (fst (check_build_status self w)))
  /\ current_progress self
       <= current_progress (snd (fst (check_build_status self w))).
Proof.
  check_cases self w; cbn.
  - split; [reflexivity | lia].
  - split; [reflexivity|].
    destruct (_extract_progress self stdout >? current_progress self) eqn:E.
    + apply Z.gtb_lt in E. lia.
    + lia.
Qed.

Lemma run_session_progress es :
  forall self calls,
    let sts := fst (fst (run_session self calls es)) in
    Forall (Z.le (current_progress self)) (map BuildStatus.progress sts)
    /\ Sorted.StronglySorted Z.le (map BuildStatus.progress sts).
Proof.
  induction es as [|e es IH]; intros self calls; cbn.
  - split; constructor.
  - unfold call.
    pose proof (check_progress self (world_at e calls)) as [Hsnap Hle].
    destruct (check_build_status self (world_at e calls)) as [[st self1] w1].
    cbn in Hsnap, Hle.
    specialize (IH self1 (fetches w1)).
    destruct (run_session self1 (fetches w1) es) as [[sts self2] calls2].
    cbn in IH |- *. destruct IH as [Hall Hsorted].
    assert (Hall' : Forall (Z.le (BuildStatus.progress st))
                      (map BuildStatus.progress sts)).
    { rewrite Hsnap. exact Hall. }
    split.
    + constructor; [lia|].
      eapply Forall_impl; [|exact Hall]. cbn; intros; lia.
    + constructor; assumption.
Qed.

(** C1.  Within one session the progress reported by [check_build_status]
    never decreases from one call to the next, whatever the chunks are and
    in whatever order or repetition they come: the reported values of any
    session, preceded by the progress the object started with, form a
    non-decreasing sequence.  And a call leaves [current_progress] as it
    was unless it is live and the value extracted from its chunk is
    strictly greater, in which case that value replaces it. *)
Theorem C1_progress_non_decreasing :
  forall (self : Monitor) (calls : nat) (es : list step_env),
    Sorted.StronglySorted Z.le
      (current_progress self
         :: map BuildStatus.progress (fst (fst (run_session self calls es))))
    /\ (forall w : World,
         let self' := snd (fst (check_build_status self w)) in
         let chunk := fst (fst (fst (_run_bash_output w))) in
         BuildStatus.progress (fst (fst (check_build_status self w)))
           = current_progress self'
         /\ (current_progress self' = current_progress self
             \/ (clock w - start_time self <= max_duration self
                 /\ current_progress self < _extract_progress self chunk
                 /\ current_progress self' = _extract_progress self chunk))).
Proof.
  intros self calls es. split.
  - destruct (run_session_progress es self calls) as [Hall Hsorted].
    constructor; assumption.
  - intros w. cbv zeta. split; [apply check_progress|].
    check_cases self w; cbn.
    + left; reflexivity.
    + destruct (_extract_progress self stdout >? current_progress self) eqn:E.
      * right. apply Z.gtb_lt in E.
        assert (clock w - start_time self <= max_duration self).
        { destruct (Z.gtb_spec (clock w - start_time self) (max_duration self));
            [discriminate | lia]. }
        repeat split; [assumption | lia].
      * left; reflexivity.
Qed.

(* ================================================================= *)
(** ** What every call preserves *)

Lemma reaches_trans self0 self1 self2 :
  reaches self0 self1 -> reaches self1 self2 -> reaches self0 self2.
Proof.
  intros H01 H12. induction H12.
  - exact H01.
  - apply reaches_check. assumption.
  - apply reaches_wait. assumption.
Qed.

Lemma reachable_init bash_id focus max_duration now :
  reachable (init bash_id focus max_duration now).
Proof. do 4 eexists. apply reaches_refl. Qed.

Lemma reachable_reaches self self' :
  reachable self -> reaches self self' -> reachable self'.
Proof.
  intros (b & f & d & n & H) H'. exists b, f, d, n.
  eapply reaches_trans; eassumption.
Qed.

(** An invariant of the two methods holds of whatever they reach. *)
Lemma reaches_invariant (P : Monitor -> Prop) :
  (forall self w, P self -> P (snd (fst (check_build_status self w)))) ->
  (forall self, P self -> P (snd (get_next_wait_interval self))) ->
  forall self0 self, P self0 -> reaches self0 self -> P self.
Proof.
  intros Hcheck Hwait self0 self H0 H. induction H; auto.
Qed.

(** The fields no method writes. *)
Lemma reaches_constants self0 self :
  reaches self0 self ->
  start_time self = start_time self0
  /\ max_duration self = max_duration self0
  /\ focus_packages self = focus_packages self0
  /\ wait_intervals self = wait_intervals self0
  /\ milestones self = milestones self0.
Proof.
  apply (reaches_invariant (fun m =>
    start_time m = start_time self0
    /\ max_duration m = max_duration self0
    /\ focus_packages m = focus_packages self0
    /\ wait_intervals m = wait_intervals self0
    /\ milestones m = milestones self0)).
  - intros m w H. check_cases m w; exact H.
  - intros m H. unfold get_next_wait_interval.
    destruct (2 <? consecutive_no_activity m)%nat; exact H.
  - repeat split.
Qed.

(* ================================================================= *)
(** ** Signal extraction *)

(** One turn of the loop, seen from outside: the line adds one error
    entry or nothing, and never a warning entry. *)
Lemma filter_lines_cons self line rest :
  filter_lines self (line :: rest) [] [] =
  let l := Py.strip line in
  let r := filter_lines self rest [] [] in
  if retained_as_error self l then
    (mkError l (Some (is_package_line self l)) (is_critical l) :: fst r, snd r)
  else r.
Proof.
  cbv zeta. unfold retained_as_error. cbn [filter_lines].
  destruct (Py.truthy (Py.strip line)); cbn [negb andb]; [|reflexivity].
  destruct (is_noise (Py.strip line)); cbn [negb andb]; [reflexivity|].
  destruct (is_critical (Py.strip line));
  destruct (is_package_line self (Py.strip line));
  destruct (has_warning_marker (Py.strip line));
  cbn [negb andb orb]; try reflexivity;
  destruct (Py.mem (Py.strip line) (map message (errors self)));
  cbn [negb]; try reflexivity;
  rewrite filter_lines_acc; reflexivity.
Qed.

(** The loop never fills [new_warnings]. *)
Lemma filter_lines_no_warnings self lines :
  snd (filter_lines self lines [] []) = [].
Proof.
  induction lines as [|line rest IH]; [reflexivity|].
  rewrite filter_lines_cons. cbv zeta.
  destruct (retained_as_error self (Py.strip line)); exact IH.
Qed.

(** The entries the loop returns are exactly those of the lines it
    keeps, in the order of the lines. *)
Lemma filter_lines_errors self lines :
  fst (filter_lines self lines [] []) =
  map (fun l => mkError l (Some (is_package_line self l)) (is_critical l))
    (filter (retained_as_error self) (map Py.strip lines)).
Proof.
  induction lines as [|line rest IH]; [reflexivity|].
  rewrite filter_lines_cons. cbv zeta. cbn [map filter].
  destruct (retained_as_error self (Py.strip line)); cbn [fst map];
    rewrite IH; reflexivity.
Qed.

Lemma in_filter_lines_errors self lines e :
  In e (fst (filter_lines self lines [] [])) <->
  exists line,
    In line lines
    /\ retained_as_error self (Py.strip line) = true
    /\ e = mkError (Py.strip line)
             (Some (is_package_line self (Py.strip line)))
             (is_critical (Py.strip line)).
Proof.
  rewrite filter_lines_errors, in_map_iff. split.
  - intros (l & <- & Hin). apply filter_In in Hin as [Hin Hret].
    apply in_map_iff in Hin as (line & <- & Hline).
    exists line. auto.
  - intros (line & Hline & Hret & ->). exists (Py.strip line).
    split; [reflexivity|]. apply filter_In. split; [|exact Hret].
    apply in_map. exact Hline.
Qed.

Lemma mem_true_iff x xs : Py.mem x xs = true <-> In x xs.
Proof.
  unfold Py.mem. rewrite existsb_exists. split.
  - intros (y & Hy & E). apply String.eqb_eq in E. subst. exact Hy.
  - intros H. exists x. split; [exact H | apply String.eqb_refl].
Qed.

(** A line recorded before the call is not appended again by the call. *)
Lemma filter_lines_skips_recorded self lines e :
  In e (fst (filter_lines self lines [] [])) ->
  ~ In (message e) (map message (errors self)).
Proof.
  intros H. apply in_filter_lines_errors in H as (line & _ & Hret & ->).
  cbn [message]. unfold retained_as_error in Hret.
  apply andb_prop in Hret as [_ Hmem]. apply negb_true_iff in Hmem.
  intros Hin. apply mem_true_iff in Hin. congruence.
Qed.

(** C2.  The errors list does not stay free of repeated messages.  A
    line that occurs twice in one chunk is appended twice, because the
    membership test of the loop looks at the entries recorded before the
    call and not at those collected during it; and the entry written
    after a failed fetch is appended without any membership test, so two
    fetches failing alike leave two entries with one message. *)
Theorem C2_duplicate_messages_recorded :
  let self0 := init "build" None 3600 0 in
  let chunk := join_lines ["error: x"; "error: x"] in
  let once := check_build_status self0
                (mkWorld 1 (CompletedProcess 0 chunk "") 0) in
  let twice := run_session self0 0
                 [(1, OtherException "pipe closed");
                  (2, OtherException "pipe closed")] in
  map message (BuildStatus.errors (fst (fst once))) = ["error: x"; "error: x"]
  /\ ~ NoDup (map message (BuildStatus.errors (fst (fst once))))
  /\ map message (errors (snd (fst twice)))
     = ["Error getting bash output: pipe closed";
        "Error getting bash output: pipe closed"]
  /\ ~ NoDup (map message (errors (snd (fst twice)))).
Proof.
  cbv zeta.
  assert (E1 : map message (BuildStatus.errors (fst (fst
            (check_build_status (init "build" None 3600 0)
               (mkWorld 1 (CompletedProcess 0
                  (join_lines ["error: x"; "error: x"]) "") 0)))))
          = ["error: x"; "error: x"]) by (vm_compute; reflexivity).
  assert (E2 : map message (errors (snd (fst
            (run_session (init "build" None 3600 0) 0
               [(1, OtherException "pipe closed");
                (2, OtherException "pipe closed")]))))
          = ["Error getting bash output: pipe closed";
             "Error getting bash output: pipe closed"])
    by (vm_compute; reflexivity).
  rewrite E1, E2. repeat split.
  - intros H. inversion H as [|? ? Hnot _]. apply Hnot. left. reflexivity.
  - intros H. inversion H as [|? ? Hnot _]. apply Hnot. left. reflexivity.
Qed.

Lemma warning_marker_truthy l :
  has_warning_marker l = true -> Py.truthy l = true.
Proof. destruct l; [discriminate | reflexivity]. Qed.

Lemma check_warnings_unchanged self w :
  warnings (snd (fst (check_build_status self w))) = warnings self.
Proof.
  check_cases self w; cbn; [reflexivity|].
  rewrite filter_lines_no_warnings. apply app_nil_r.
Qed.

Lemma plain_warning_retained self output line :
  In line (Py.split_lines output) ->
  has_warning_marker (Py.strip line) = true ->
  is_package_line self (Py.strip line) = false ->
  (In (Py.strip line)
      (map message (fst (_filter_errors_and_warnings self output)))
   <-> is_critical (Py.strip line) = true
       /\ is_noise (Py.strip line) = false
       /\ ~ In (Py.strip line) (map message (errors self))).
Proof.
  intros Hin Hwarn Hpkg. unfold _filter_errors_and_warnings. split.
  - intros H. apply in_map_iff in H as (e & Hmsg & He).
    apply in_filter_lines_errors in He as (line' & _ & Hret & ->).
    cbn [message] in Hmsg. rewrite Hmsg in Hret.
    unfold retained_as_error in Hret. rewrite Hpkg in Hret.
    cbn [andb] in Hret. rewrite orb_false_r in Hret.
    apply andb_prop in Hret as [Hret Hmem].
    apply andb_prop in Hret as [Hret Hcrit].
    apply andb_prop in Hret as [_ Hnoise].
    apply negb_true_iff in Hnoise, Hmem.
    repeat split; auto.
    intros Hrec. apply mem_true_iff in Hrec. congruence.
  - intros (Hcrit & Hnoise & Hnew).
    apply in_map_iff.
    exists (mkError (Py.strip line)
              (Some (is_package_line self (Py.strip line)))
              (is_critical (Py.strip line))).
    split; [reflexivity|].
    apply in_filter_lines_errors. exists line.
    split; [exact Hin|]. split; [|reflexivity].
    unfold retained_as_error.
    rewrite (warning_marker_truthy _ Hwarn), Hnoise, Hcrit.
    cbn [negb andb orb].
    destruct (Py.mem (Py.strip line) (map message (errors self))) eqn:Hmem;
      [|reflexivity].
    apply mem_true_iff in Hmem. contradiction.
Qed.

(** C10 (amended).  Signal extraction never returns a plain warning: the
    list of new warnings is empty for every chunk, so no call, and no
    sequence of calls, changes the warnings list of the session.  A line
    that carries the warning marker and is target-related is taken by
    the first retention branch: unless its text is recorded already it
    is returned as an error entry marked target-related.  A line that is
    not target-related owes nothing to its warning marker: an entry that
    is not target-related is there for its critical marker alone, and a
    warning line that is not target-related is retained, as an error,
    exactly when it matches a critical-error pattern and no noise
    pattern and its text is not recorded yet. *)
Theorem C10_no_plain_warnings :
  forall (self : Monitor) (output : string),
    snd (_filter_errors_and_warnings self output) = []
    /\ (forall w : World,
          warnings (snd (fst (check_build_status self w))) = warnings self)
    /\ (forall self', reaches self self' -> warnings self' = warnings self)
    /\ (forall line : string,
          In line (Py.split_lines output) ->
          is_noise (Py.strip line) = false ->
          has_warning_marker (Py.strip line) = true ->
          is_package_line self (Py.strip line) = true ->
          In (Py.strip line) (map message (errors self))
          \/ In (mkError (Py.strip line) (Some true)
                   (is_critical (Py.strip line)))
                (fst (_filter_errors_and_warnings self output)))
    /\ (forall e : ErrorEntry,
          In e (fst (_filter_errors_and_warnings self output)) ->
          package_related e = Some false -> critical e = true)
    /\ (forall line : string,
          In line (Py.split_lines output) ->
          has_warning_marker (Py.strip line) = true ->
          is_package_line self (Py.strip line) = false ->
          (In (Py.strip line)
              (map message (fst (_filter_errors_and_warnings self output)))
           <-> is_critical (Py.strip line) = true
               /\ is_noise (Py.strip line) = false
               /\ ~ In (Py.strip line) (map message (errors self)))).
Proof.
  intros self output.
  split; [apply filter_lines_no_warnings|].
  split; [apply check_warnings_unchanged|].
  split; [|split; [|split]];
    [| | |intros line Hin Hwarn Hpkg;
          exact (plain_warning_retained self output line Hin Hwarn Hpkg)];
    unfold _filter_errors_and_warnings.
  - intros self' H.
    apply (reaches_invariant (fun m => warnings m = warnings self))
      with (self0 := self); auto.
    + intros m w Hm. rewrite check_warnings_unchanged. exact Hm.
    + intros m Hm. unfold get_next_wait_interval.
      destruct (2 <? consecutive_no_activity m)%nat; exact Hm.
  - intros line Hin Hnoise Hwarn Hpkg.
    destruct (Py.mem (Py.strip line) (map message (errors self))) eqn:Hmem.
    + left. apply mem_true_iff. exact Hmem.
    + right. apply in_filter_lines_errors. exists line.
      split; [exact Hin|]. split.
      * unfold retained_as_error.
        rewrite (warning_marker_truthy _ Hwarn), Hnoise, Hpkg, Hwarn, Hmem.
        destruct (is_critical (Py.strip line)); reflexivity.
      * rewrite Hpkg. reflexivity.
  - intros e Hin Hrel.
    apply in_filter_lines_errors in Hin as (line & _ & Hret & ->).
    cbn [package_related critical] in Hrel |- *. injection Hrel as Hpkg.
    unfold retained_as_error in Hret. rewrite Hpkg in Hret.
    destruct (is_critical (Py.strip line)); [reflexivity|].
    cbn [orb andb] in Hret. rewrite andb_false_r in Hret. discriminate.
Qed.

(** An instance of C10: a target-related warning line comes back as an
    error entry, and the warnings list stays empty. *)
Lemma C10_no_plain_warnings_witness :
  let self0 := init "build" None 3600 0 in
  let line := "src/packages/http/http.cc:12:3: warning: unused variable" in
  In line (map message (errors self0))
  \/ In (mkError line (Some true) false)
        (fst (_filter_errors_and_warnings self0 line)).
Proof.
  cbv zeta.
  exact (proj1 (proj2 (proj2 (proj2
    (C10_no_plain_warnings (init "build" None 3600 0)
       "src/packages/http/http.cc:12:3: warning: unused variable"))))
    "src/packages/http/http.cc:12:3: warning: unused variable"
    (or_introl eq_refl) eq_refl eq_refl eq_refl).
Defined.

(** C10 as stated fails in its last part: a warning line that is not
    target-related is retained when it also matches a critical-error
    pattern.  The line below carries the warning marker, names no
    tracked package and matches [cmake.*error]; it is returned and
    recorded as a critical error, and the call reports [FAILED]. *)
Lemma C10_counterexample :
  let self0 := init "build" None 3600 0 in
  let line := "CMake Warning: missing error handler" in
  let w := mkWorld 1 (CompletedProcess 0 line "") 0 in
  has_warning_marker (Py.strip line) = true
  /\ is_package_line self0 (Py.strip line) = false
  /\ fst (_filter_errors_and_warnings self0 line)
     = [mkError line (Some false) true]
  /\ BuildStatus.errors (fst (fst (check_build_status self0 w)))
     = [mkError line (Some false) true]
  /\ BuildStatus.state (fst (fst (check_build_status self0 w))) = FAILED.
Proof. cbv zeta. vm_compute. repeat split. Qed.

(* ================================================================= *)
(** ** Critical errors and the phase *)

(** The errors list only grows, and in a live call by the entry of the
    failed fetch followed by the entries of the chunk. *)
Lemma check_errors self w :
  errors (snd (fst (check_build_status self w))) =
  if clock w - start_time self >? max_duration self then errors self
  else
    let '(stdout, stderr, _) := fst (_run_bash_output w) in
    let errors1 := (errors self ++ transport_entry stderr)%list in
    (errors1
       ++ fst (filter_lines (set_errors self errors1)
                 (Py.split_lines stdout) [] []))%list.
Proof. check_cases self w; reflexivity. Qed.

Lemma check_errors_grow self w :
  exists more,
    errors (snd (fst (check_build_status self w))) = (errors self ++ more)%list.
Proof.
  rewrite check_errors.
  destruct (clock w - start_time self >? max_duration self).
  - exists []. symmetry. apply app_nil_r.
  - destruct (_run_bash_output w) as [[[stdout stderr] completed] w'].
    cbn [fst]. eexists. rewrite <- app_assoc. reflexivity.
Qed.

Lemma wait_errors self :
  errors (snd (get_next_wait_interval self)) = errors self.
Proof.
  unfold get_next_wait_interval.
  destruct (2 <? consecutive_no_activity self)%nat; reflexivity.
Qed.

Lemma transport_entry_critical stderr e :
  In e (transport_entry stderr) -> critical e = true.
Proof.
  unfold transport_entry.
  destruct (Py.truthy stderr && Py.contains "error" (Py.lower stderr));
    cbn; [intros [<-|[]]; reflexivity | intros []].
Qed.

Lemma reachable_errors_consistent self :
  reachable self -> errors_consistent self.
Proof.
  intros (b & f & d & n & H).
  apply (reaches_invariant errors_consistent) with (self0 := init b f d n).
  - intros m w Hm e. rewrite check_errors.
    destruct (clock w - start_time m >? max_duration m); [apply Hm|].
    destruct (_run_bash_output w) as [[[stdout stderr] completed] w'].
    cbn [fst]. rewrite !in_app_iff. intros [[He|He]|He] Hc.
    + apply Hm; assumption.
    + eapply transport_entry_critical; eassumption.
    + apply in_filter_lines_errors in He as (line & _ & _ & ->). exact Hc.
  - intros m Hm e. rewrite wait_errors. apply Hm.
  - intros e [].
  - exact H.
Qed.

Lemma is_critical_truthy l : is_critical l = true -> Py.truthy l = true.
Proof. destruct l; [vm_compute; discriminate | reflexivity]. Qed.

Lemma existsb_critical_app (l1 l2 : list ErrorEntry) :
  existsb critical l1 = true -> existsb critical (l1 ++ l2) = true.
Proof. intros H. rewrite existsb_app, H. reflexivity. Qed.

Lemma existsb_true_nonempty (l : list ErrorEntry) :
  existsb critical l = true -> exists e l', l = e :: l'.
Proof. destruct l; [discriminate | eauto]. Qed.

Lemma critical_recorded_phase self w :
  existsb critical (errors self) = true ->
  let st := fst (fst (check_build_status self w)) in
  BuildStatus.state st = phase_with_critical_error self w st.
Proof.
  intros Hc. cbv zeta. unfold phase_with_critical_error.
  check_cases self w; cbn [fst snd snapshot BuildStatus.state
    BuildStatus.progress]; [reflexivity|].
  unfold after_check. cbv zeta.
  cbn [state set_state current_progress].
  unfold _update_build_state.
  cbn [current_progress errors].
  set (errs := ((errors self ++ transport_entry stderr) ++ _)%list).
  assert (He : existsb critical errs = true).
  { subst errs. rewrite <- app_assoc. apply existsb_critical_app, Hc. }
  destruct completed; cbn [andb].
  - destruct (Py.contains "built target driver" (Py.lower stdout) || _);
      [reflexivity|].
    destruct (existsb_true_nonempty _ He) as (e & l' & ->). reflexivity.
  - rewrite He. reflexivity.
Qed.

Lemma reaches_keeps_critical self self' :
  existsb critical (errors self) = true ->
  reaches self self' ->
  existsb critical (errors self') = true.
Proof.
  intros Hc H.
  apply (reaches_invariant (fun m => existsb critical (errors m) = true))
    with (self0 := self); auto.
  - intros m w Hm. destruct (check_errors_grow m w) as [more ->].
    apply existsb_critical_app, Hm.
  - intros m Hm. rewrite wait_errors. exact Hm.
Qed.

(** A live call whose chunk holds a critical line that no noise pattern
    masks has a critical entry on record when it derives the phase. *)
Lemma critical_line_recorded self w stdout stderr completed w' line :
  errors_consistent self ->
  (clock w - start_time self >? max_duration self) = false ->
  _run_bash_output w = ((stdout, stderr, completed), w') ->
  In line (Py.split_lines stdout) ->
  is_critical (Py.strip line) = true ->
  is_noise (Py.strip line) = false ->
  existsb critical (errors (snd (fst (check_build_status self w)))) = true.
Proof.
  intros Hcons Hlive Hrun Hin Hcrit Hnoise.
  rewrite check_errors, Hlive, Hrun. cbn [fst].
  set (errors1 := (errors self ++ transport_entry stderr)%list).
  apply existsb_exists.
  destruct (Py.mem (Py.strip line) (map message errors1)) eqn:Hmem.
  - apply mem_true_iff, in_map_iff in Hmem as (e & Hmsg & He).
    exists e. split; [apply in_or_app; left; exact He|].
    subst errors1. apply in_app_or in He as [He|He].
    + apply Hcons; [exact He | rewrite Hmsg; exact Hcrit].
    + eapply transport_entry_critical; eassumption.
  - exists (mkError (Py.strip line)
              (Some (is_package_line (set_errors self errors1) (Py.strip line)))
              (is_critical (Py.strip line))).
    split; [|exact Hcrit].
    apply in_or_app; right. apply in_filter_lines_errors.
    exists line. split; [exact Hin|]. split; [|reflexivity].
    unfold retained_as_error. cbn [errors set_errors].
    rewrite (is_critical_truthy _ Hcrit), Hnoise, Hcrit, Hmem. reflexivity.
Qed.

Lemma live_running_critical_failed self w stdout stderr w' :
  (clock w - start_time self >? max_duration self) = false ->
  _run_bash_output w = ((stdout, stderr, false), w') ->
  existsb critical (errors (snd (fst (check_build_status self w)))) = true ->
  BuildStatus.state (fst (fst (check_build_status self w))) = FAILED.
Proof.
  intros Hlive Hrun. rewrite (check_build_status_live self w Hlive), Hrun.
  cbn [fst snd snapshot BuildStatus.state].
  unfold after_check. cbv zeta. cbn [state errors set_state].
  unfold _update_build_state. cbn [errors].
  intros ->. reflexivity.
Qed.

(** C3 (amended).  In a session started from a fresh monitor whose
    tracked names are plain, so that no search raises [re.error], a live
    call with the completed flag off whose chunk holds a line that, once
    trimmed, matches a critical-error pattern and no noise pattern
    returns [FAILED].  From then on a critical entry stays on record, and
    every later call returns [TIMEOUT] if it is past the deadline,
    [COMPLETED] if the completed flag is on and either the chunk has the
    final-target marker or progress has reached 100, and [FAILED] in
    every other case. *)
Theorem C3_critical_line_forces_failed :
  forall (self : Monitor) (w : World) (stdout stderr : string) (w' : World)
         (line : string),
    reachable self ->
    plain_names self = true ->
    (clock w - start_time self >? max_duration self) = false ->
    _run_bash_output w = ((stdout, stderr, false), w') ->
    In line (Py.split_lines stdout) ->
    is_critical (Py.strip line) = true ->
    is_noise (Py.strip line) = false ->
    BuildStatus.state (fst (fst (check_build_status self w))) = FAILED
    /\ (forall later : Monitor,
          reaches (snd (fst (check_build_status self w))) later ->
          forall w2 : World,
            let st2 := fst (fst (check_build_status later w2)) in
            BuildStatus.state st2 = phase_with_critical_error later w2 st2).
Proof.
  intros self w stdout stderr w' line Hreach Hplain Hlive Hrun Hin Hcrit Hnoise.
  assert (Hrec : existsb critical
            (errors (snd (fst (check_build_status self w)))) = true).
  { eapply critical_line_recorded; eauto using reachable_errors_consistent. }
  split.
  - eapply live_running_critical_failed; eassumption.
  - intros later Hlater w2. apply critical_recorded_phase.
    eapply reaches_keeps_critical; eassumption.
Qed.

(** An instance of C3: a compiler error in the first chunk of a fresh
    session. *)
Lemma C3_critical_line_forces_failed_witness :
  let self0 := init "build" None 3600 0 in
  let chunk := "core.cc:10:5: error: expected ';' before 'return'" in
  let w := mkWorld 1 (CompletedProcess 0 chunk "") 0 in
  BuildStatus.state (fst (fst (check_build_status self0 w))) = FAILED
  /\ (forall later : Monitor,
        reaches (snd (fst (check_build_status self0 w))) later ->
        forall w2 : World,
          let st2 := fst (fst (check_build_status later w2)) in
          BuildStatus.state st2 = phase_with_critical_error later w2 st2).
Proof.
  cbv zeta.
  apply (C3_critical_line_forces_failed
           (init "build" None 3600 0)
           (mkWorld 1 (CompletedProcess 0
              "core.cc:10:5: error: expected ';' before 'return'" "") 0)
           "core.cc:10:5: error: expected ';' before 'return'" ""
           (mkWorld 1 (CompletedProcess 0
              "core.cc:10:5: error: expected ';' before 'return'" "") 1)
           "core.cc:10:5: error: expected ';' before 'return'").
  - apply reachable_init.
  - reflexivity.
  - reflexivity.
  - reflexivity.
  - left. reflexivity.
  - vm_compute. reflexivity.
  - vm_compute. reflexivity.
Defined.

(** C3 as stated fails in three ways.  A line that matches a critical
    pattern and a noise pattern is dropped before classification, and the
    call reports [COMPILING_CORE].  After a call that reported [FAILED],
    a call with the completed flag on and the final-target marker in its
    chunk reports [COMPLETED], and a call past the deadline reports
    [TIMEOUT]. *)
Lemma C3_counterexample :
  let self0 := init "build" None 3600 0 in
  let masked := "warning: libevent error: boom" in
  let w0 := mkWorld 1 (CompletedProcess 0 masked "") 0 in
  let sts := fst (fst (run_session self0 0
               [(1, CompletedProcess 0 "core.cc:1:1: error: boom" "");
                (2, CompletedProcess 0 "Built target driver status:completed" "");
                (3601, CompletedProcess 0 "" "")])) in
  (In masked (Py.split_lines masked)
   /\ is_critical (Py.strip masked) = true
   /\ snd (fst (_run_bash_output w0)) = false
   /\ BuildStatus.state (fst (fst (check_build_status self0 w0)))
      = COMPILING_CORE)
  /\ map BuildStatus.state sts = [FAILED; COMPLETED; TIMEOUT].
Proof.
  cbv zeta. split; [split; [left; reflexivity|]|]; vm_compute; auto.
Qed.

(** C4 (amended).  In a live call whose fetch reports the process as
    completed, the phase is [COMPLETED] if the chunk has the final-target
    marker or progress has reached 100; otherwise it is [FAILED] exactly
    when the errors list is not empty, whether its entries are critical
    or not, and [COMPLETED] when the list is empty. *)
Theorem C4_completed_phase :
  forall (self : Monitor) (w : World) (stdout stderr : string) (w' : World),
    (clock w - start_time self >? max_duration self) = false ->
    _run_bash_output w = ((stdout, stderr, true), w') ->
    let st := fst (fst (check_build_status self w)) in
    BuildStatus.state st =
      if Py.contains "built target driver" (Py.lower stdout)
         || (BuildStatus.progress st >=? 100)
      then COMPLETED
      else match BuildStatus.errors st with
           | [] => COMPLETED
           | _ :: _ => FAILED
           end.
Proof.
  intros self w stdout stderr w' Hlive Hrun. cbv zeta.
  rewrite (check_build_status_live self w Hlive), Hrun.
  cbn [fst snd snapshot BuildStatus.state BuildStatus.progress
       BuildStatus.errors].
  unfold after_check. cbv zeta.
  cbn [state errors current_progress set_state].
  unfold _update_build_state. cbn [andb current_progress errors].
  destruct (Py.contains "built target driver" (Py.lower stdout) || _);
    [reflexivity|].
  destruct ((errors self ++ transport_entry stderr) ++ _)%list; reflexivity.
Qed.

(** An instance of C4: the process completes with nothing on record. *)
Lemma C4_completed_phase_witness :
  let self0 := init "build" None 3600 0 in
  let w := mkWorld 1 (CompletedProcess 0 "status:completed" "") 0 in
  BuildStatus.state (fst (fst (check_build_status self0 w))) = COMPLETED.
Proof.
  cbv zeta.
  exact (C4_completed_phase (init "build" None 3600 0)
           (mkWorld 1 (CompletedProcess 0 "status:completed" "") 0)
           "status:completed" ""
           (mkWorld 1 (CompletedProcess 0 "status:completed" "") 1)
           eq_refl eq_refl).
Defined.

(** C4 as stated fails: a target-related warning is recorded as an error
    entry that is not critical; when the process then completes below
    100 and without the final-target marker, the phase is [FAILED]
    although no recorded error is critical. *)
Lemma C4_counterexample :
  let self0 := init "build" None 3600 0 in
  let chunk1 := "src/packages/http/http.cc:3:7: warning: unused variable" in
  let chunk2 := "status:completed" in
  let self1 := snd (fst (check_build_status self0
                 (mkWorld 1 (CompletedProcess 0 chunk1 "") 0))) in
  let w2 := mkWorld 2 (CompletedProcess 0 chunk2 "") 1 in
  let st2 := fst (fst (check_build_status self1 w2)) in
  snd (fst (_run_bash_output w2)) = true
  /\ Py.contains "built target driver" (Py.lower chunk2) = false
  /\ BuildStatus.progress st2 = 0
  /\ existsb critical (BuildStatus.errors st2) = false
  /\ _update_build_state self1 chunk2 true = FAILED
  /\ BuildStatus.state st2 = FAILED.
Proof. cbv zeta. vm_compute. repeat split. Qed.

(* ================================================================= *)
(** ** Noise lines *)

Lemma split_lines_line_then x rest :
  single_line x = true ->
  Py.split_lines (x ++ String Py.nl rest) = x :: Py.split_lines rest.
Proof.
  induction x as [|c x IH]; intros H.
  - cbn. reflexivity.
  - cbn [single_line] in H. apply andb_prop in H as [Hc Hx].
    apply negb_true_iff in Hc.
    change (String c x ++ String Py.nl rest)
      with (String c (x ++ String Py.nl rest)).
    cbn [Py.split_lines]. rewrite Hc, (IH Hx). reflexivity.
Qed.

Lemma split_lines_single x :
  single_line x = true -> Py.split_lines x = [x].
Proof.
  induction x as [|c x IH]; intros H; [reflexivity|].
  cbn [single_line] in H. apply andb_prop in H as [Hc Hx].
  apply negb_true_iff in Hc.
  cbn [Py.split_lines]. rewrite Hc, (IH Hx). reflexivity.
Qed.

Lemma split_join_lines l lines :
  Forall (fun x => single_line x = true) (l :: lines) ->
  Py.split_lines (join_lines (l :: lines)) = l :: lines.
Proof.
  revert l. induction lines as [|l' lines IH]; intros l H.
  - apply split_lines_single. inversion H; assumption.
  - inversion H as [|? ? Hl Hrest]; subst.
    change (join_lines (l :: l' :: lines))
      with (l ++ String Py.nl (join_lines (l' :: lines))).
    rewrite (split_lines_line_then _ _ Hl), (IH l' Hrest). reflexivity.
Qed.

(** On a chunk made of the lines [lines], signal extraction is the line
    loop over [lines]. *)
Lemma filter_join_lines self lines :
  Forall (fun x => single_line x = true) lines ->
  _filter_errors_and_warnings self (join_lines lines) =
  filter_lines self lines [] [].
Proof.
  intros H. unfold _filter_errors_and_warnings.
  destruct lines as [|l lines]; [reflexivity|].
  rewrite (split_join_lines l lines H). reflexivity.
Qed.

Lemma retained_noise self l : is_noise l = true -> retained_as_error self l = false.
Proof.
  intros H. unfold retained_as_error. rewrite H.
  destruct (Py.truthy l); reflexivity.
Qed.

Lemma filter_lines_drop_noise self before x after :
  is_noise (Py.strip x) = true ->
  filter_lines self (before ++ x :: after) [] [] =
  filter_lines self (before ++ after) [] [].
Proof.
  intros H.
  rewrite (surjective_pairing (filter_lines self (before ++ x :: after) [] [])).
  rewrite (surjective_pairing (filter_lines self (before ++ after) [] [])).
  rewrite !filter_lines_no_warnings, !filter_lines_errors.
  rewrite !map_app, !filter_app. cbn [map filter].
  rewrite (retained_noise self _ H). reflexivity.
Qed.

(** C5 (amended).  A line that matches a noise pattern is discarded
    before error and warning classification.  No entry that signal
    extraction returns has a text matching a noise pattern, and no plain
    warning is returned at all; and taking a noise line out of a chunk
    leaves the result of signal extraction as it was, so such a line is
    never the text of a returned entry. *)
Theorem C5_noise_lines_discarded :
  forall (self : Monitor) (before after : list string) (x : string),
    Forall (fun l => single_line l = true) (before ++ x :: after) ->
    is_noise (Py.strip x) = true ->
    let chunk := join_lines (before ++ x :: after) in
    _filter_errors_and_warnings self chunk
      = _filter_errors_and_warnings self (join_lines (before ++ after))
    /\ (forall e, In e (fst (_filter_errors_and_warnings self chunk)) ->
          is_noise (message e) = false /\ message e <> Py.strip x)
    /\ snd (_filter_errors_and_warnings self chunk) = [].
Proof.
  intros self before after x Hlines Hnoise. cbv zeta.
  assert (Hrest : Forall (fun l => single_line l = true) (before ++ after)).
  { apply Forall_app in Hlines as [Hb Ha]. apply Forall_app. split; [exact Hb|].
    inversion Ha; assumption. }
  rewrite (filter_join_lines self _ Hlines), (filter_join_lines self _ Hrest).
  split; [apply filter_lines_drop_noise; exact Hnoise|].
  split; [|apply filter_lines_no_warnings].
  intros e He. apply in_filter_lines_errors in He as (line & _ & Hret & ->).
  cbn [message]. unfold retained_as_error in Hret.
  destruct (is_noise (Py.strip line)) eqn:Hn.
  - rewrite andb_false_r in Hret. discriminate.
  - split; [reflexivity|]. intros E. rewrite E in Hn. congruence.
Qed.

(** An instance of C5: a third-party warning between two compiler
    lines. *)
Lemma C5_noise_lines_discarded_witness :
  let self0 := init "build" None 3600 0 in
  let x := "ws.c:9:1: warning: libwebsockets: 'lws_x' is old" in
  let before := ["core.cc:1:1: error: boom"] in
  let after := ["src/packages/http/h.cc:2:2: warning: unused"] in
  _filter_errors_and_warnings self0 (join_lines (before ++ x :: after))
    = _filter_errors_and_warnings self0 (join_lines (before ++ after))
  /\ (forall e,
        In e (fst (_filter_errors_and_warnings self0
                     (join_lines (before ++ x :: after)))) ->
        is_noise (message e) = false /\ message e <> Py.strip x)
  /\ snd (_filter_errors_and_warnings self0
            (join_lines (before ++ x :: after))) = [].
Proof.
  cbv zeta.
  apply (C5_noise_lines_discarded (init "build" None 3600 0)
           ["core.cc:1:1: error: boom"]
           ["src/packages/http/h.cc:2:2: warning: unused"]
           "ws.c:9:1: warning: libwebsockets: 'lws_x' is old").
  - repeat constructor.
  - vm_compute. reflexivity.
Defined.

(** C5 as stated fails for activity detection and progress extraction:
    both read the raw chunk.  A noise line that names cmake makes the
    activity test true, and a noise line with a percentage marker sets
    the extracted progress; without the line the results differ. *)
Lemma C5_counterexample :
  let self0 := init "build" None 3600 0 in
  let noisy := "CMake Warning (dev): policy CMP0042 is deprecated" in
  let marked := "[ 50%] ev.c:3:1: warning: libevent: unused value" in
  is_noise (Py.strip noisy) = true
  /\ _detect_build_activity (join_lines ["idle"; noisy; "idle"]) = true
  /\ _detect_build_activity (join_lines ["idle"; "idle"]) = false
  /\ is_noise (Py.strip marked) = true
  /\ _extract_progress self0 (join_lines ["idle"; marked; "idle"]) = 50
  /\ _extract_progress self0 (join_lines ["idle"; "idle"]) = 0.
Proof. cbv zeta. vm_compute. repeat split. Qed.

(* ================================================================= *)
(** ** Timeout *)

Lemma run_session_timed_out self0 es :
  forall calls,
    Forall (fun e => max_duration self0 < fst e - start_time self0) es ->
    run_session (set_state self0 TIMEOUT) calls es =
    (map (fun e => snapshot (set_state self0 TIMEOUT) (fst e - start_time self0))
       es,
     set_state self0 TIMEOUT, calls).
Proof.
  induction es as [|e es IH]; intros calls H; [reflexivity|].
  inversion H as [|? ? He Hes]; subst.
  cbn [run_session map]. unfold call.
  rewrite check_build_status_timeout
    by (apply Z.gtb_lt; cbn; exact He).
  cbn [fetches world_at clock start_time set_state].
  change (set_state (set_state self0 TIMEOUT) TIMEOUT)
    with (set_state self0 TIMEOUT).
  rewrite (IH calls Hes). reflexivity.
Qed.

(** C6.  A call made when the elapsed time exceeds [max_duration]
    returns [TIMEOUT] at once: [subprocess.run] is not invoked, and the
    object is left as it was but for its [state] field, so progress,
    built targets, errors, warnings and the scheduler counters are
    untouched.  The same holds of every later call, the clock being no
    earlier than at the first. *)
Theorem C6_timeout_is_immediate :
  forall (self : Monitor) (w : World),
    max_duration self < clock w - start_time self ->
    let r := check_build_status self w in
    BuildStatus.state (fst (fst r)) = TIMEOUT
    /\ snd r = w
    /\ snd (fst r) = set_state self TIMEOUT
    /\ BuildStatus.progress (fst (fst r)) = current_progress self
    /\ BuildStatus.packages_built (fst (fst r)) = packages_built self
    /\ BuildStatus.errors (fst (fst r)) = errors self
    /\ BuildStatus.warnings (fst (fst r)) = warnings self
    /\ (forall (es : list step_env) (calls : nat),
          Forall (fun e => clock w <= fst e) es ->
          let s := run_session (snd (fst r)) calls es in
          Forall (fun st => BuildStatus.state st = TIMEOUT
                            /\ BuildStatus.progress st = current_progress self
                            /\ BuildStatus.packages_built st = packages_built self
                            /\ BuildStatus.errors st = errors self
                            /\ BuildStatus.warnings st = warnings self)
            (fst (fst s))
          /\ length (fst (fst s)) = length es
          /\ snd (fst s) = set_state self TIMEOUT
          /\ snd s = calls).
Proof.
  intros self w H. cbv zeta.
  rewrite check_build_status_timeout by (apply Z.gtb_lt; exact H).
  cbn [fst snd]. repeat (split; [reflexivity|]).
  intros es calls Hes.
  rewrite run_session_timed_out.
  - cbn [fst snd]. rewrite length_map. repeat split.
    apply Forall_map, Forall_forall. intros e _. repeat split.
  - eapply Forall_impl; [|exact Hes]. cbn. intros e He. lia.
Qed.

(** An instance of C6: [max_duration = 5], a first call at 6 seconds and
    two more at 7 and 40, with output waiting that is never fetched. *)
Lemma C6_timeout_is_immediate_witness :
  let self0 := init "build" None 5 0 in
  let w := mkWorld 6 (CompletedProcess 0 "[ 42%] Building CXX object a.o" "") 0 in
  let r := check_build_status self0 w in
  let s := run_session (snd (fst r)) 0
             [(7, CompletedProcess 0 "error: boom" "");
              (40, CompletedProcess 0 "[100%] Built target driver" "")] in
  BuildStatus.state (fst (fst r)) = TIMEOUT
  /\ fetches (snd r) = 0%nat
  /\ map BuildStatus.state (fst (fst s)) = [TIMEOUT; TIMEOUT]
  /\ snd s = 0%nat.
Proof.
  cbv zeta.
  pose proof (C6_timeout_is_immediate (init "build" None 5 0)
    (mkWorld 6 (CompletedProcess 0 "[ 42%] Building CXX object a.o" "") 0)
    eq_refl) as H.
  cbv zeta in H.
  destruct H as (Hst & Hw & _ & _ & _ & _ & _ & Hlater).
  specialize (Hlater
    [(7, CompletedProcess 0 "error: boom" "");
     (40, CompletedProcess 0 "[100%] Built target driver" "")] 0%nat).
  split; [exact Hst|]. split; [rewrite Hw; reflexivity|].
  split; [vm_compute; reflexivity|].
  apply Hlater. repeat constructor; cbn; lia.
Defined.

(* ================================================================= *)
(** ** Built targets *)

Lemma newly_from_fresh output packages :
  forall built,
    NoDup built ->
    NoDup (built ++ newly_from output packages built)
    /\ (forall p, In p (newly_from output packages built) -> ~ In p built).
Proof.
  induction packages as [|package rest IH]; intros built Hnd; cbn [newly_from].
  - rewrite app_nil_r. split; [exact Hnd | intros p []].
  - destruct (Re.search_ic _ output); cbn [andb]; [|apply IH; exact Hnd].
    destruct (Py.mem package built) eqn:Hmem; cbn [negb];
      [apply IH; exact Hnd|].
    assert (Hfresh : ~ In package built).
    { intros Hin. apply mem_true_iff in Hin. congruence. }
    assert (Hnd' : NoDup (built ++ [package])).
    { apply NoDup_app; [exact Hnd | repeat constructor; intros [] |].
      intros q Hq [<-|[]]. contradiction. }
    destruct (IH _ Hnd') as [Hall Hnew].
    rewrite <- app_assoc in Hall. cbn [app] in Hall.
    split; [exact Hall|].
    intros p [<-|Hp]; [exact Hfresh|].
    intros Hin. apply (Hnew p Hp). apply in_or_app. left. exact Hin.
Qed.

Lemma check_packages_built self w :
  packages_built (snd (fst (check_build_status self w))) =
  if clock w - start_time self >? max_duration self then packages_built self
  else
    (packages_built self
       ++ newly_from (fst (fst (fst (_run_bash_output w))))
            (focus_packages self) (packages_built self))%list.
Proof. check_cases self w; reflexivity. Qed.

Lemma wait_packages_built self :
  packages_built (snd (get_next_wait_interval self)) = packages_built self.
Proof.
  unfold get_next_wait_interval.
  destruct (2 <? consecutive_no_activity self)%nat; reflexivity.
Qed.

Lemma reaches_built_NoDup self later :
  NoDup (packages_built self) -> reaches self later ->
  NoDup (packages_built later).
Proof.
  intros Hnd H.
  apply (reaches_invariant (fun m => NoDup (packages_built m)))
    with (self0 := self); auto.
  - intros m w Hm. rewrite check_packages_built.
    destruct (clock w - start_time m >? max_duration m); [exact Hm|].
    apply newly_from_fresh. exact Hm.
  - intros m Hm. rewrite wait_packages_built. exact Hm.
Qed.

Lemma reaches_built_prefix self later :
  reaches self later ->
  exists more, packages_built later = (packages_built self ++ more)%list.
Proof.
  intros H.
  apply (reaches_invariant (fun m =>
    exists more, packages_built m = (packages_built self ++ more)%list))
    with (self0 := self); auto.
  - intros m w [more Hm]. rewrite check_packages_built.
    destruct (clock w - start_time m >? max_duration m); [eauto|].
    rewrite Hm, <- app_assoc. eauto.
  - intros m Hm. rewrite wait_packages_built. exact Hm.
  - exists []. symmetry. apply app_nil_r.
Qed.

(** C7.  In a session started from a fresh monitor the built list has no
    duplicates.  A run of [_extract_package_completions] appends to it
    exactly the names it returns, which are names not built before, and
    keeps it duplicate-free.  Whatever calls follow, the list as it is
    now stays as a prefix of the list as it will be (nothing is removed
    or reordered), and no name now in the list is returned as newly
    built by any later extraction, whatever the chunk. *)
Theorem C7_built_targets_once :
  forall self : Monitor,
    reachable self ->
    NoDup (packages_built self)
    /\ (forall output : string,
          let r := _extract_package_completions self output in
          packages_built (snd r) = (packages_built self ++ fst r)%list
          /\ NoDup (packages_built (snd r))
          /\ (forall p, In p (fst r) -> ~ In p (packages_built self)))
    /\ (forall later : Monitor,
          reaches self later ->
          (exists more,
             packages_built later = (packages_built self ++ more)%list)
          /\ NoDup (packages_built later)
          /\ (forall (output : string) (p : string),
                In p (packages_built self) ->
                ~ In p (fst (_extract_package_completions later output)))).
Proof.
  intros self Hreach.
  assert (Hnd : NoDup (packages_built self)).
  { destruct Hreach as (b & f & d & n & H).
    apply (reaches_built_NoDup (init b f d n)); [constructor | exact H]. }
  split; [exact Hnd|]. split.
  - intros output. cbv zeta. rewrite _extract_package_completions_eq.
    cbn [fst snd packages_built set_packages_built].
    destruct (newly_from_fresh output (focus_packages self) _ Hnd) as [H1 H2].
    auto.
  - intros later Hlater.
    pose proof (reaches_built_prefix self later Hlater) as [more Hmore].
    pose proof (reaches_built_NoDup self later Hnd Hlater) as Hnd'.
    split; [eauto|]. split; [exact Hnd'|].
    intros output p Hp. rewrite _extract_package_completions_eq. cbn [fst].
    intros Hin.
    apply (proj2 (newly_from_fresh output (focus_packages later) _ Hnd') p Hin).
    rewrite Hmore. apply in_or_app. left. exact Hp.
Qed.

(** An instance of C7: [http] is built in the first chunk, and its marker
    comes again in the second together with that of [rest]. *)
Lemma C7_built_targets_once_witness :
  let self0 := init "build" None 3600 0 in
  let self1 := snd (fst (check_build_status self0
                 (mkWorld 1 (CompletedProcess 0
                    "[ 60%] Built target package_http" "") 0))) in
  let chunk2 := join_lines ["[ 60%] Built target package_http";
                            "[ 70%] Built target package_rest"] in
  packages_built self1 = ["http"]
  /\ fst (_extract_package_completions self1 chunk2) = ["rest"]
  /\ NoDup (packages_built self1)
  /\ (forall later, reaches self1 later ->
        forall output,
          ~ In "http" (fst (_extract_package_completions later output))).
Proof.
  cbv zeta.
  split; [vm_compute; reflexivity|]. split; [vm_compute; reflexivity|].
  assert (Hreach : reachable (snd (fst (check_build_status
            (init "build" None 3600 0)
            (mkWorld 1 (CompletedProcess 0
               "[ 60%] Built target package_http" "") 0))))).
  { eapply reachable_reaches; [apply reachable_init|].
    apply reaches_check, reaches_refl. }
  destruct (C7_built_targets_once _ Hreach) as (Hnd & _ & Hlater).
  split; [exact Hnd|].
  intros later Hl output. apply (proj2 (proj2 (Hlater later Hl))).
  vm_compute. left. reflexivity.
Defined.

(* ================================================================= *)
(** ** Backoff scheduler *)

Lemma check_scheduler self w :
  (clock w - start_time self >? max_duration self) = false ->
  let self1 := snd (fst (check_build_status self w)) in
  let active := _detect_build_activity (fst (fst (fst (_run_bash_output w)))) in
  current_interval_index self1
    = (if active then 0%nat else current_interval_index self)
  /\ consecutive_no_activity self1
    = (if active then 0%nat else (consecutive_no_activity self + 1)%nat).
Proof.
  intros Hlive. cbv zeta. rewrite (check_build_status_live self w Hlive).
  destruct (_run_bash_output w) as [[[stdout stderr] completed] w'].
  split; reflexivity.
Qed.

Lemma wait_scheduler self :
  let r := get_next_wait_interval self in
  current_interval_index (snd r)
    = (if (2 <? consecutive_no_activity self)%nat
       then Nat.min (current_interval_index self + 1)
              (length (wait_intervals self) - 1)
       else current_interval_index self)
  /\ consecutive_no_activity (snd r) = consecutive_no_activity self
  /\ fst r = nth_error (wait_intervals self) (current_interval_index (snd r)).
Proof.
  cbv zeta. unfold get_next_wait_interval.
  destruct (2 <? consecutive_no_activity self)%nat; repeat split.
Qed.

Lemma reachable_scheduler_ok self : reachable self -> scheduler_ok self.
Proof.
  intros (b & f & d & n & H).
  apply (reaches_invariant scheduler_ok) with (self0 := init b f d n).
  - intros m w [Hw Hi].
    check_cases m w; unfold after_check; cbv zeta; split;
      cbn [fst snd wait_intervals current_interval_index set_state];
      try assumption.
    destruct (_detect_build_activity stdout); [lia | exact Hi].
  - intros m [Hw Hi]. unfold get_next_wait_interval.
    destruct (2 <? consecutive_no_activity m)%nat; split;
      cbn [fst snd wait_intervals current_interval_index
           set_current_interval_index];
      try assumption.
    rewrite Hw. cbn [length]. lia.
  - split; [reflexivity | cbn; lia].
  - exact H.
Qed.

Lemma poll_inactive self w :
  (clock w - start_time self >? max_duration self) = false ->
  _detect_build_activity (fst (fst (fst (_run_bash_output w)))) = false ->
  start_time (poll self w) = start_time self
  /\ max_duration (poll self w) = max_duration self
  /\ wait_intervals (poll self w) = wait_intervals self
  /\ consecutive_no_activity (poll self w)
     = (consecutive_no_activity self + 1)%nat
  /\ current_interval_index (poll self w)
     = (if (2 <? consecutive_no_activity self + 1)%nat
        then Nat.min (current_interval_index self + 1)
               (length (wait_intervals self) - 1)
        else current_interval_index self).
Proof.
  intros Hlive Hidle. unfold poll.
  destruct (check_scheduler self w Hlive) as [Hi Hc].
  rewrite Hidle in Hi, Hc.
  assert (Hk : reaches self (snd (fst (check_build_status self w))))
    by apply reaches_check, reaches_refl.
  assert (Hp : reaches self
            (snd (get_next_wait_interval
                    (snd (fst (check_build_status self w))))))
    by apply reaches_wait, Hk.
  destruct (reaches_constants _ _ Hk) as (_ & _ & _ & Hwi & _).
  destruct (reaches_constants _ _ Hp) as (Hs & Hm & _ & Hwi' & _).
  destruct (wait_scheduler (snd (fst (check_build_status self w))))
    as (Hi' & Hc' & _).
  rewrite Hi', Hc', Hc, Hi, Hwi. auto.
Qed.

(** C8.  In a session started from a fresh monitor: a live check whose
    chunk shows activity sets the interval index and the inactivity
    counter to 0, whatever they were; a live check without activity adds
    one to the counter and leaves the index.  [get_next_wait_interval]
    moves the index one step up, stopping at the last index 5 of the six
    intervals, exactly when the counter is above 2, leaves the counter,
    and returns the interval at the index it ends on.  So starting from a
    counter of 0, the waits after the first and second inactive checks
    leave the index, the third inactive check brings the counter to 3,
    and the wait after it advances the index by one step. *)
Theorem C8_backoff_scheduler :
  forall self : Monitor,
    reachable self ->
    (forall w : World,
       (clock w - start_time self >? max_duration self) = false ->
       let self1 := snd (fst (check_build_status self w)) in
       let active :=
         _detect_build_activity (fst (fst (fst (_run_bash_output w)))) in
       (active = true ->
        current_interval_index self1 = 0%nat
        /\ consecutive_no_activity self1 = 0%nat)
       /\ (active = false ->
           consecutive_no_activity self1 = (consecutive_no_activity self + 1)%nat
           /\ current_interval_index self1 = current_interval_index self))
    /\ (let r := get_next_wait_interval self in
        ((2 < consecutive_no_activity self)%nat ->
         current_interval_index (snd r)
           = Nat.min (current_interval_index self + 1) 5)
        /\ ((consecutive_no_activity self <= 2)%nat ->
            current_interval_index (snd r) = current_interval_index self)
        /\ consecutive_no_activity (snd r) = consecutive_no_activity self
        /\ (exists d, fst r = Some d
                      /\ nth_error [30; 60; 120; 240; 480; 900]
                           (current_interval_index (snd r)) = Some d))
    /\ (forall w1 w2 w3 : World,
          consecutive_no_activity self = 0%nat ->
          (clock w1 - start_time self >? max_duration self) = false ->
          (clock w2 - start_time self >? max_duration self) = false ->
          (clock w3 - start_time self >? max_duration self) = false ->
          _detect_build_activity (fst (fst (fst (_run_bash_output w1)))) = false ->
          _detect_build_activity (fst (fst (fst (_run_bash_output w2)))) = false ->
          _detect_build_activity (fst (fst (fst (_run_bash_output w3)))) = false ->
          let self1 := poll self w1 in
          let self2 := poll self1 w2 in
          current_interval_index self1 = current_interval_index self
          /\ current_interval_index self2 = current_interval_index self
          /\ consecutive_no_activity
               (snd (fst (check_build_status self2 w3))) = 3%nat
          /\ current_interval_index (poll self2 w3)
             = Nat.min (current_interval_index self + 1) 5).
Proof.
  intros self Hreach.
  destruct (reachable_scheduler_ok self Hreach) as [Hwi Hidx].
  split; [|split].
  - intros w Hlive. cbv zeta.
    destruct (check_scheduler self w Hlive) as [Hi Hc].
    split; intros Ha; rewrite Ha in Hi, Hc; auto.
  - cbv zeta. destruct (wait_scheduler self) as (Hi & Hc & Hr).
    rewrite Hwi in Hi, Hr. cbn [length] in Hi.
    change (6 - 1)%nat with 5%nat in Hi.
    split; [|split; [|split]].
    + intros Hgt. rewrite Hi.
      destruct (Nat.ltb_spec 2 (consecutive_no_activity self));
        [reflexivity | lia].
    + intros Hle. rewrite Hi.
      destruct (Nat.ltb_spec 2 (consecutive_no_activity self));
        [lia | reflexivity].
    + exact Hc.
    + assert (Hok : scheduler_ok (snd (get_next_wait_interval self))).
      { apply reachable_scheduler_ok.
        eapply reachable_reaches; [exact Hreach|].
        apply reaches_wait, reaches_refl. }
      destruct Hok as [_ Hle]. rewrite Hr.
      destruct (nth_error [30; 60; 120; 240; 480; 900]
                  (current_interval_index (snd (get_next_wait_interval self))))
        as [d|] eqn:E; [eauto|].
      apply nth_error_None in E. cbn [length] in E. lia.
  - intros w1 w2 w3 H0 L1 L2 L3 I1 I2 I3. cbv zeta.
    destruct (poll_inactive self w1 L1 I1) as (S1 & M1 & W1 & C1 & X1).
    rewrite H0 in C1, X1. cbn [Nat.add Nat.ltb Nat.leb] in C1, X1.
    assert (L2' : (clock w2 - start_time (poll self w1)
                   >? max_duration (poll self w1)) = false)
      by (rewrite S1, M1; exact L2).
    destruct (poll_inactive (poll self w1) w2 L2' I2)
      as (S2 & M2 & W2 & C2 & X2).
    rewrite C1 in C2, X2. rewrite X1 in X2.
    cbn [Nat.add Nat.ltb Nat.leb] in C2, X2.
    assert (L3' : (clock w3 - start_time (poll (poll self w1) w2)
                   >? max_duration (poll (poll self w1) w2)) = false)
      by (rewrite S2, M2, S1, M1; exact L3).
    destruct (poll_inactive (poll (poll self w1) w2) w3 L3' I3)
      as (_ & _ & _ & C3 & X3).
    destruct (check_scheduler (poll (poll self w1) w2) w3 L3') as [_ K3].
    rewrite I3, C2 in K3.
    rewrite C2, X2, W2, W1, Hwi in X3.
    cbn [Nat.add Nat.ltb Nat.leb length Nat.sub] in X3, K3.
    repeat split; assumption.
Qed.

(** An instance of C8: a fresh monitor polled three times without
    output moves from the 30 second interval to the 60 second one, and a
    chunk with a progress marker brings it back. *)
Lemma C8_backoff_scheduler_witness :
  let self0 := init "build" None 3600 0 in
  let idle t := mkWorld t (CompletedProcess 0 "" "") 0 in
  let busy := mkWorld 400 (CompletedProcess 0 "[ 10%] Building C object a.o" "") 0 in
  let self3 := poll (poll (poll self0 (idle 30)) (idle 60)) (idle 120) in
  current_interval_index self3 = 1%nat
  /\ fst (get_next_wait_interval
            (snd (fst (check_build_status (poll (poll self0 (idle 30)) (idle 60))
                         (idle 120))))) = Some 60
  /\ current_interval_index (snd (fst (check_build_status self3 busy))) = 0%nat
  /\ consecutive_no_activity (snd (fst (check_build_status self3 busy))) = 0%nat.
Proof.
  cbv zeta.
  pose proof (C8_backoff_scheduler (init "build" None 3600 0)
                (reachable_init _ _ _ _)) as (_ & _ & Hthree).
  specialize (Hthree (mkWorld 30 (CompletedProcess 0 "" "") 0)
                     (mkWorld 60 (CompletedProcess 0 "" "") 0)
                     (mkWorld 120 (CompletedProcess 0 "" "") 0)
                     eq_refl eq_refl eq_refl eq_refl eq_refl eq_refl eq_refl).
  cbv zeta in Hthree. destruct Hthree as (_ & _ & _ & Hadv).
  split; [exact Hadv|].
  split; [vm_compute; reflexivity|].
  split; vm_compute; reflexivity.
Defined.

(* ================================================================= *)
(** ** Transport errors *)

Lemma run_bash_output_failed w :
  fetch_failed (bash_output w) = true ->
  fst (_run_bash_output w) = ("", failure_text (bash_output w), false).
Proof.
  unfold _run_bash_output, subprocess_run.
  destruct (bash_output w) as [rc out err| |e]; cbn [fetch_failed failure_text].
  - intros H. apply negb_true_iff in H. rewrite H. reflexivity.
  - reflexivity.
  - reflexivity.
Qed.

Lemma failure_text_truthy o : Py.truthy (failure_text o) = true.
Proof. destruct o; reflexivity. Qed.

Lemma check_errors_failed_fetch self w :
  (clock w - start_time self >? max_duration self) = false ->
  fetch_failed (bash_output w) = true ->
  errors (snd (fst (check_build_status self w))) =
  (errors self ++ transport_entry (failure_text (bash_output w)))%list.
Proof.
  intros Hlive Hfail. rewrite check_errors, Hlive.
  rewrite (run_bash_output_failed w Hfail). cbn [fst].
  change (fst (filter_lines _ (Py.split_lines "") [] [])) with (@nil ErrorEntry).
  apply app_nil_r.
Qed.

(** C9 (amended).  For a monitor whose tracked names are plain, so that
    no search raises [re.error]: when the fetch fails, the call works on
    an empty chunk, and the text the fetch wrapper hands back decides
    alone what is recorded.  If the text contains the substring [error], whatever
    the letter case, one entry with that text is appended to the errors
    list, marked critical, and the call returns [FAILED]; otherwise
    nothing is recorded.  No entry recorded for a failed fetch is
    non-critical.  The text of a fetch timeout has no such substring, so
    a timeout records nothing; the text for any other exception starts
    with [Error], so such a failure is always recorded as critical. *)
Theorem C9_transport_errors :
  forall (self : Monitor) (w : World),
    plain_names self = true ->
    (clock w - start_time self >? max_duration self) = false ->
    fetch_failed (bash_output w) = true ->
    let r := check_build_status self w in
    let text := failure_text (bash_output w) in
    fst (_run_bash_output w) = ("", text, false)
    /\ (Py.contains "error" (Py.lower text) = true ->
        errors (snd (fst r)) = (errors self ++ [mkError text None true])%list
        /\ BuildStatus.state (fst (fst r)) = FAILED)
    /\ (Py.contains "error" (Py.lower text) = false ->
        errors (snd (fst r)) = errors self)
    /\ (bash_output w = TimeoutExpired -> errors (snd (fst r)) = errors self)
    /\ (forall e, bash_output w = OtherException e ->
          errors (snd (fst r))
            = (errors self
                 ++ [mkError ("Error getting bash output: " ++ e) None true])%list
          /\ BuildStatus.state (fst (fst r)) = FAILED).
Proof.
  intros self w Hplain Hlive Hfail. cbv zeta.
  pose proof (run_bash_output_failed w Hfail) as Hrun.
  pose proof (check_errors_failed_fetch self w Hlive Hfail) as Herr.
  assert (Hrec : Py.contains "error" (Py.lower (failure_text (bash_output w)))
                 = true ->
                 errors (snd (fst (check_build_status self w)))
                   = (errors self
                        ++ [mkError (failure_text (bash_output w)) None true])%list
                 /\ BuildStatus.state (fst (fst (check_build_status self w)))
                    = FAILED).
  { intros Hc.
    assert (E : errors (snd (fst (check_build_status self w)))
                = (errors self
                     ++ [mkError (failure_text (bash_output w)) None true])%list).
    { rewrite Herr. unfold transport_entry.
      rewrite failure_text_truthy, Hc. reflexivity. }
    split; [exact E|].
    destruct (_run_bash_output w) as [[[stdout stderr] completed] w'] eqn:R.
    cbn [fst] in Hrun. injection Hrun as -> -> ->.
    eapply live_running_critical_failed; [exact Hlive | exact R |].
    rewrite E, existsb_app. cbn. apply orb_true_r. }
  split; [exact Hrun|]. split; [exact Hrec|]. split; [|split].
  - intros Hc. rewrite Herr. unfold transport_entry.
    rewrite Hc, andb_false_r. apply app_nil_r.
  - intros Ho. rewrite Herr, Ho. apply app_nil_r.
  - intros e Ho. rewrite Ho in Hrec. apply Hrec. reflexivity.
Qed.

(** An instance of C9: the fetch times out on a fresh monitor. *)
Lemma C9_transport_errors_witness :
  let self0 := init "build" None 3600 0 in
  let w := mkWorld 1 TimeoutExpired 0 in
  errors (snd (fst (check_build_status self0 w))) = errors self0.
Proof.
  cbv zeta.
  exact (proj1 (proj2 (proj2 (proj2
    (C9_transport_errors (init "build" None 3600 0)
       (mkWorld 1 TimeoutExpired 0) eq_refl eq_refl eq_refl)))) eq_refl).
Defined.

(** C9 as stated fails.  A fetch timeout records no diagnostic at all:
    errors and warnings stay empty.  A fetch that raises any other
    exception is recorded as critical and the call returns [FAILED],
    although the exception text has no critical-error marker. *)
Lemma C9_counterexample :
  let self0 := init "build" None 3600 0 in
  let timed := check_build_status self0 (mkWorld 1 TimeoutExpired 0) in
  let raised := check_build_status self0
                  (mkWorld 1 (OtherException "connection refused") 0) in
  (BuildStatus.errors (fst (fst timed)) = []
   /\ BuildStatus.warnings (fst (fst timed)) = [])
  /\ (is_critical "connection refused" = false
      /\ BuildStatus.errors (fst (fst raised))
         = [mkError "Error getting bash output: connection refused" None true]
      /\ BuildStatus.state (fst (fst raised)) = FAILED).
Proof. cbv zeta. vm_compute. repeat split. Qed.

(* ================================================================= *)
(** ** Patterns: matches survive context, case and shorter patterns *)

Lemma star_then_weaken ic c (k k' : string -> bool) :
  (forall s, k s = true -> k' s = true) ->
  forall s, Re.star_then ic c k s = true -> Re.star_then ic c k' s = true.
Proof.
  intros Hk. induction s as [|x s IH]; cbn [Re.star_then]; intros H.
  - apply orb_true_iff in H as [H|H]; [|discriminate].
    rewrite (Hk _ H). reflexivity.
  - apply orb_true_iff in H as [H|H].
    + rewrite (Hk _ H). reflexivity.
    + apply andb_prop in H as [Ha Hs]. rewrite Ha, (IH Hs). apply orb_true_r.
Qed.

Lemma star_then_app ic c (k : string -> bool) b :
  (forall s, k s = true -> k (s ++ b) = true) ->
  forall s, Re.star_then ic c k s = true ->
            Re.star_then ic c k (s ++ b) = true.
Proof.
  intros Hk. induction s as [|x s IH]; intros H.
  - cbn [Re.star_then] in H. apply orb_true_iff in H as [H|H]; [|discriminate].
    apply Hk in H. cbn [append] in *. destruct b; cbn [Re.star_then];
      rewrite H; reflexivity.
  - cbn [Re.star_then] in H. apply orb_true_iff in H as [H|H].
    + apply Hk in H. cbn [append] in *. cbn [Re.star_then]. rewrite H. reflexivity.
    + apply andb_prop in H as [Ha Hs].
      cbn [append Re.star_then]. rewrite Ha, (IH Hs). apply orb_true_r.
Qed.

(** A match of a prefix of the text is a match of the text. *)
Lemma match_here_app ic p b :
  forall s, Re.match_here ic p s = true -> Re.match_here ic p (s ++ b) = true.
Proof.
  induction p as [|it p IH]; intros s H; [reflexivity|].
  destruct it as [c|c|c]; cbn [Re.match_here] in *.
  - destruct s as [|x s]; [discriminate|]. cbn [append].
    apply andb_prop in H as [Ha Hs]. rewrite Ha, (IH _ Hs). reflexivity.
  - apply star_then_app; assumption.
  - destruct s as [|x s]; [discriminate|]. cbn [append].
    apply andb_prop in H as [Ha Hs]. rewrite Ha. cbn [andb].
    apply star_then_app; assumption.
Qed.

Lemma search_pat_app_r ic p b :
  forall s, Re.search_pat ic p s = true -> Re.search_pat ic p (s ++ b) = true.
Proof.
  induction s as [|x s IH]; intros H.
  - cbn [Re.search_pat] in H. rewrite orb_false_r in H.
    apply (match_here_app ic p b) in H. cbn [append] in *.
    destruct b; cbn [Re.search_pat]; rewrite H; reflexivity.
  - cbn [Re.search_pat] in H. apply orb_true_iff in H as [H|H].
    + apply (match_here_app ic p b) in H. cbn [append] in *.
      cbn [Re.search_pat]. rewrite H. reflexivity.
    + cbn [append Re.search_pat]. rewrite (IH H). apply orb_true_r.
Qed.

Lemma search_pat_app_l ic p a :
  forall s, Re.search_pat ic p s = true -> Re.search_pat ic p (a ++ s) = true.
Proof.
  induction a as [|x a IH]; intros s H; [exact H|].
  cbn [append Re.search_pat]. rewrite (IH s H). apply orb_true_r.
Qed.

(** A match of a pattern is a match of any of its prefixes. *)
Lemma match_here_prefix ic p1 p2 :
  forall s, Re.match_here ic (p1 ++ p2)%list s = true -> Re.match_here ic p1 s = true.
Proof.
  induction p1 as [|it p1 IH]; intros s H; [reflexivity|].
  destruct it as [c|c|c]; cbn [app Re.match_here] in *.
  - destruct s as [|x s]; [discriminate|].
    apply andb_prop in H as [Ha Hs]. rewrite Ha, (IH _ Hs). reflexivity.
  - eapply star_then_weaken; [|exact H]. exact IH.
  - destruct s as [|x s]; [discriminate|].
    apply andb_prop in H as [Ha Hs]. rewrite Ha. cbn [andb].
    eapply star_then_weaken; [|exact Hs]. exact IH.
Qed.

Lemma search_pat_prefix ic p1 p2 :
  forall s, Re.search_pat ic (p1 ++ p2)%list s = true -> Re.search_pat ic p1 s = true.
Proof.
  induction s as [|x s IH]; cbn [Re.search_pat]; intros H.
  - rewrite orb_false_r in *. eapply match_here_prefix; eassumption.
  - apply orb_true_iff in H as [H|H].
    + rewrite (match_here_prefix _ _ _ _ H). reflexivity.
    + rewrite (IH H). apply orb_true_r.
Qed.

Lemma accepts_ic ic c x : Re.accepts false c x = true -> Re.accepts ic c x = true.
Proof.
  destruct ic; [|auto]. destruct c; cbn [Re.accepts]; auto.
  intros H. apply Ascii.eqb_eq in H. subst. apply Ascii.eqb_refl.
Qed.

Lemma star_then_ic c (k k' : string -> bool) :
  (forall s, k s = true -> k' s = true) ->
  forall s, Re.star_then false c k s = true -> Re.star_then true c k' s = true.
Proof.
  intros Hk. induction s as [|x s IH]; cbn [Re.star_then]; intros H.
  - apply orb_true_iff in H as [H|H]; [|discriminate].
    rewrite (Hk _ H). reflexivity.
  - apply orb_true_iff in H as [H|H].
    + rewrite (Hk _ H). reflexivity.
    + apply andb_prop in H as [Ha Hs].
      rewrite (accepts_ic true _ _ Ha), (IH Hs). apply orb_true_r.
Qed.

(** What matches with the letter case respected matches without. *)
Lemma match_here_ic p :
  forall s, Re.match_here false p s = true -> Re.match_here true p s = true.
Proof.
  induction p as [|it p IH]; intros s H; [reflexivity|].
  destruct it as [c|c|c]; cbn [Re.match_here] in *.
  - destruct s as [|x s]; [discriminate|].
    apply andb_prop in H as [Ha Hs].
    rewrite (accepts_ic true _ _ Ha), (IH _ Hs). reflexivity.
  - eapply star_then_ic; [|exact H]. exact IH.
  - destruct s as [|x s]; [discriminate|].
    apply andb_prop in H as [Ha Hs]. rewrite (accepts_ic true _ _ Ha). cbn [andb].
    eapply star_then_ic; [|exact Hs]. exact IH.
Qed.

Lemma search_pat_ic p :
  forall s, Re.search_pat false p s = true -> Re.search_pat true p s = true.
Proof.
  induction s as [|x s IH]; cbn [Re.search_pat]; intros H.
  - rewrite orb_false_r in *. apply match_here_ic; assumption.
  - apply orb_true_iff in H as [H|H].
    + rewrite (match_here_ic _ _ H). reflexivity.
    + rewrite (IH H). apply orb_true_r.
Qed.

(** Literal patterns without regard to case are substring tests on the
    lowered texts. *)
Lemma match_here_literal p :
  forall s, Re.match_here true (literal_pattern p) s
            = Py.starts_with (Py.lower p) (Py.lower s).
Proof.
  induction p as [|a p IH]; intros s; [reflexivity|].
  destruct s as [|x s]; [reflexivity|].
  cbn [literal_pattern Re.match_here Re.accepts Py.lower Py.starts_with].
  rewrite IH. reflexivity.
Qed.

Lemma search_pat_literal p :
  forall s, Re.search_pat true (literal_pattern p) s
            = Py.contains (Py.lower p) (Py.lower s).
Proof.
  induction s as [|x s IH].
  - cbn [Re.search_pat Py.lower Py.contains]. rewrite match_here_literal. reflexivity.
  - cbn [Re.search_pat Py.lower Py.contains].
    rewrite match_here_literal, IH. reflexivity.
Qed.

Lemma any_search_ic_In pats p s :
  In p pats -> Re.search_ic p s = true -> Re.any_search_ic pats s = true.
Proof.
  intros Hin H. unfold Re.any_search_ic. apply existsb_exists. eauto.
Qed.

(* ================================================================= *)
(** ** Plain names: the spliced pattern is a literal *)

Lemma plain_char_atom c r :
  plain_char c = true ->
  Re.read_atom (String c r) = Some (Re.Lit c, r)
  /\ c <> "*"%char /\ c <> "+"%char.
Proof.
  intros H. unfold plain_char in H. apply andb_prop in H as [_ H].
  apply negb_true_iff in H.
  assert (Hs : forall x, In x regex_special -> c <> x).
  { intros x Hx E. subst x.
    assert (existsb (Ascii.eqb c) regex_special = true).
    { apply existsb_exists. exists c. split; [exact Hx | apply Ascii.eqb_refl]. }
    congruence. }
  assert (Hb : c <> "\"%char) by (apply Hs; cbn; tauto).
  assert (Hd : c <> "."%char) by (apply Hs; cbn; tauto).
  split; [|split; apply Hs; cbn; tauto].
  unfold Re.read_atom.
  destruct c as [[] [] [] [] [] [] [] []]; try reflexivity;
    try (contradiction Hb; reflexivity); try (contradiction Hd; reflexivity).
Qed.

Lemma compile_fuel_plain s :
  plain_name s = true ->
  forall n, (String.length s <= n)%nat ->
            Re.compile_fuel n s = literal_pattern s.
Proof.
  induction s as [|c s IH]; intros H n Hn.
  - destruct n; reflexivity.
  - cbn [plain_name] in H. apply andb_prop in H as [Hc Hs].
    destruct n as [|n]; [cbn [String.length] in Hn; lia|].
    cbn [String.length] in Hn.
    cbn [Re.compile_fuel literal_pattern].
    destruct (plain_char_atom c s Hc) as (-> & _ & _).
    destruct s as [|d s'].
    + rewrite IH by (auto; cbn; lia). reflexivity.
    + cbn [plain_name] in Hs. pose proof Hs as Hs'.
      apply andb_prop in Hs' as [Hd _].
      destruct (plain_char_atom d s' Hd) as (_ & Hstar & Hplus).
      rewrite <- (IH Hs n) by lia.
      destruct d as [[] [] [] [] [] [] [] []]; try reflexivity;
        try (contradiction Hstar; reflexivity);
        try (contradiction Hplus; reflexivity).
Qed.

Lemma compile_plain s :
  plain_name s = true -> Re.compile s = literal_pattern s.
Proof. intros H. apply compile_fuel_plain; [exact H | lia]. Qed.

Lemma plain_name_app a b :
  plain_name (a ++ b) = plain_name a && plain_name b.
Proof.
  induction a as [|c a IH]; [reflexivity|].
  cbn [append plain_name]. rewrite IH. apply andb_assoc.
Qed.

(** With a plain name the search for the built marker is a search for
    a text, letter case aside. *)
Lemma search_plain_package package output :
  plain_name package = true ->
  Re.search_ic ("Built target package_" ++ package) output
  = Py.contains (Py.lower ("Built target package_" ++ package))
      (Py.lower output).
Proof.
  intros H. unfold Re.search_ic.
  rewrite compile_plain; [apply search_pat_literal|].
  rewrite plain_name_app, H. reflexivity.
Qed.

Lemma plain_names_In self p :
  plain_names self = true -> In p (focus_packages self) -> plain_name p = true.
Proof.
  unfold plain_names. rewrite forallb_forall. auto.
Qed.

(* ================================================================= *)
(** ** Activity and the signals of a chunk *)

Lemma in_activity_percent : In "\[\s*\d+%\]" activity_indicators.
Proof. unfold activity_indicators; left; reflexivity. Qed.

Lemma in_activity_built : In "Built target" activity_indicators.
Proof. unfold activity_indicators; do 3 right; left; reflexivity. Qed.

Lemma in_activity_cmake : In "cmake" activity_indicators.
Proof. unfold activity_indicators; do 5 right; left; reflexivity. Qed.

Lemma detect_activity_app output before after :
  _detect_build_activity output = true ->
  _detect_build_activity (before ++ output ++ after) = true.
Proof.
  unfold _detect_build_activity, Re.any_search_ic. rewrite !existsb_exists.
  intros (p & Hin & H). exists p. split; [exact Hin|].
  unfold Re.search_ic in *. apply search_pat_app_l, search_pat_app_r, H.
Qed.

Lemma findall_progress_search output :
  forall skip,
    findall_progress_from skip output <> [] ->
    Re.search_pat false progress_pattern output = true.
Proof.
  induction output as [|x s IH]; intros skip H; [contradiction H; reflexivity|].
  cbn [findall_progress_from] in H. cbn [Re.search_pat].
  destruct skip as [|k].
  - destruct (progress_match_at (String x s)) as [[p len]|] eqn:E.
    + rewrite progress_match_at_regex, E. reflexivity.
    + rewrite (IH _ H). apply orb_true_r.
  - rewrite (IH _ H). apply orb_true_r.
Qed.

Lemma progress_pattern_eq : progress_pattern = Re.compile "\[\s*\d+%\]".
Proof. reflexivity. Qed.

Lemma any_search_pat_In pats p s :
  In p pats -> Re.search_pat true (Re.compile p) s = true ->
  Re.any_search_ic pats s = true.
Proof.
  intros Hin H. unfold Re.any_search_ic. apply existsb_exists.
  exists p. split; [exact Hin | exact H].
Qed.

Lemma progress_marker_activity output :
  findall_progress output <> [] -> _detect_build_activity output = true.
Proof.
  intros H.
  pose proof (findall_progress_search output O H) as H1.
  rewrite progress_pattern_eq in H1.
  apply search_pat_ic in H1.
  exact (any_search_pat_In activity_indicators _ output in_activity_percent H1).
Qed.

Lemma cmake_activity output :
  Py.contains "cmake" (Py.lower output) = true ->
  _detect_build_activity output = true.
Proof.
  intros H. apply (any_search_ic_In _ "cmake" _ in_activity_cmake).
  unfold Re.search_ic.
  change (Re.compile "cmake") with (literal_pattern "cmake").
  rewrite search_pat_literal. exact H.
Qed.

Lemma compile_built_target package :
  Re.compile ("Built target package_" ++ package) =
  (literal_pattern "Built target"
     ++ Re.compile_fuel (String.length (" package_" ++ package))
          (" package_" ++ package))%list.
Proof.
  unfold Re.compile. cbn [append String.length]. cbn [literal_pattern app].
  cbn [Re.compile_fuel Re.read_atom]. reflexivity.
Qed.

Lemma built_target_activity package output :
  Re.search_ic ("Built target package_" ++ package) output = true ->
  _detect_build_activity output = true.
Proof.
  intros H. apply (any_search_ic_In _ "Built target" _ in_activity_built).
  unfold Re.search_ic in *.
  change (Re.compile "Built target") with (literal_pattern "Built target").
  rewrite compile_built_target in H.
  exact (search_pat_prefix true _ _ _ H).
Qed.

Lemma newly_from_marker output packages :
  forall built p,
    In p (newly_from output packages built) ->
    In p packages
    /\ Re.search_ic ("Built target package_" ++ p) output = true.
Proof.
  induction packages as [|package rest IH]; intros built p H; [destruct H|].
  cbn [newly_from] in H.
  destruct (Re.search_ic ("Built target package_" ++ package) output) eqn:E;
    cbn [andb] in H.
  - destruct (negb (Py.mem package built)).
    + destruct H as [<-|H]; [split; [left; reflexivity | exact E]|].
      destruct (IH _ _ H). split; [right|]; assumption.
    + destruct (IH _ _ H). split; [right|]; assumption.
  - destruct (IH _ _ H). split; [right|]; assumption.
Qed.

(** X1.  Activity detection only looks for a pattern somewhere in the
    chunk: if a text shows build activity, so does every chunk that
    contains it, whatever comes before and after. *)
Theorem X1_activity_survives_context :
  forall output before after : string,
    _detect_build_activity output = true ->
    _detect_build_activity (before ++ output ++ after) = true.
Proof. intros. apply detect_activity_app. assumption. Qed.

(** An instance of X1. *)
Lemma X1_activity_survives_context_witness :
  _detect_build_activity
    ("-- noise" ++ "[ 42%] Building CXX object a.cc.o" ++ " (done)") = true.
Proof.
  apply (X1_activity_survives_context "[ 42%] Building CXX object a.cc.o").
  vm_compute. reflexivity.
Defined.

Lemma update_state_configuring self output completed :
  _update_build_state self output completed = CONFIGURING ->
  Py.contains "cmake" (Py.lower output) = true.
Proof.
  unfold _update_build_state.
  destruct completed.
  - destruct (_ || _); [discriminate|]. destruct (errors self); discriminate.
  - destruct (existsb critical (errors self)); [discriminate|].
    destruct (Py.contains "cmake" (Py.lower output)); [reflexivity|].
    cbn [andb].
    destruct (current_progress self <? 50); [discriminate|].
    destruct (current_progress self <? 80); [discriminate|].
    destruct (current_progress self <? 100); discriminate.
Qed.

(** X2.  What resets the backoff.  For a monitor whose tracked names
    are plain, a live call whose chunk holds a progress marker, or which
    records a newly built package, or which reports [CONFIGURING], has
    seen activity: it leaves the interval index and the inactivity
    counter at 0. *)
Theorem X2_signals_reset_backoff :
  forall (self : Monitor) (w : World),
    plain_names self = true ->
    (clock w - start_time self >? max_duration self) = false ->
    let chunk := fst (fst (fst (_run_bash_output w))) in
    let self1 := snd (fst (check_build_status self w)) in
    findall_progress chunk <> []
    \/ packages_built self1 <> packages_built self
    \/ BuildStatus.state (fst (fst (check_build_status self w))) = CONFIGURING ->
    current_interval_index self1 = 0%nat
    /\ consecutive_no_activity self1 = 0%nat.
Proof.
  intros self w Hplain Hlive. cbv zeta. intros H.
  assert (Hact : _detect_build_activity (fst (fst (fst (_run_bash_output w))))
                 = true).
  { destruct H as [H|[H|H]].
    - apply progress_marker_activity. exact H.
    - rewrite check_packages_built, Hlive in H.
      destruct (newly_from (fst (fst (fst (_run_bash_output w))))
                  (focus_packages self) (packages_built self))
        as [|p l] eqn:E.
      + rewrite app_nil_r in H. contradiction H. reflexivity.
      + assert (Hp : In p (newly_from (fst (fst (fst (_run_bash_output w))))
                              (focus_packages self) (packages_built self)))
          by (rewrite E; left; reflexivity).
        apply newly_from_marker in Hp as [_ Hp].
        eapply built_target_activity. exact Hp.
    - rewrite (check_build_status_live self w Hlive) in H.
      destruct (_run_bash_output w) as [[[stdout stderr] completed] w'].
      cbn [fst snd snapshot BuildStatus.state] in H |- *.
      unfold after_check in H. cbv zeta in H. cbn [state set_state] in H.
      apply update_state_configuring in H. apply cmake_activity. exact H. }
  destruct (check_scheduler self w Hlive) as [Hi Hc].
  rewrite Hact in Hi, Hc. auto.
Qed.

(** An instance of X2: a chunk with a marker after a long idle spell. *)
Lemma X2_signals_reset_backoff_witness :
  let self0 := set_consecutive_no_activity
                 (set_current_interval_index (init "build" None 3600 0) 4) 7 in
  let w := mkWorld 1 (CompletedProcess 0 "[ 80%] Built target package_http" "") 0 in
  current_interval_index (snd (fst (check_build_status self0 w))) = 0%nat
  /\ consecutive_no_activity (snd (fst (check_build_status self0 w))) = 0%nat.
Proof.
  cbv zeta.
  apply (X2_signals_reset_backoff
           (set_consecutive_no_activity
              (set_current_interval_index (init "build" None 3600 0) 4) 7)
           (mkWorld 1 (CompletedProcess 0 "[ 80%] Built target package_http" "") 0)
           eq_refl eq_refl).
  left. vm_compute. discriminate.
Defined.

(* ================================================================= *)
(** ** Reading a chunk twice *)

Lemma newly_from_not_built output packages :
  forall built p, In p (newly_from output packages built) -> ~ In p built.
Proof.
  induction packages as [|package rest IH]; intros built p H; [destruct H|].
  cbn [newly_from] in H.
  destruct (Re.search_ic ("Built target package_" ++ package) output);
    cbn [andb] in H; [|eapply IH; eassumption].
  destruct (Py.mem package built) eqn:Hmem; cbn [negb] in H;
    [eapply IH; eassumption|].
  destruct H as [<-|H].
  - intros Hin. apply mem_true_iff in Hin. congruence.
  - intros Hin. apply (IH _ _ H). apply in_or_app. left. exact Hin.
Qed.

Lemma newly_from_complete output packages :
  forall built p,
    In p packages ->
    Re.search_ic ("Built target package_" ++ p) output = true ->
    In p (built ++ newly_from output packages built).
Proof.
  induction packages as [|package rest IH]; intros built p Hin Hm; [destruct Hin|].
  cbn [newly_from].
  destruct (String.eqb_spec package p) as [->|Hne].
  - rewrite Hm. cbn [andb].
    destruct (Py.mem p built) eqn:Hmem; cbn [negb].
    + apply in_or_app. left. apply mem_true_iff. exact Hmem.
    + apply in_or_app. right. left. reflexivity.
  - destruct Hin as [E|Hin]; [contradiction|].
    destruct (Re.search_ic ("Built target package_" ++ package) output
              && negb (Py.mem package built)).
    + specialize (IH (built ++ [package])%list p Hin Hm).
      rewrite <- app_assoc in IH. exact IH.
    + apply IH; assumption.
Qed.

Lemma newly_from_nil output packages :
  forall built,
    (forall p, In p packages ->
       Re.search_ic ("Built target package_" ++ p) output = true ->
       In p built) ->
    newly_from output packages built = [].
Proof.
  induction packages as [|package rest IH]; intros built H; [reflexivity|].
  cbn [newly_from].
  destruct (Re.search_ic ("Built target package_" ++ package) output) eqn:E;
    cbn [andb].
  - assert (Hin : In package built) by (apply H; [left; reflexivity | exact E]).
    apply mem_true_iff in Hin. rewrite Hin. cbn [negb].
    apply IH. intros p Hp. apply H. right. exact Hp.
  - apply IH. intros p Hp. apply H. right. exact Hp.
Qed.

Lemma newly_from_again output packages built :
  newly_from output packages (built ++ newly_from output packages built) = [].
Proof.
  apply newly_from_nil. intros p Hp Hm. apply newly_from_complete; assumption.
Qed.

Lemma extract_progress_settled self self1 output :
  milestones self1 = milestones self ->
  focus_packages self1 = focus_packages self ->
  current_progress self1
    = Z.max (current_progress self) (_extract_progress self output) ->
  _extract_progress self1 output <= current_progress self1.
Proof.
  intros Hm Hf Hp. revert Hp. unfold _extract_progress. rewrite Hm, Hf.
  destruct (map Py.int (findall_progress output)); [|intros ->; lia].
  repeat match goal with
  | |- context [if ?b then _ else _] => destruct b
  end; intros Hp; rewrite Hp; lia.
Qed.

Lemma gtb_max a b : (if b >? a then b else a) = Z.max a b.
Proof. destruct (Z.gtb_spec b a); lia. Qed.

Lemma retained_as_error_ext self self' l :
  focus_packages self' = focus_packages self ->
  map message (errors self') = map message (errors self) ->
  retained_as_error self' l = retained_as_error self l.
Proof.
  intros Hf He. unfold retained_as_error, is_package_line, package_patterns.
  rewrite Hf, He. reflexivity.
Qed.

Lemma filter_none {A} (f : A -> bool) l :
  (forall x, In x l -> f x = false) -> filter f l = [].
Proof.
  induction l as [|x l IH]; intros H; [reflexivity|].
  cbn [filter]. rewrite (H x (or_introl eq_refl)). apply IH.
  intros y Hy. apply H. right. exact Hy.
Qed.

(** Whatever a run of the line loop keeps is on record once its result
    has been appended, so a second run over the same lines keeps
    nothing. *)
Lemma filter_lines_again self lines extra :
  let found := fst (filter_lines self lines [] []) in
  forall self',
    focus_packages self' = focus_packages self ->
    errors self' = (errors self ++ found ++ extra)%list ->
    fst (filter_lines self' lines [] []) = [].
Proof.
  cbv zeta. intros self' Hf He.
  rewrite (filter_lines_errors self' lines).
  rewrite filter_none; [reflexivity|].
  intros l Hl. destruct (retained_as_error self' l) eqn:R; [|reflexivity].
  exfalso.
  unfold retained_as_error in R.
  apply andb_prop in R as [R Hmem]. apply negb_true_iff in Hmem.
  assert (Hnot : ~ In l (map message (errors self'))).
  { intros Hin. apply mem_true_iff in Hin. congruence. }
  apply Hnot. rewrite He, !map_app, !in_app_iff.
  destruct (Py.mem l (map message (errors self))) eqn:M.
  - left. apply mem_true_iff. exact M.
  - right. left.
    apply in_map_iff in Hl as (line & <- & Hline).
    apply in_map_iff.
    exists (mkError (Py.strip line)
              (Some (is_package_line self (Py.strip line)))
              (is_critical (Py.strip line))).
    split; [reflexivity|]. apply in_filter_lines_errors.
    exists line. split; [exact Hline|]. split; [|reflexivity].
    unfold retained_as_error. rewrite M.
    unfold is_package_line, package_patterns in R |- *. rewrite Hf in R.
    rewrite R. reflexivity.
Qed.

Lemma run_bash_output_ext w1 w2 :
  bash_output w2 = bash_output w1 ->
  fst (_run_bash_output w2) = fst (_run_bash_output w1).
Proof.
  intros H. unfold _run_bash_output, subprocess_run. rewrite H.
  destruct (bash_output w1) as [rc out err| |e]; [|reflexivity..].
  destruct (rc =? 0); [|reflexivity].
  destruct (Py.contains "status:completed" (Py.lower out)); [reflexivity|].
  destruct (Py.contains "status:running" (Py.lower out)); reflexivity.
Qed.

Lemma update_build_state_ext a b output completed :
  current_progress a = current_progress b ->
  existsb critical (errors a) = existsb critical (errors b) ->
  (errors a = [] <-> errors b = []) ->
  _update_build_state a output completed = _update_build_state b output completed.
Proof.
  intros Hp Hc Hn. unfold _update_build_state. rewrite Hp, Hc.
  destruct completed; [|reflexivity].
  destruct (_ || _); [reflexivity|].
  destruct (errors a) as [|ea la], (errors b) as [|eb lb]; try reflexivity.
  - destruct Hn as [Hn _]. specialize (Hn eq_refl). discriminate.
  - destruct Hn as [_ Hn]. specialize (Hn eq_refl). discriminate.
Qed.

Lemma after_check_state self stdout stderr completed :
  state (after_check self stdout stderr completed)
  = _update_build_state (after_check self stdout stderr completed)
      stdout completed.
Proof. reflexivity. Qed.

Lemma transport_entry_absorbed (E0 N : list ErrorEntry) stderr :
  let T := transport_entry stderr in
  let E1 := ((E0 ++ T) ++ N)%list in
  existsb critical (E1 ++ T) = existsb critical E1
  /\ ((E1 ++ T)%list = [] <-> E1 = []).
Proof.
  cbv zeta. split.
  - rewrite !existsb_app.
    destruct (existsb critical E0), (existsb critical (transport_entry stderr)),
      (existsb critical N); reflexivity.
  - split.
    + intros H. apply app_eq_nil in H as [H _]. exact H.
    + intros H. rewrite H. cbn [app].
      apply app_eq_nil in H as [H _]. apply app_eq_nil in H as [_ H]. exact H.
Qed.

Lemma after_check_twice self stdout stderr completed :
  let self1 := after_check self stdout stderr completed in
  let self2 := after_check self1 stdout stderr completed in
  current_progress self2 = current_progress self1
  /\ packages_built self2 = packages_built self1
  /\ warnings self2 = warnings self1
  /\ errors self2 = (errors self1 ++ transport_entry stderr)%list
  /\ state self2 = state self1.
Proof.
  cbv zeta.
  set (self1 := after_check self stdout stderr completed).
  assert (Hf : focus_packages self1 = focus_packages self) by reflexivity.
  assert (Hm : milestones self1 = milestones self) by reflexivity.
  assert (Hp1 : current_progress self1
                = Z.max (current_progress self) (_extract_progress self stdout)).
  { subst self1. unfold after_check. cbv zeta.
    cbn [current_progress set_state]. apply gtb_max. }
  assert (Hb1 : packages_built self1
                = (packages_built self
                     ++ newly_from stdout (focus_packages self)
                          (packages_built self))%list) by reflexivity.
  assert (He1 : errors self1
                = ((errors self ++ transport_entry stderr)
                     ++ fst (filter_lines
                               (set_errors self
                                  (errors self ++ transport_entry stderr))
                               (Py.split_lines stdout) [] []))%list)
    by reflexivity.
  assert (Hw1 : warnings self1 = warnings self).
  { subst self1. unfold after_check. cbv zeta. cbn [warnings set_state].
    rewrite filter_lines_no_warnings. apply app_nil_r. }
  assert (Hp2 : current_progress (after_check self1 stdout stderr completed)
                = current_progress self1).
  { unfold after_check at 1. cbv zeta. cbn [current_progress set_state].
    rewrite gtb_max.
    pose proof (extract_progress_settled self self1 stdout Hm Hf Hp1). lia. }
  assert (Hb2 : packages_built (after_check self1 stdout stderr completed)
                = packages_built self1).
  { unfold after_check at 1. cbv zeta. cbn [packages_built set_state].
    rewrite Hf, Hb1, newly_from_again. apply app_nil_r. }
  assert (Hw2 : warnings (after_check self1 stdout stderr completed)
                = warnings self1).
  { unfold after_check at 1. cbv zeta. cbn [warnings set_state].
    rewrite filter_lines_no_warnings. apply app_nil_r. }
  assert (HN2 : fst (filter_lines
                       (set_errors self1 (errors self1 ++ transport_entry stderr))
                       (Py.split_lines stdout) [] []) = []).
  { apply (filter_lines_again
             (set_errors self (errors self ++ transport_entry stderr))
             (Py.split_lines stdout) (transport_entry stderr)).
    - reflexivity.
    - cbn [errors set_errors]. rewrite He1, <- !app_assoc. reflexivity. }
  assert (He2 : errors (after_check self1 stdout stderr completed)
                = (errors self1 ++ transport_entry stderr)%list).
  { unfold after_check at 1. cbv zeta. cbn [errors set_state].
    rewrite HN2. apply app_nil_r. }
  repeat (split; [assumption|]).
  rewrite !after_check_state.
  destruct (transport_entry_absorbed (errors self)
              (fst (filter_lines
                      (set_errors self (errors self ++ transport_entry stderr))
                      (Py.split_lines stdout) [] [])) stderr) as [Hc Hn].
  rewrite <- He1 in Hc, Hn.
  apply update_build_state_ext.
  - exact Hp2.
  - rewrite He2. exact Hc.
  - rewrite He2. exact Hn.
Qed.

(** X3.  Reading the same fetch result again changes nothing that is
    derived from the chunk: a second live call on the same result
    reports the same progress, phase, built targets and warnings as the
    first, and its errors list is that of the first call followed by
    the transport entry of the result, if it has one. *)
Theorem X3_repeated_chunk_is_idempotent :
  forall (self : Monitor) (w1 w2 : World),
    (clock w1 - start_time self >? max_duration self) = false ->
    (clock w2 - start_time self >? max_duration self) = false ->
    bash_output w2 = bash_output w1 ->
    let r1 := check_build_status self w1 in
    let r2 := check_build_status (snd (fst r1)) w2 in
    let stderr := snd (fst (fst (_run_bash_output w1))) in
    BuildStatus.progress (fst (fst r2)) = BuildStatus.progress (fst (fst r1))
    /\ BuildStatus.state (fst (fst r2)) = BuildStatus.state (fst (fst r1))
    /\ BuildStatus.packages_built (fst (fst r2))
       = BuildStatus.packages_built (fst (fst r1))
    /\ BuildStatus.warnings (fst (fst r2)) = BuildStatus.warnings (fst (fst r1))
    /\ BuildStatus.errors (fst (fst r2))
       = (BuildStatus.errors (fst (fst r1)) ++ transport_entry stderr)%list.
Proof.
  intros self w1 w2 L1 L2 Hout. cbv zeta.
  pose proof (run_bash_output_ext w1 w2 Hout) as Hrun.
  rewrite (check_build_status_live self w1 L1).
  destruct (_run_bash_output w1) as [[[stdout stderr] completed] w1'] eqn:R1.
  cbn [fst snd] in Hrun |- *.
  assert (L2' : (clock w2
                 - start_time (after_check self stdout stderr completed)
                 >? max_duration (after_check self stdout stderr completed))
                = false) by exact L2.
  rewrite (check_build_status_live _ w2 L2').
  destruct (_run_bash_output w2) as [[[stdout2 stderr2] completed2] w2'] eqn:R2.
  cbn [fst] in Hrun. injection Hrun as -> -> ->.
  cbn [fst snd snapshot BuildStatus.progress BuildStatus.state
       BuildStatus.packages_built BuildStatus.warnings BuildStatus.errors].
  destruct (after_check_twice self stdout stderr completed)
    as (Hp & Hb & Hw & He & Hs).
  auto.
Qed.

(** An instance of X3. *)
Lemma X3_repeated_chunk_is_idempotent_witness :
  let self0 := init "build" None 3600 0 in
  let out := CompletedProcess 0
               (join_lines ["[ 55%] Built target package_http";
                            "src/packages/http/h.cc:3:1: error: boom"]) "" in
  let r1 := check_build_status self0 (mkWorld 10 out 0) in
  let r2 := check_build_status (snd (fst r1)) (mkWorld 40 out 1) in
  BuildStatus.progress (fst (fst r2)) = BuildStatus.progress (fst (fst r1))
  /\ BuildStatus.state (fst (fst r2)) = BuildStatus.state (fst (fst r1))
  /\ BuildStatus.packages_built (fst (fst r2))
     = BuildStatus.packages_built (fst (fst r1))
  /\ BuildStatus.warnings (fst (fst r2)) = BuildStatus.warnings (fst (fst r1))
  /\ BuildStatus.errors (fst (fst r2))
     = (BuildStatus.errors (fst (fst r1)) ++ transport_entry "")%list.
Proof.
  cbv zeta.
  exact (X3_repeated_chunk_is_idempotent (init "build" None 3600 0)
           (mkWorld 10 (CompletedProcess 0
              (join_lines ["[ 55%] Built target package_http";
                           "src/packages/http/h.cc:3:1: error: boom"]) "") 0)
           (mkWorld 40 (CompletedProcess 0
              (join_lines ["[ 55%] Built target package_http";
                           "src/packages/http/h.cc:3:1: error: boom"]) "") 1)
           eq_refl eq_refl eq_refl).
Defined.

(** The result of the completion loop in terms of its search. *)
Lemma package_completions_search self output p :
  let r := _extract_package_completions self output in
  (In p (fst r) <->
     In p (focus_packages self)
     /\ Re.search_ic ("Built target package_" ++ p) output = true
     /\ ~ In p (packages_built self))
  /\ (In p (packages_built (snd r)) <->
        In p (packages_built self)
        \/ (In p (focus_packages self)
            /\ Re.search_ic ("Built target package_" ++ p) output = true))
  /\ fst (_extract_package_completions (snd r) output) = [].
Proof.
  cbv zeta.
  rewrite !_extract_package_completions_eq.
  cbn [fst snd packages_built focus_packages set_packages_built].
  assert (Hnew : In p (newly_from output (focus_packages self)
                         (packages_built self)) <->
                 In p (focus_packages self)
                 /\ Re.search_ic ("Built target package_" ++ p) output = true
                 /\ ~ In p (packages_built self)).
  { split.
    - intros H. destruct (newly_from_marker _ _ _ _ H) as [Hf Hm].
      repeat split; try assumption. eapply newly_from_not_built; eassumption.
    - intros (Hf & Hm & Hn).
      pose proof (newly_from_complete output _ (packages_built self) p Hf Hm) as H.
      apply in_app_or in H as [H|H]; [contradiction | exact H]. }
  split; [exact Hnew|]. split.
  - rewrite in_app_iff, Hnew. split.
    + intros [H|(Hf & Hm & _)]; auto.
    + intros [H|[Hf Hm]]; [left; exact H|].
      destruct (in_dec string_dec p (packages_built self)) as [Hb|Hb];
        [left; exact Hb | right; auto].
  - apply newly_from_again.
Qed.

(** X4.  For a monitor whose tracked names are plain,
    [_extract_package_completions] returns exactly the tracked names
    whose built marker, the text [Built target package_] and the name,
    stands in the chunk, letter case aside, and which were not built
    before; afterwards the built list holds what it held plus every
    tracked name with its marker in the chunk; and running it again on
    the same chunk returns nothing. *)
Theorem X4_newly_built_exactly :
  forall (self : Monitor) (output p : string),
    plain_names self = true ->
    let r := _extract_package_completions self output in
    let marked :=
      Py.contains (Py.lower ("Built target package_" ++ p)) (Py.lower output) in
    (In p (fst r) <->
       In p (focus_packages self)
       /\ marked = true
       /\ ~ In p (packages_built self))
    /\ (In p (packages_built (snd r)) <->
          In p (packages_built self)
          \/ (In p (focus_packages self) /\ marked = true))
    /\ fst (_extract_package_completions (snd r) output) = [].
Proof.
  intros self output p Hplain. cbv zeta.
  destruct (package_completions_search self output p) as (H1 & H2 & H3).
  cbv zeta in H1, H2, H3.
  assert (Hs : In p (focus_packages self) ->
               Re.search_ic ("Built target package_" ++ p) output
               = Py.contains (Py.lower ("Built target package_" ++ p))
                   (Py.lower output)).
  { intros Hp. apply search_plain_package.
    eapply plain_names_In; eassumption. }
  split; [|split; [|exact H3]].
  - rewrite H1. split; intros (Hf & Hm & Hn); repeat split; auto;
      [rewrite <- Hs | rewrite Hs]; assumption.
  - rewrite H2. split; (intros [H|[Hf Hm]]; [left; exact H | right]);
      (split; [exact Hf|]); [rewrite <- Hs | rewrite Hs]; assumption.
Qed.

(** An instance of X4: the marker of [rest] in other letter case. *)
Lemma X4_newly_built_exactly_witness :
  let self0 := init "build" (Some ["http"; "rest"]) 3600 0 in
  let output := "[ 60%] built target PACKAGE_REST" in
  let r := _extract_package_completions self0 output in
  let marked :=
    Py.contains (Py.lower ("Built target package_" ++ "rest"))
      (Py.lower output) in
  (In "rest" (fst r) <->
     In "rest" (focus_packages self0)
     /\ marked = true
     /\ ~ In "rest" (packages_built self0))
  /\ (In "rest" (packages_built (snd r)) <->
        In "rest" (packages_built self0)
        \/ (In "rest" (focus_packages self0) /\ marked = true))
  /\ fst (_extract_package_completions (snd r) output) = [].
Proof.
  apply (X4_newly_built_exactly (init "build" (Some ["http"; "rest"]) 3600 0)
           "[ 60%] built target PACKAGE_REST" "rest").
  reflexivity.
Defined.

(* ================================================================= *)
(** ** Tracked targets, phases, schedule and fetch wrapper *)

Lemma reaches_built_tracked self later :
  incl (packages_built self) (focus_packages self) ->
  reaches self later ->
  incl (packages_built later) (focus_packages later).
Proof.
  intros H0 H.
  apply (reaches_invariant
           (fun m => incl (packages_built m) (focus_packages m)))
    with (self0 := self); auto.
  - intros m w Hm.
    destruct (reaches_constants m _ (reaches_check m m w (reaches_refl m)))
      as (_ & _ & Hf & _).
    rewrite Hf, check_packages_built.
    destruct (clock w - start_time m >? max_duration m); [exact Hm|].
    apply incl_app; [exact Hm|].
    intros p Hp. apply newly_from_marker in Hp as [Hp _]. exact Hp.
  - intros m Hm.
    destruct (reaches_constants m _ (reaches_wait m m (reaches_refl m)))
      as (_ & _ & Hf & _).
    rewrite Hf, wait_packages_built. exact Hm.
Qed.

(** X5.  In a session started from a fresh monitor the watch-list is
    never empty (an empty or missing list is replaced by the default),
    every built name is a tracked name, there are never more built names
    than tracked ones, and each snapshot lists the tracked names with
    the built ones among them. *)
Theorem X5_built_within_tracked :
  forall self : Monitor,
    reachable self ->
    focus_packages self <> []
    /\ incl (packages_built self) (focus_packages self)
    /\ (length (packages_built self) <= length (focus_packages self))%nat
    /\ (forall w : World,
          let st := fst (fst (check_build_status self w)) in
          BuildStatus.packages_total st = focus_packages self
          /\ incl (BuildStatus.packages_built st) (BuildStatus.packages_total st)).
Proof.
  intros self (b & f & d & n & H).
  assert (Hincl : forall later, reaches (init b f d n) later ->
                    incl (packages_built later) (focus_packages later)).
  { intros later Hl. eapply reaches_built_tracked; [|exact Hl].
    intros p []. }
  assert (Hnd : NoDup (packages_built self)).
  { eapply reaches_built_NoDup; [|exact H]. constructor. }
  split; [|split; [|split]].
  - destruct (reaches_constants _ _ H) as (_ & _ & Hf & _). rewrite Hf.
    destruct f as [[|p ps]|]; discriminate.
  - apply Hincl, H.
  - apply NoDup_incl_length; [exact Hnd | apply Hincl, H].
  - intros w. cbv zeta.
    pose proof (Hincl _ (reaches_check _ _ w H)) as Hi.
    destruct (reaches_constants self _
                (reaches_check self self w (reaches_refl self)))
      as (_ & _ & Hf & _).
    rewrite Hf in Hi. revert Hi.
    check_cases self w; cbn [fst snd]; intros Hi; split;
      try reflexivity; exact Hi.
Qed.

(** An instance of X5: an empty watch-list given to the constructor. *)
Lemma X5_built_within_tracked_witness :
  let self1 := snd (fst (check_build_status (init "build" (Some []) 3600 0)
                 (mkWorld 1 (CompletedProcess 0
                    "[ 60%] Built target package_rest" "") 0))) in
  focus_packages self1 <> []
  /\ incl (packages_built self1) (focus_packages self1)
  /\ (length (packages_built self1) <= length (focus_packages self1))%nat.
Proof.
  cbv zeta.
  assert (Hreach : reachable (snd (fst (check_build_status
            (init "build" (Some []) 3600 0)
            (mkWorld 1 (CompletedProcess 0
               "[ 60%] Built target package_rest" "") 0))))).
  { eapply reachable_reaches; [apply reachable_init|].
    apply reaches_check, reaches_refl. }
  destruct (X5_built_within_tracked _ Hreach) as (H1 & H2 & H3 & _).
  auto.
Defined.

Lemma update_build_state_sound self output completed :
  let s := _update_build_state self output completed in
  s <> STARTING /\ s <> TIMEOUT
  /\ (s = FAILED -> errors self <> [])
  /\ (s = COMPLETED -> completed = true \/ 100 <= current_progress self)
  /\ (s = CONFIGURING -> completed = false
        /\ existsb critical (errors self) = false
        /\ current_progress self < 30)
  /\ (s = COMPILING_CORE -> completed = false
        /\ existsb critical (errors self) = false
        /\ current_progress self < 50)
  /\ (s = COMPILING_PACKAGES -> completed = false
        /\ existsb critical (errors self) = false
        /\ 50 <= current_progress self < 80)
  /\ (s = LINKING -> completed = false
        /\ existsb critical (errors self) = false
        /\ 80 <= current_progress self < 100).
Proof.
  cbv zeta. unfold _update_build_state.
  destruct completed.
  - destruct (_ || _).
    + repeat (match goal with |- _ /\ _ => split end); try discriminate. auto.
    + destruct (errors self);
        repeat (match goal with |- _ /\ _ => split end);
        try discriminate; auto.
  - destruct (existsb critical (errors self)) eqn:Hc.
    + repeat (match goal with |- _ /\ _ => split end); try discriminate.
      intros _ E. rewrite E in Hc. discriminate.
    + destruct (Py.contains "cmake" (Py.lower output)
                && (current_progress self <? 30)) eqn:H30.
      * apply andb_prop in H30 as [_ H30]. apply Z.ltb_lt in H30.
        repeat (match goal with |- _ /\ _ => split end); try discriminate.
        intros _. repeat split. exact H30.
      * destruct (Z.ltb_spec (current_progress self) 50);
        [|destruct (Z.ltb_spec (current_progress self) 80);
          [|destruct (Z.ltb_spec (current_progress self) 100)]];
        repeat (match goal with |- _ /\ _ => split end);
        try discriminate;
        try (intros _; repeat split; lia).
Qed.

(** X6.  What a reported phase tells.  [TIMEOUT] is reported exactly
    when the deadline has passed and [STARTING] is never reported.
    [FAILED] comes with a non-empty errors list; [COMPLETED] with the
    completed flag or progress of at least 100; [CONFIGURING] with
    progress below 30, [COMPILING_CORE] below 50, [COMPILING_PACKAGES]
    from 50 to 79 and [LINKING] from 80 to 99; and the four working
    phases are reported only with the completed flag off and no critical
    error on record. *)
Theorem X6_phase_is_sound :
  forall (self : Monitor) (w : World),
    let st := fst (fst (check_build_status self w)) in
    let completed := snd (fst (_run_bash_output w)) in
    let phase := BuildStatus.state st in
    let progress := BuildStatus.progress st in
    (phase = TIMEOUT <-> max_duration self < clock w - start_time self)
    /\ phase <> STARTING
    /\ (phase = FAILED -> BuildStatus.errors st <> [])
    /\ (phase = COMPLETED -> completed = true \/ 100 <= progress)
    /\ (phase = CONFIGURING -> progress < 30)
    /\ (phase = COMPILING_CORE -> progress < 50)
    /\ (phase = COMPILING_PACKAGES -> 50 <= progress < 80)
    /\ (phase = LINKING -> 80 <= progress < 100)
    /\ (In phase [CONFIGURING; COMPILING_CORE; COMPILING_PACKAGES; LINKING] ->
        existsb critical (BuildStatus.errors st) = false /\ completed = false).
Proof.
  intros self w. cbv zeta.
  check_cases self w.
  - apply Z.gtb_lt in Htimeout.
    cbn [fst snd snapshot BuildStatus.state BuildStatus.progress
         BuildStatus.errors state set_state].
    repeat (match goal with |- _ /\ _ => split end); try discriminate;
      try (intros _; exact Htimeout); try reflexivity;
      try (intros [H|[H|[H|[H|[]]]]]; discriminate).
    split; [intros _; exact Htimeout | reflexivity].
  - cbn [fst snd snapshot BuildStatus.state BuildStatus.progress
         BuildStatus.errors].
    assert (Hs : state (after_check self stdout stderr completed)
                 = _update_build_state (after_check self stdout stderr completed)
                     stdout completed) by reflexivity.
    rewrite Hs.
    destruct (update_build_state_sound
                (after_check self stdout stderr completed) stdout completed)
      as (H1 & H2 & H3 & H4 & H5 & H6 & H7 & H8).
    rewrite Z.gtb_ltb in Htimeout. apply Z.ltb_ge in Htimeout.
    repeat (match goal with |- _ /\ _ => split end); auto;
      try (intros E; contradiction);
      try (intros E; lia);
      try (intros E; first [apply H5 in E | apply H6 in E
                           | apply H7 in E | apply H8 in E]; tauto);
      try (intros [E|[E|[E|[E|[]]]]]; symmetry in E;
           [apply H5 in E | apply H6 in E | apply H7 in E | apply H8 in E];
           tauto).
    split; [intros E; contradiction | intros E; lia].
Qed.

Lemma polls_idle self ws :
  forall (Hwi : length (wait_intervals self) = 6%nat),
    (current_interval_index self <= 5)%nat ->
    Forall (fun w =>
              (clock w - start_time self >? max_duration self) = false
              /\ _detect_build_activity (fst (fst (fst (_run_bash_output w))))
                 = false) ws ->
    consecutive_no_activity (polls self ws)
      = (consecutive_no_activity self + length ws)%nat
    /\ current_interval_index (polls self ws)
       = Nat.min (current_interval_index self
                  + (Nat.max (consecutive_no_activity self + length ws) 2
                     - Nat.max (consecutive_no_activity self) 2)) 5.
Proof.
  revert self. induction ws as [|w ws IH]; intros self Hwi Hidx Hall.
  - cbn [polls fold_left length]. split; lia.
  - inversion Hall as [|? ? [Hlive Hidle] Hrest]; subst.
    destruct (poll_inactive self w Hlive Hidle) as (Hs & Hm & Hw & Hc & Hi).
    rewrite Hwi in Hi. change (6 - 1)%nat with 5%nat in Hi.
    assert (Hidx' : (current_interval_index (poll self w) <= 5)%nat).
    { rewrite Hi. destruct (2 <? consecutive_no_activity self + 1)%nat; lia. }
    assert (Hall' : Forall (fun w0 =>
              (clock w0 - start_time (poll self w) >? max_duration (poll self w))
                = false
              /\ _detect_build_activity
                   (fst (fst (fst (_run_bash_output w0)))) = false) ws).
    { rewrite Hs, Hm. exact Hrest. }
    assert (Hwi' : length (wait_intervals (poll self w)) = 6%nat)
      by (rewrite Hw; exact Hwi).
    destruct (IH (poll self w) Hwi' Hidx' Hall') as [IHc IHi].
    change (polls self (w :: ws)) with (polls (poll self w) ws).
    rewrite IHc, IHi, Hc, Hi. cbn [length].
    destruct (Nat.ltb_spec 2 (consecutive_no_activity self + 1)); split; lia.
Qed.

Lemma polls_snoc self ws w : polls self (ws ++ [w]) = poll (polls self ws) w.
Proof. unfold polls. rewrite fold_left_app. reflexivity. Qed.

Lemma wait_value_bounds (i : nat) :
  (i <= 5)%nat ->
  exists d, nth_error [30; 60; 120; 240; 480; 900] i = Some d
            /\ 30 <= d <= 900.
Proof.
  intros H.
  destruct i as [|[|[|[|[|[|i]]]]]]; cbn [nth_error];
    try (eexists; split; [reflexivity | lia]).
  lia.
Qed.

(** X7.  The backoff schedule in closed form.  Starting from an
    inactivity counter of 0, after [n] consecutive live turns of the loop
    without activity the counter is [n] and the interval index is the
    starting index plus [n - 2] (nothing for the first two turns), capped
    at 5; seven such turns reach the cap from any index.  The wait
    returned in the last of these turns is the interval at that index,
    between 30 and 900 seconds. *)
Theorem X7_backoff_schedule :
  forall (self : Monitor) (ws : list World),
    reachable self ->
    consecutive_no_activity self = 0%nat ->
    Forall (fun w =>
              (clock w - start_time self >? max_duration self) = false
              /\ _detect_build_activity (fst (fst (fst (_run_bash_output w))))
                 = false) ws ->
    let n := length ws in
    let index := Nat.min (current_interval_index self + (n - 2)) 5 in
    consecutive_no_activity (polls self ws) = n
    /\ current_interval_index (polls self ws) = index
    /\ ((7 <= n)%nat -> current_interval_index (polls self ws) = 5%nat)
    /\ (forall ws' w,
          ws = (ws' ++ [w])%list ->
          fst (get_next_wait_interval
                 (snd (fst (check_build_status (polls self ws') w))))
            = nth_error [30; 60; 120; 240; 480; 900] index
          /\ exists d,
               nth_error [30; 60; 120; 240; 480; 900] index = Some d
               /\ 30 <= d <= 900).
Proof.
  intros self ws Hreach H0 Hall. cbv zeta.
  destruct (reachable_scheduler_ok self Hreach) as [Hwi Hidx].
  assert (Hlen : length (wait_intervals self) = 6%nat) by (rewrite Hwi; reflexivity).
  destruct (polls_idle self ws Hlen Hidx Hall) as [Hc Hi].
  rewrite H0 in Hc, Hi. cbn [Nat.add] in Hc.
  assert (Hi' : current_interval_index (polls self ws)
                = Nat.min (current_interval_index self + (length ws - 2)) 5)
    by (rewrite Hi; lia).
  split; [exact Hc|]. split; [exact Hi'|]. split; [intros; lia|].
  intros ws' w E. split.
  - rewrite <- Hi'. rewrite E, polls_snoc. unfold poll.
    destruct (wait_scheduler (snd (fst (check_build_status (polls self ws') w))))
      as (_ & _ & Hr).
    rewrite Hr. f_equal.
    assert (Hk : reaches self (snd (fst (check_build_status (polls self ws') w)))).
    { apply reaches_check. clear. unfold polls.
      induction ws' as [|a l IH] using rev_ind; [apply reaches_refl|].
      rewrite fold_left_app. cbn [fold_left]. unfold poll at 1.
      apply reaches_wait, reaches_check, IH. }
    destruct (reaches_constants _ _ Hk) as (_ & _ & _ & Hw & _).
    rewrite Hw. exact Hwi.
  - apply wait_value_bounds. lia.
Qed.

(** An instance of X7: four idle turns from a fresh monitor. *)
Lemma X7_backoff_schedule_witness :
  let self0 := init "build" None 3600 0 in
  let idle t := mkWorld t (CompletedProcess 0 "" "") 0 in
  let ws := [idle 30; idle 60; idle 120; idle 180] in
  consecutive_no_activity (polls self0 ws) = 4%nat
  /\ current_interval_index (polls self0 ws) = 2%nat.
Proof.
  cbv zeta.
  pose proof (X7_backoff_schedule (init "build" None 3600 0)
    [mkWorld 30 (CompletedProcess 0 "" "") 0;
     mkWorld 60 (CompletedProcess 0 "" "") 0;
     mkWorld 120 (CompletedProcess 0 "" "") 0;
     mkWorld 180 (CompletedProcess 0 "" "") 0]
    (reachable_init _ _ _ _) eq_refl) as H.
  cbv zeta in H.
  destruct H as (Hc & Hi & _).
  - repeat constructor.
  - split; [exact Hc | exact Hi].
Defined.

(** X8.  The contract of [_run_bash_output].  Each call runs the
    process source once and leaves the clock alone.  The completed flag
    is on exactly when the return code is 0 and the output holds
    [status:completed] in any letter case, and then the error text is
    empty.  A failed fetch gives an empty chunk, the flag off and a
    non-empty error text.  With return code 0 the chunk is the output as
    it is, and the process's own stderr is handed on only when the
    output has neither status marker. *)
Theorem X8_run_bash_output_contract :
  forall w : World,
    let r := _run_bash_output w in
    let stdout := fst (fst (fst r)) in
    let stderr := snd (fst (fst r)) in
    let completed := snd (fst r) in
    fetches (snd r) = S (fetches w)
    /\ clock (snd r) = clock w
    /\ (completed = true <->
          exists out err,
            bash_output w = CompletedProcess 0 out err
            /\ Py.contains "status:completed" (Py.lower out) = true)
    /\ (completed = true -> stderr = "" /\
          Py.contains "status:completed" (Py.lower stdout) = true)
    /\ (fetch_failed (bash_output w) = true ->
          stdout = "" /\ completed = false /\ Py.truthy stderr = true)
    /\ (forall out err,
          bash_output w = CompletedProcess 0 out err ->
          stdout = out
          /\ (stderr = err \/ stderr = "")
          /\ (Py.contains "status:completed" (Py.lower out) = true
              \/ Py.contains "status:running" (Py.lower out) = true ->
              stderr = "")).
Proof.
  intros w. cbv zeta. unfold _run_bash_output, subprocess_run.
  destruct (bash_output w) as [rc out err| |e].
  - destruct (Z.eqb_spec rc 0) as [->|Hrc].
    + destruct (Py.contains "status:completed" (Py.lower out)) eqn:Hc;
        [|destruct (Py.contains "status:running" (Py.lower out)) eqn:Hr];
        cbn [fst snd fetches clock fetch_failed negb Z.eqb];
        repeat (match goal with |- _ /\ _ => split end);
        try reflexivity; try discriminate; auto.
      * split; [eauto | reflexivity].
      * intros out' err' E. injection E as <- <-. rewrite Hc. auto.
      * split; [discriminate|]. intros (o & e' & E & H).
        injection E as <- <-. congruence.
      * intros out' err' E. injection E as <- <-. rewrite Hc, Hr. auto.
      * split; [discriminate|]. intros (o & e' & E & H).
        injection E as <- <-. congruence.
      * intros out' err' E. injection E as <- <-. rewrite Hc, Hr.
        repeat split; auto. intros [|]; discriminate.
    + cbn [fst snd fetches clock fetch_failed].
      repeat (match goal with |- _ /\ _ => split end);
        try reflexivity; try discriminate; auto.
      * split; [discriminate|]. intros (o & e' & E & _).
        injection E as E _ _. congruence.
      * intros out' err' E. injection E as E _ _. congruence.
  - cbn [fst snd fetches clock fetch_failed].
    repeat (match goal with |- _ /\ _ => split end);
      try reflexivity; try discriminate; auto.
    split; [discriminate|]. intros (o & e' & E & _). discriminate.
  - cbn [fst snd fetches clock fetch_failed].
    repeat (match goal with |- _ /\ _ => split end);
      try reflexivity; try discriminate; auto.
    split; [discriminate|]. intros (o & e' & E & _). discriminate.
Qed.

(* ================================================================= *)
(** ** Trimmed lines *)

Lemma lstrip_head s :
  Py.lstrip s = "" \/
  exists c t, Py.lstrip s = String c t /\ Py.is_space c = false.
Proof.
  induction s as [|c s IH]; [left; reflexivity|].
  cbn [Py.lstrip]. destruct (Py.is_space c) eqn:E; [exact IH|].
  right. eauto.
Qed.

Lemma rstrip_keeps_head c t :
  Py.is_space c = false -> Py.rstrip (String c t) = String c (Py.rstrip t).
Proof.
  intros H. cbn [Py.rstrip]. destruct (Py.rstrip t); [rewrite H|]; reflexivity.
Qed.

Lemma rstrip_idempotent s : Py.rstrip (Py.rstrip s) = Py.rstrip s.
Proof.
  induction s as [|c s IH]; [reflexivity|].
  cbn [Py.rstrip]. destruct (Py.rstrip s) as [|d r] eqn:E.
  - destruct (Py.is_space c) eqn:Hc; [reflexivity|].
    cbn [Py.rstrip]. rewrite Hc. reflexivity.
  - cbn [Py.rstrip] in IH |- *. rewrite IH. reflexivity.
Qed.

(** Trimming twice is trimming once. *)
Lemma strip_idempotent s : Py.strip (Py.strip s) = Py.strip s.
Proof.
  unfold Py.strip.
  destruct (lstrip_head s) as [E|(c & t & E & Hc)]; rewrite E.
  - reflexivity.
  - rewrite (rstrip_keeps_head c t Hc).
    cbn [Py.lstrip]. rewrite Hc.
    rewrite (rstrip_keeps_head c _ Hc), rstrip_idempotent. reflexivity.
Qed.

Lemma single_line_lstrip s : single_line s = true -> single_line (Py.lstrip s) = true.
Proof.
  induction s as [|c s IH]; intros H; [reflexivity|].
  cbn [Py.lstrip]. destruct (Py.is_space c); [|exact H].
  cbn [single_line] in H. apply andb_prop in H as [_ H]. apply IH, H.
Qed.

Lemma single_line_rstrip s : single_line s = true -> single_line (Py.rstrip s) = true.
Proof.
  induction s as [|c s IH]; intros H; [reflexivity|].
  cbn [single_line] in H. apply andb_prop in H as [Hc H].
  cbn [Py.rstrip]. specialize (IH H).
  destruct (Py.rstrip s) as [|d r].
  - destruct (Py.is_space c); [reflexivity|].
    cbn [single_line]. rewrite Hc. reflexivity.
  - cbn [single_line] in IH |- *. rewrite Hc, IH. reflexivity.
Qed.

Lemma split_lines_single_lines s :
  Forall (fun l => single_line l = true) (Py.split_lines s).
Proof.
  induction s as [|c s IH]; [repeat constructor|].
  cbn [Py.split_lines]. destruct (Ascii.eqb c Py.nl) eqn:E.
  - constructor; [reflexivity | exact IH].
  - destruct (Py.split_lines s) as [|h t].
    + constructor; [|constructor]. cbn [single_line]. rewrite E. reflexivity.
    + inversion IH; subst. constructor; [|assumption].
      cbn [single_line]. rewrite E. cbn [negb andb]. assumption.
Qed.

(** X9.  Every entry signal extraction returns is clean: its text is
    not empty, is trimmed (trimming it again changes nothing), holds no
    line feed, matches no noise pattern and is not yet on record; its
    two flags are those of its own text; and it is critical, or
    target-related with a warning marker.  Nothing else is retained. *)
Theorem X9_returned_entries_are_clean :
  forall (self : Monitor) (output : string) (e : ErrorEntry),
    In e (fst (_filter_errors_and_warnings self output)) ->
    message e <> ""
    /\ Py.strip (message e) = message e
    /\ single_line (message e) = true
    /\ is_noise (message e) = false
    /\ ~ In (message e) (map message (errors self))
    /\ critical e = is_critical (message e)
    /\ package_related e = Some (is_package_line self (message e))
    /\ (critical e = true
        \/ (package_related e = Some true
            /\ has_warning_marker (message e) = true)).
Proof.
  intros self output e H. unfold _filter_errors_and_warnings in H.
  apply in_filter_lines_errors in H as (line & Hline & Hret & ->).
  cbn [message critical package_related].
  unfold retained_as_error in Hret.
  apply andb_prop in Hret as [Hret Hmem].
  apply andb_prop in Hret as [Hret Hkind].
  apply andb_prop in Hret as [Htruthy Hnoise].
  apply negb_true_iff in Hnoise, Hmem.
  repeat (match goal with |- _ /\ _ => split end); try reflexivity.
  - intros E. rewrite E in Htruthy. discriminate.
  - apply strip_idempotent.
  - unfold Py.strip. apply single_line_rstrip, single_line_lstrip.
    pose proof (split_lines_single_lines output) as Hall.
    rewrite Forall_forall in Hall. apply Hall, Hline.
  - exact Hnoise.
  - intros Hin. apply mem_true_iff in Hin. congruence.
  - apply orb_true_iff in Hkind as [Hc|Hp]; [left; exact Hc|].
    apply andb_prop in Hp as [Hp Hw]. right. rewrite Hp. auto.
Qed.

(** An instance of X9: a padded line comes back trimmed. *)
Lemma X9_returned_entries_are_clean_witness :
  let self0 := init "build" None 3600 0 in
  let e := mkError "src/packages/rest/r.cc:1:1: warning: shadowed"
             (Some true) false in
  message e <> "" /\ Py.strip (message e) = message e.
Proof.
  cbv zeta.
  destruct (X9_returned_entries_are_clean (init "build" None 3600 0)
              "   src/packages/rest/r.cc:1:1: warning: shadowed   "
              (mkError "src/packages/rest/r.cc:1:1: warning: shadowed"
                 (Some true) false)) as (H1 & H2 & _).
  - vm_compute. left. reflexivity.
  - split; assumption.
Defined.

(* ================================================================= *)
(** ** Blank chunks *)

Lemma lower_space x : Py.is_space x = true -> Py.lower_ascii x = x.
Proof. destruct x as [[] [] [] [] [] [] [] []]; vm_compute; congruence. Qed.

Lemma lower_not_space a :
  Py.is_space a = false -> Py.is_space (Py.lower_ascii a) = false.
Proof. destruct a as [[] [] [] [] [] [] [] []]; vm_compute; congruence. Qed.

Lemma lower_blank s : blank s = true -> Py.lower s = s.
Proof.
  induction s as [|c s IH]; intros H; [reflexivity|].
  cbn [blank] in H. apply andb_prop in H as [Hc Hs].
  cbn [Py.lower]. rewrite (lower_space c Hc), (IH Hs). reflexivity.
Qed.

Lemma accepts_lit_space a x :
  Py.is_space a = false -> Py.is_space x = true ->
  Re.accepts true (Re.Lit a) x = false.
Proof.
  intros Ha Hx. cbn [Re.accepts]. rewrite (lower_space x Hx).
  destruct (Ascii.eqb_spec (Py.lower_ascii a) x) as [E|]; [|reflexivity].
  apply lower_not_space in Ha. rewrite E in Ha. congruence.
Qed.

(** A pattern that begins with a visible literal character matches
    nowhere in a blank text. *)
Lemma search_blank a p :
  Py.is_space a = false ->
  forall s, blank s = true ->
            Re.search_pat true (Re.One (Re.Lit a) :: p) s = false.
Proof.
  intros Ha. induction s as [|x s IH]; intros H; [reflexivity|].
  cbn [blank] in H. apply andb_prop in H as [Hx Hs].
  cbn [Re.search_pat Re.match_here].
  rewrite (accepts_lit_space a x Ha Hx), (IH Hs). reflexivity.
Qed.

Lemma contains_blank a p :
  Py.is_space a = false ->
  forall s, blank s = true -> Py.contains (String a p) s = false.
Proof.
  intros Ha. induction s as [|x s IH]; intros H; [reflexivity|].
  cbn [blank] in H. apply andb_prop in H as [Hx Hs].
  cbn [Py.contains Py.starts_with]. rewrite (IH Hs).
  destruct (Ascii.eqb_spec a x) as [E|]; [|reflexivity].
  rewrite E in Ha. congruence.
Qed.

Lemma search_blank_visible p s :
  starts_visible p -> blank s = true -> Re.search_pat true p s = false.
Proof.
  intros (a & rest & -> & Ha) H. apply search_blank; assumption.
Qed.

Ltac visible c :=
  match goal with
  | |- starts_visible (Re.compile ?pat) =>
      exists c, (tl (Re.compile pat));
      split; [vm_compute; reflexivity | reflexivity]
  end.

Lemma activity_patterns_visible :
  Forall (fun pat => starts_visible (Re.compile pat)) activity_indicators.
Proof.
  unfold activity_indicators.
  constructor; [visible "["%char|].
  constructor; [visible "B"%char|].
  constructor; [visible "L"%char|].
  constructor; [visible "B"%char|].
  constructor; [visible "m"%char|].
  constructor; [visible "c"%char|].
  constructor.
Qed.

Lemma activity_blank s : blank s = true -> _detect_build_activity s = false.
Proof.
  intros H. unfold _detect_build_activity, Re.any_search_ic.
  pose proof activity_patterns_visible as Hall.
  induction Hall as [|pat pats Hpat _ IH]; [reflexivity|].
  cbn [existsb]. unfold Re.search_ic at 1.
  rewrite (search_blank_visible _ s Hpat H). exact IH.
Qed.

Lemma progress_match_at_blank s : blank s = true -> progress_match_at s = None.
Proof.
  destruct s as [|x s]; [reflexivity|]. cbn [blank]. intros H.
  apply andb_prop in H as [Hx _].
  destruct x as [[] [] [] [] [] [] [] []]; try reflexivity;
    vm_compute in Hx; discriminate.
Qed.

Lemma findall_progress_blank s :
  blank s = true -> forall skip, findall_progress_from skip s = [].
Proof.
  induction s as [|x s IH]; intros H skip; [reflexivity|].
  cbn [findall_progress_from]. rewrite (progress_match_at_blank _ H).
  cbn [blank] in H. apply andb_prop in H as [_ Hs].
  destruct skip; apply IH; exact Hs.
Qed.

Lemma extract_progress_blank self s :
  blank s = true -> _extract_progress self s = current_progress self.
Proof.
  intros H. unfold _extract_progress, findall_progress.
  rewrite (findall_progress_blank s H). cbn [map].
  rewrite (lower_blank s H).
  repeat match goal with
  | |- context [Py.contains (String ?a ?p) s] =>
      rewrite (contains_blank a p eq_refl s H)
  end.
  cbn [andb orb].
  assert (E : existsb (fun pkg => Py.contains ("package_" ++ pkg) s)
                (focus_packages self) = false).
  { induction (focus_packages self) as [|p l IHl]; [reflexivity|].
    cbn [existsb]. rewrite IHl.
    change ("package_" ++ p) with (String "p" ("ackage_" ++ p)).
    rewrite (contains_blank "p" _ eq_refl s H). reflexivity. }
  rewrite E. reflexivity.
Qed.

Lemma built_pattern_visible package :
  starts_visible (Re.compile ("Built target package_" ++ package)).
Proof.
  exists "B"%char. eexists. split; [|reflexivity].
  unfold Re.compile. cbn [append String.length].
  cbn [Re.compile_fuel Re.read_atom]. reflexivity.
Qed.

Lemma newly_from_blank s packages :
  blank s = true -> forall built, newly_from s packages built = [].
Proof.
  intros H. induction packages as [|p l IH]; intros built; [reflexivity|].
  cbn [newly_from]. unfold Re.search_ic.
  rewrite (search_blank_visible _ s (built_pattern_visible p) H).
  cbn [andb]. apply IH.
Qed.

Lemma split_lines_blank s :
  blank s = true -> Forall (fun l => blank l = true) (Py.split_lines s).
Proof.
  induction s as [|c s IH]; intros H; [repeat constructor|].
  cbn [blank] in H. apply andb_prop in H as [Hc Hs]. specialize (IH Hs).
  cbn [Py.split_lines]. destruct (Ascii.eqb c Py.nl).
  - constructor; [reflexivity | exact IH].
  - destruct (Py.split_lines s) as [|h t].
    + constructor; [|constructor]. cbn [blank]. rewrite Hc. reflexivity.
    + inversion IH; subst. constructor; [|assumption].
      cbn [blank]. rewrite Hc. assumption.
Qed.

Lemma strip_blank l : blank l = true -> Py.strip l = "".
Proof.
  intros H. unfold Py.strip.
  assert (E : Py.lstrip l = "").
  { induction l as [|c l IH]; [reflexivity|].
    cbn [blank] in H. apply andb_prop in H as [Hc Hl].
    cbn [Py.lstrip]. rewrite Hc. apply IH, Hl. }
  rewrite E. reflexivity.
Qed.

Lemma filter_lines_blank self lines :
  Forall (fun l => blank l = true) lines ->
  filter_lines self lines [] [] = ([], []).
Proof.
  induction 1 as [|l lines Hl _ IH]; [reflexivity|].
  rewrite filter_lines_cons. cbv zeta. rewrite (strip_blank l Hl).
  unfold retained_as_error. cbn [Py.truthy andb]. exact IH.
Qed.

(** X10.  For a monitor whose tracked names are plain, a chunk of
    whitespace only, the empty chunk included, is no signal: a live call
    on it leaves progress, built targets and
    warnings as they were, adds to the errors list at most the transport
    entry of the fetch, adds one to the inactivity counter and leaves
    the interval index. *)
Theorem X10_blank_chunk_is_no_signal :
  forall (self : Monitor) (w : World),
    plain_names self = true ->
    (clock w - start_time self >? max_duration self) = false ->
    blank (fst (fst (fst (_run_bash_output w)))) = true ->
    let self' := snd (fst (check_build_status self w)) in
    let stderr := snd (fst (fst (_run_bash_output w))) in
    current_progress self' = current_progress self
    /\ packages_built self' = packages_built self
    /\ warnings self' = warnings self
    /\ errors self' = (errors self ++ transport_entry stderr)%list
    /\ consecutive_no_activity self' = S (consecutive_no_activity self)
    /\ current_interval_index self' = current_interval_index self.
Proof.
  intros self w Hplain Hlive Hblank. cbv zeta.
  rewrite (check_build_status_live self w Hlive).
  destruct (_run_bash_output w) as [[[stdout stderr] completed] w'].
  cbn [fst snd] in Hblank |- *.
  unfold after_check. cbv zeta.
  cbn [current_progress packages_built warnings errors
       consecutive_no_activity current_interval_index set_state].
  rewrite (extract_progress_blank self stdout Hblank).
  rewrite (newly_from_blank stdout _ Hblank).
  rewrite (filter_lines_blank _ _ (split_lines_blank stdout Hblank)).
  rewrite (activity_blank stdout Hblank).
  cbn [fst snd]. rewrite !app_nil_r.
  repeat split; try lia.
  destruct (current_progress self >? current_progress self); reflexivity.
Qed.

(** An instance of X10: blank lines after progress 42. *)
Lemma X10_blank_chunk_is_no_signal_witness :
  let self0 := set_current_progress (init "build" None 3600 0) 42 in
  let w := mkWorld 5 (CompletedProcess 0
                        (join_lines [""; "   "; String (ascii_of_nat 9) ""]) "") 0 in
  let self' := snd (fst (check_build_status self0 w)) in
  current_progress self' = 42
  /\ errors self' = []
  /\ consecutive_no_activity self' = 1%nat.
Proof.
  cbv zeta.
  destruct (X10_blank_chunk_is_no_signal
              (set_current_progress (init "build" None 3600 0) 42)
              (mkWorld 5 (CompletedProcess 0
                 (join_lines [""; "   "; String (ascii_of_nat 9) ""]) "") 0)
              eq_refl eq_refl eq_refl) as (Hp & _ & _ & He & Hc & _).
  repeat split; assumption.
Defined.

(* ================================================================= *)
(** ** Progress markers *)

Lemma append_assoc (a b c : string) : (a ++ b) ++ c = a ++ (b ++ c).
Proof. induction a as [|x a IH]; cbn [append]; [reflexivity | rewrite IH; reflexivity]. Qed.

Lemma length_append (a b : string) :
  String.length (a ++ b) = (String.length a + String.length b)%nat.
Proof. induction a as [|x a IH]; cbn [append String.length]; [reflexivity | rewrite IH; reflexivity]. Qed.

Lemma skip_spaces_spec s :
  exists sp, s = sp ++ snd (skip_spaces s)
             /\ blank sp = true
             /\ String.length sp = fst (skip_spaces s)
             /\ (forall c r, snd (skip_spaces s) = String c r ->
                   Py.is_space c = false).
Proof.
  induction s as [|c s (sp & E & Hb & Hl & Hn)].
  - exists "". cbn. repeat split; auto. intros; discriminate.
  - cbn [skip_spaces]. destruct (Py.is_space c) eqn:Hc.
    + destruct (skip_spaces s) as [n r]. cbn [fst snd] in *.
      exists (String c sp). cbn [append blank String.length].
      rewrite Hc, Hb, Hl, <- E. repeat split; auto.
    + exists "". cbn [append blank String.length fst snd].
      repeat split; auto. intros c' r E'. injection E' as <- _. exact Hc.
Qed.

Lemma take_digits_spec s :
  s = fst (take_digits s) ++ snd (take_digits s)
  /\ digits (fst (take_digits s)) = true
  /\ (forall c r, snd (take_digits s) = String c r -> Py.is_digit c = false).
Proof.
  induction s as [|c s (E & Hd & Hn)].
  - cbn. repeat split; auto. intros; discriminate.
  - cbn [take_digits]. destruct (Py.is_digit c) eqn:Hc.
    + destruct (take_digits s) as [d r]. cbn [fst snd] in *.
      cbn [append digits]. rewrite Hc, Hd, <- E. repeat split; auto.
    + cbn [append digits fst snd]. repeat split; auto.
      intros c' r E'. injection E' as <- _. exact Hc.
Qed.

(** What a match at a position is: an opening bracket, blanks, one or
    more digits, a percent sign and a closing bracket. *)
Lemma progress_match_at_spec s p len :
  progress_match_at s = Some (p, len) ->
  exists sp rest,
    s = "[" ++ sp ++ p ++ "%]" ++ rest
    /\ blank sp = true /\ digits p = true /\ p <> ""
    /\ len = String.length ("[" ++ sp ++ p ++ "%]").
Proof.
  destruct s as [|x s1]; [discriminate|].
  destruct (Ascii.eqb_spec x "[") as [->|Hx].
  - cbn [progress_match_at].
    destruct (skip_spaces_spec s1) as (sp & E1 & Hb & Hl & _).
    destruct (skip_spaces s1) as [n s2]. cbn [fst snd] in *.
    destruct (take_digits_spec s2) as (E2 & Hd & _).
    destruct (take_digits s2) as [ds s3]. cbn [fst snd] in *.
    destruct ds as [|d ds]; [discriminate|].
    destruct s3 as [|c3 s3]; [discriminate|].
    destruct (Ascii.eqb_spec c3 "%") as [->|H3].
    + destruct s3 as [|c4 s4]; [discriminate|].
      destruct (Ascii.eqb_spec c4 "]") as [->|H4].
      * intros H. injection H as <- <-.
        exists sp, s4. rewrite E1, E2.
        repeat split; auto; [discriminate|].
        cbn [append String.length]. rewrite !length_append.
        cbn [append String.length]. rewrite ?length_append.
        cbn [String.length]. lia.
      * intros H. exfalso.
        destruct c4 as [[] [] [] [] [] [] [] []]; try discriminate H.
        apply H4. reflexivity.
    + intros H. exfalso.
      destruct c3 as [[] [] [] [] [] [] [] []]; try discriminate H.
      apply H3. reflexivity.
  - intros H. exfalso.
    destruct x as [[] [] [] [] [] [] [] []]; try discriminate H.
    apply Hx. reflexivity.
Qed.

Lemma progress_match_at_bracket s p len :
  progress_match_at s = Some (p, len) -> exists s', s = String "[" s'.
Proof.
  intros H. apply progress_match_at_spec in H as (sp & rest & -> & _).
  cbn [append]. eexists. reflexivity.
Qed.

Lemma no_bracket_blank sp k s :
  blank sp = true -> no_bracket k s ->
  no_bracket (String.length sp + k) (sp ++ s).
Proof.
  induction sp as [|c sp IH]; intros Hb Hs; [exact Hs|].
  cbn [blank] in Hb. apply andb_prop in Hb as [Hc Hb].
  cbn [String.length Nat.add append no_bracket]. split; [|apply IH; assumption].
  intros ->. vm_compute in Hc. discriminate.
Qed.

Lemma no_bracket_digits p k s :
  digits p = true -> no_bracket k s ->
  no_bracket (String.length p + k) (p ++ s).
Proof.
  induction p as [|c p IH]; intros Hd Hs; [exact Hs|].
  cbn [digits] in Hd. apply andb_prop in Hd as [Hc Hd].
  cbn [String.length Nat.add append no_bracket]. split; [|apply IH; assumption].
  intros ->. vm_compute in Hc. discriminate.
Qed.

(** Matches cannot overlap, so passing over the characters of a match
    loses nothing: the scan with match lengths finds what the plain
    scan finds. *)
Lemma findall_progress_scan s :
  forall k, no_bracket k s -> findall_progress_from k s = scan_progress s.
Proof.
  induction s as [|x s IH]; intros k Hk; [reflexivity|].
  cbn [findall_progress_from scan_progress].
  destruct k as [|k].
  - destruct (progress_match_at (String x s)) as [[p len]|] eqn:E.
    + f_equal. apply IH.
      apply progress_match_at_spec in E as (sp & rest & Es & Hb & Hd & _ & ->).
      cbn [append] in Es. injection Es as _ ->.
      cbn [append String.length Nat.sub]. rewrite Nat.sub_0_r.
      rewrite !length_append. cbn [String.length].
      apply no_bracket_blank; [exact Hb|].
      apply no_bracket_digits; [exact Hd|].
      cbn [no_bracket]. repeat split; discriminate.
    + apply IH. exact I.
  - cbn [no_bracket] in Hk. destruct Hk as [Hx Hk].
    destruct (progress_match_at (String x s)) as [[p len]|] eqn:E.
    + apply progress_match_at_bracket in E as [s' E].
      injection E as -> _. contradiction.
    + apply IH. exact Hk.
Qed.

Lemma findall_progress_is_scan output :
  findall_progress output = scan_progress output.
Proof. apply findall_progress_scan. exact I. Qed.

Lemma skip_spaces_blank sp s :
  blank sp = true ->
  (forall c r, s = String c r -> Py.is_space c = false) ->
  skip_spaces (sp ++ s) = (String.length sp, s).
Proof.
  intros Hb Hs. induction sp as [|c sp IH].
  - cbn [append String.length]. destruct s as [|c r]; [reflexivity|].
    cbn [skip_spaces]. rewrite (Hs c r eq_refl). reflexivity.
  - cbn [blank] in Hb. apply andb_prop in Hb as [Hc Hb].
    cbn [append skip_spaces String.length]. rewrite Hc, (IH Hb). reflexivity.
Qed.

Lemma take_digits_digits p s :
  digits p = true ->
  (forall c r, s = String c r -> Py.is_digit c = false) ->
  take_digits (p ++ s) = (p, s).
Proof.
  intros Hd Hs. induction p as [|c p IH].
  - cbn [append]. destruct s as [|c r]; [reflexivity|].
    cbn [take_digits]. rewrite (Hs c r eq_refl). reflexivity.
  - cbn [digits] in Hd. apply andb_prop in Hd as [Hc Hd].
    cbn [append take_digits]. rewrite Hc, (IH Hd). reflexivity.
Qed.

Lemma digit_is_not_space c : Py.is_digit c = true -> Py.is_space c = false.
Proof. destruct c as [[] [] [] [] [] [] [] []]; vm_compute; congruence. Qed.

Lemma progress_match_at_complete sp p rest :
  blank sp = true -> digits p = true -> p <> "" ->
  exists len, progress_match_at ("[" ++ sp ++ p ++ "%]" ++ rest) = Some (p, len).
Proof.
  intros Hb Hd Hp. cbn [append progress_match_at].
  rewrite skip_spaces_blank; [|exact Hb|].
  - rewrite take_digits_digits; [|exact Hd|].
    + destruct p as [|d ds]; [contradiction Hp; reflexivity|].
      cbn [append]. eauto.
    + intros c r E. cbn [append] in E. injection E as <- _. reflexivity.
  - intros c r E. destruct p as [|d ds]; [contradiction Hp; reflexivity|].
    cbn [append] in E. injection E as <- _.
    cbn [digits] in Hd. apply andb_prop in Hd as [Hd _].
    apply digit_is_not_space. exact Hd.
Qed.

Lemma in_scan_progress s p :
  In p (scan_progress s) <->
  exists pre t len, s = pre ++ t /\ progress_match_at t = Some (p, len).
Proof.
  split.
  - induction s as [|x s IH]; [intros []|].
    cbn [scan_progress].
    destruct (progress_match_at (String x s)) as [[q len]|] eqn:E.
    + intros [<-|H].
      * exists "", (String x s), len. auto.
      * destruct (IH H) as (pre & t & l & -> & Ht).
        exists (String x pre), t, l. auto.
    + intros H. destruct (IH H) as (pre & t & l & -> & Ht).
      exists (String x pre), t, l. auto.
  - intros (pre & t & len & -> & Ht). induction pre as [|x pre IH].
    + cbn [append]. destruct t as [|y t]; [discriminate|].
      cbn [scan_progress]. rewrite Ht. left. reflexivity.
    + cbn [append scan_progress].
      destruct (progress_match_at (String x (pre ++ t))) as [[q l]|];
        [right|]; exact IH.
Qed.

(** The markers [re.findall] returns, said without the scan: [p] is
    returned exactly when the chunk holds, somewhere, an opening
    bracket, blanks, the digits [p], a percent sign and a closing
    bracket. *)
Lemma in_findall_progress output p :
  In p (findall_progress output) <->
  exists pre sp rest,
    output = pre ++ "[" ++ sp ++ p ++ "%]" ++ rest
    /\ blank sp = true /\ digits p = true /\ p <> "".
Proof.
  rewrite findall_progress_is_scan, in_scan_progress. split.
  - intros (pre & t & len & -> & Ht).
    apply progress_match_at_spec in Ht as (sp & rest & -> & Hb & Hd & Hp & _).
    exists pre, sp, rest. auto.
  - intros (pre & sp & rest & -> & Hb & Hd & Hp).
    destruct (progress_match_at_complete sp p rest Hb Hd Hp) as [len H].
    exists pre, ("[" ++ sp ++ p ++ "%]" ++ rest), len. auto.
Qed.

Lemma digit_val_range c : Py.is_digit c = true -> 0 <= Py.digit_val c <= 9.
Proof.
  destruct c as [[] [] [] [] [] [] [] []]; intros H;
    try (vm_compute in H; discriminate H);
    vm_compute; split; discriminate.
Qed.

Lemma int_of_digits_nonneg s :
  digits s = true -> forall acc, 0 <= acc -> 0 <= Py.int_of_digits_from acc s.
Proof.
  induction s as [|c s IH]; intros H acc Hacc; [exact Hacc|].
  cbn [digits] in H. apply andb_prop in H as [Hc Hs].
  cbn [Py.int_of_digits_from]. apply IH; [exact Hs|].
  pose proof (digit_val_range c Hc). lia.
Qed.

Lemma max_list_spec xs :
  forall x, In (Py.max_list x xs) (x :: xs)
            /\ (forall y, In y (x :: xs) -> y <= Py.max_list x xs).
Proof.
  unfold Py.max_list.
  induction xs as [|a xs IH]; intros x; cbn [fold_left].
  - split; [left; reflexivity|]. intros y [<-|[]]. lia.
  - destruct (IH (Z.max x a)) as [Hin Hle]. split.
    + destruct Hin as [E|Hin]; [|right; right; exact Hin].
      destruct (Z.max_spec x a) as [[_ E']|[_ E']];
        [right; left | left]; congruence.
    + pose proof (Hle (Z.max x a) (or_introl eq_refl)) as Hm.
      intros y [E|[E|Hy]]; [lia | lia |].
      apply Hle. right. exact Hy.
Qed.

(** X11.  The progress markers found in a chunk are exactly the digit
    strings [p] for which the chunk holds, somewhere, an opening bracket,
    any number of whitespace characters, the digits [p], a percent sign
    and a closing bracket. *)
Theorem X11_progress_markers_found :
  forall (output p : string),
    In p (findall_progress output) <->
    exists pre sp rest,
      output = pre ++ "[" ++ sp ++ p ++ "%]" ++ rest
      /\ blank sp = true /\ digits p = true /\ p <> "".
Proof. intros. apply in_findall_progress. Qed.

(** X12.  When the chunk has at least one progress marker, the
    extracted progress is the largest of their values: it is the value
    of one of them, no marker has a greater value, it is not negative,
    and it does not depend on the state of the monitor (so it can be
    lower than the progress on record). *)
Theorem X12_numeric_markers_decide :
  forall (self : Monitor) (output : string),
    findall_progress output <> [] ->
    let v := _extract_progress self output in
    (exists p, In p (findall_progress output) /\ v = Py.int p)
    /\ (forall p, In p (findall_progress output) -> Py.int p <= v)
    /\ 0 <= v
    /\ (forall self' : Monitor, _extract_progress self' output = v).
Proof.
  intros self output Hne. cbv zeta.
  unfold _extract_progress.
  destruct (findall_progress output) as [|q qs] eqn:E; [contradiction Hne; reflexivity|].
  cbn [map].
  destruct (max_list_spec (map Py.int qs) (Py.int q)) as [Hin Hle].
  assert (Hex : exists p, In p (q :: qs)
                          /\ Py.max_list (Py.int q) (map Py.int qs) = Py.int p).
  { destruct Hin as [E'|Hin].
    - exists q. split; [left; reflexivity | symmetry; exact E'].
    - apply in_map_iff in Hin as (p & E' & Hp).
      exists p. split; [right; exact Hp | symmetry; exact E']. }
  split; [exact Hex|]. split; [|split; [|reflexivity]].
  - intros p Hp. apply Hle. change (In (Py.int p) (map Py.int (q :: qs))).
    apply in_map. exact Hp.
  - destruct Hex as (p & Hp & ->).
    rewrite <- E in Hp. apply in_findall_progress in Hp
      as (_ & _ & _ & _ & _ & Hd & _).
    apply int_of_digits_nonneg; [exact Hd | lia].
Qed.

(** An instance of X12: two markers, with 90 on record. *)
Lemma X12_numeric_markers_decide_witness :
  let self0 := set_current_progress (init "build" None 3600 0) 90 in
  _extract_progress self0
    (join_lines ["[ 42%] Building CXX object a.cc.o"; "[  7%] Linking"]) = 42.
Proof.
  cbv zeta.
  destruct (X12_numeric_markers_decide
              (set_current_progress (init "build" None 3600 0) 90)
              (join_lines ["[ 42%] Building CXX object a.cc.o"; "[  7%] Linking"]))
    as (_ & _ & _ & H).
  - vm_compute. discriminate.
  - rewrite <- (H (init "build" None 3600 0)). vm_compute. reflexivity.
Defined.

Lemma reachable_progress_nonneg self :
  reachable self ->
  0 <= current_progress self
  /\ milestones self = mkMilestones 10 20 30 50 80 100.
Proof.
  intros (b & f & d & n & H).
  apply (reaches_invariant (fun m =>
           0 <= current_progress m
           /\ milestones m = mkMilestones 10 20 30 50 80 100))
    with (self0 := init b f d n); [| |split; [cbn; lia | reflexivity]|exact H].
  - intros m w [Hp Hm]. split.
    + destruct (check_progress m w) as [_ Hle]. lia.
    + destruct (reaches_constants m _ (reaches_check m m w (reaches_refl m)))
        as (_ & _ & _ & _ & Hmi). rewrite Hmi. exact Hm.
  - intros m [Hp Hm]. unfold get_next_wait_interval.
    destruct (2 <? consecutive_no_activity m)%nat; split; assumption.
Qed.

(** X13.  In a session started from a fresh monitor progress is never
    negative.  When the chunk has no progress marker, the extracted
    value is the progress on record, or that progress raised to one of
    the floors 10, 20, 30, 50, 80, or 100 itself: it is never below the
    progress on record unless it is the completion value 100. *)
Theorem X13_milestone_ladder :
  forall self : Monitor,
    reachable self ->
    0 <= current_progress self
    /\ (forall output : string,
          findall_progress output = [] ->
          let cp := current_progress self in
          let v := _extract_progress self output in
          In v [cp; Z.max cp 10; Z.max cp 20; Z.max cp 30; Z.max cp 50;
                Z.max cp 80; 100]
          /\ (cp <= v \/ v = 100)
          /\ 0 <= v)
    /\ (forall w : World,
          0 <= BuildStatus.progress (fst (fst (check_build_status self w)))).
Proof.
  intros self Hreach.
  destruct (reachable_progress_nonneg self Hreach) as [Hp Hm].
  split; [exact Hp|]. split.
  - intros output Hnone. cbv zeta.
    assert (Hin : In (_extract_progress self output)
                    [current_progress self; Z.max (current_progress self) 10;
                     Z.max (current_progress self) 20;
                     Z.max (current_progress self) 30;
                     Z.max (current_progress self) 50;
                     Z.max (current_progress self) 80; 100]).
    { unfold _extract_progress. rewrite Hnone, Hm. cbn [map].
      cbn [cmake_start cmake_done core_start packages_start linking_start
           build_complete].
      repeat match goal with
      | |- context [if ?b then _ else _] => destruct b
      end; cbn [In]; tauto. }
    split; [exact Hin|].
    cbn [In] in Hin. lia.
  - intros w. destruct (check_progress self w) as [-> Hle]. lia.
Qed.

(** An instance of X13. *)
Lemma X13_milestone_ladder_witness :
  let self0 := init "build" None 3600 0 in
  0 <= BuildStatus.progress
         (fst (fst (check_build_status self0
                      (mkWorld 1 (CompletedProcess 0 "-- Generating done" "") 0)))).
Proof.
  cbv zeta.
  exact (proj2 (proj2 (X13_milestone_ladder (init "build" None 3600 0)
                         (reachable_init _ _ _ _))) _).
Defined.

(* ================================================================= *)
(** ** Patterns with a group: what a match consumes *)

Lemma substring_prefix (w s : string) :
  substring 0 (String.length w) (w ++ s) = w.
Proof.
  induction w as [|x w IH]; cbn [append String.length substring].
  - destruct s; reflexivity.
  - rewrite IH. reflexivity.
Qed.

Section Soundness.
Variable R : Type.

Lemma rep_greedy_sound c (k : string -> option R) :
  forall s res,
    ReGroup.rep_greedy R c k s = Some res ->
    exists w s1, s = w ++ s1 /\ all_accepted c w = true /\ k s1 = Some res.
Proof.
  induction s as [|x s IH]; intros res H; cbn [ReGroup.rep_greedy] in H.
  - exists "", "". auto.
  - destruct (ReGroup.accepts c x) eqn:Hx.
    + destruct (ReGroup.rep_greedy R c k s) as [r|] eqn:E.
      * injection H as <-. destruct (IH r eq_refl) as (w & s1 & -> & Hw & Hk).
        exists (String x w), s1. cbn [append all_accepted]. rewrite Hx, Hw. auto.
      * exists "", (String x s). auto.
    + exists "", (String x s). auto.
Qed.

Lemma rep_lazy_sound c (k : string -> option R) :
  forall s res,
    ReGroup.rep_lazy R c k s = Some res ->
    exists w s1, s = w ++ s1 /\ all_accepted c w = true /\ k s1 = Some res.
Proof.
  induction s as [|x s IH]; intros res H; cbn [ReGroup.rep_lazy] in H.
  - destruct (k "") eqn:E; [|discriminate]. injection H as <-.
    exists "", "". auto.
  - destruct (k (String x s)) eqn:E.
    + injection H as <-. exists "", (String x s). auto.
    + destruct (ReGroup.accepts c x) eqn:Hx; [|discriminate].
      destruct (IH res H) as (w & s1 & -> & Hw & Hk).
      exists (String x w), s1. cbn [append all_accepted]. rewrite Hx, Hw. auto.
Qed.

(** The matcher is sound: a way through the pattern splits the text
    into what the pattern consumed, in its language, and what the
    continuation got. *)
Lemma match_k_sound r :
  forall s cap k res,
    ReGroup.match_k R r s cap k = Some res ->
    exists w s1 cap1,
      s = w ++ s1 /\ denotes r w cap cap1 /\ k s1 cap1 = Some res.
Proof.
  induction r as [|c|greedy plus c|a IHa b IHb|a IHa b IHb|a IHa];
    intros s cap k res H; cbn [ReGroup.match_k] in H.
  - exists "", s, cap. cbn. auto.
  - destruct s as [|x s]; [discriminate|].
    destruct (ReGroup.accepts c x) eqn:Hx; [|discriminate].
    exists (String x ""), s, cap. cbn [append denotes]. eauto 6.
  - assert (Hloop : forall t,
              (if greedy then ReGroup.rep_greedy R else ReGroup.rep_lazy R) c
                (fun s' => k s' cap) t = Some res ->
              exists w s1, t = w ++ s1 /\ all_accepted c w = true
                           /\ k s1 cap = Some res).
    { intros t Ht. destruct greedy;
        [apply rep_greedy_sound in Ht | apply rep_lazy_sound in Ht]; exact Ht. }
    destruct plus.
    + destruct s as [|x s]; [discriminate|].
      destruct (ReGroup.accepts c x) eqn:Hx; [|discriminate].
      destruct (Hloop s H) as (w & s1 & -> & Hw & Hk).
      exists (String x w), s1, cap. cbn [append denotes all_accepted].
      rewrite Hx, Hw. repeat split; auto. discriminate.
    + destruct (Hloop s H) as (w & s1 & -> & Hw & Hk).
      exists w, s1, cap. cbn [denotes]. repeat split; auto. discriminate.
  - apply IHa in H as (w1 & s1 & mid & -> & Ha & H).
    apply IHb in H as (w2 & s2 & cap1 & -> & Hb & H).
    exists (w1 ++ w2), s2, cap1. rewrite append_assoc.
    cbn [denotes]. repeat split; eauto 8.
  - destruct (ReGroup.match_k R a s cap k) as [r|] eqn:E.
    + injection H as <-. apply IHa in E as (w & s1 & cap1 & -> & Ha & Hk).
      exists w, s1, cap1. cbn [denotes]. auto.
    + apply IHb in H as (w & s1 & cap1 & -> & Hb & Hk).
      exists w, s1, cap1. cbn [denotes]. auto.
  - apply IHa in H as (w & s1 & inner & -> & Ha & Hk).
    rewrite length_append, Nat.add_sub, substring_prefix in Hk.
    exists w, s1, (Some w). cbn [denotes]. eauto 6.
Qed.

End Soundness.

Lemma search_sound r :
  forall s g,
    ReGroup.search r s = Some g ->
    exists pre w post,
      s = pre ++ w ++ post /\ denotes r w None g.
Proof.
  induction s as [|x s IH]; intros g H; cbn [ReGroup.search] in H.
  - destruct (ReGroup.match_k _ r "" None _) as [g'|] eqn:E; [|discriminate].
    injection H as <-.
    apply match_k_sound in E as (w & s1 & cap1 & E & Hd & Hk).
    injection Hk as <-. exists "", w, s1. auto.
  - destruct (ReGroup.match_k _ r (String x s) None _) as [g'|] eqn:E.
    + injection H as <-.
      apply match_k_sound in E as (w & s1 & cap1 & E & Hd & Hk).
      injection Hk as <-. exists "", w, s1. auto.
    + destruct (IH g H) as (pre & w & post & -> & Hd).
      exists (String x pre), w, post. auto.
Qed.

(* ================================================================= *)
(** ** The description of the current activity *)

Lemma denotes_lit t :
  forall w cap cap', denotes (ReGroup.lit t) w cap cap' -> w = t /\ cap' = cap.
Proof.
  induction t as [|c t IH]; intros w cap cap' H; cbn [ReGroup.lit denotes] in H.
  - exact H.
  - destruct H as (w1 & w2 & mid & -> & (x & -> & Hx & ->) & H2).
    apply IH in H2 as [-> ->].
    cbn [ReGroup.accepts Re.accepts] in Hx. apply Ascii.eqb_eq in Hx. subst.
    split; reflexivity.
Qed.

(** What the group of the compiling pattern holds. *)
Lemma compiling_group line g :
  ReGroup.search compiling_pattern line = Some g ->
  exists pre mid stem ext post,
    line = pre ++ "Building" ++ mid ++ stem ++ ext ++ ".o" ++ post
    /\ g = Some (stem ++ ext)
    /\ (ext = ".cc" \/ ext = ".c")
    /\ stem <> ""
    /\ all_accepted (ReGroup.NotChar "/") stem = true.
Proof.
  intros H. apply search_sound in H as (pre & w & post & -> & H).
  unfold compiling_pattern in H. cbn [denotes] in H.
  destruct H as (w1 & w' & c1 & -> & Hb & H).
  apply denotes_lit in Hb as [-> ->].
  destruct H as (mid & w'' & c2 & -> & (Hmid & _ & ->) & H).
  destruct H as (wg & wo & c3 & -> & ((inner & Hg) & ->) & Ho).
  apply denotes_lit in Ho as [-> Hcap]. subst g.
  exists pre, mid.
  destruct Hg as [Hg|Hg];
    destruct Hg as (stem & ext & c4 & -> & (Hstem & Hne & ->) & Hext);
    apply denotes_lit in Hext as [-> _].
  - exists stem, ".cc", post.
    split; [rewrite !append_assoc; reflexivity|].
    split; [reflexivity|]. split; [left; reflexivity|].
    split; [apply Hne; reflexivity | exact Hstem].
  - exists stem, ".c", post.
    split; [rewrite !append_assoc; reflexivity|].
    split; [reflexivity|]. split; [right; reflexivity|].
    split; [apply Hne; reflexivity | exact Hstem].
Qed.

(** What the group of the linking pattern holds. *)
Lemma linking_group line g :
  ReGroup.search linking_pattern line = Some g ->
  exists pre mid word post,
    line = pre ++ "Linking" ++ mid ++ word ++ post
    /\ g = Some word
    /\ word <> ""
    /\ all_accepted ReGroup.Word word = true.
Proof.
  intros H. apply search_sound in H as (pre & w & post & -> & H).
  unfold linking_pattern in H. cbn [denotes] in H.
  destruct H as (w1 & w' & c1 & -> & Hb & H).
  apply denotes_lit in Hb as [-> ->].
  destruct H as (mid & wg & c2 & -> & (Hmid & _ & ->) & H).
  destruct H as ((inner & (Hw & Hne & _)) & ->).
  exists pre, mid, wg, post.
  split; [rewrite !append_assoc; reflexivity|].
  repeat split; auto.
Qed.

Lemma package_activity_spec packages line a :
  package_activity packages line = Some a ->
  exists package,
    In package packages
    /\ Py.contains ("package_" ++ package) (Py.lower line) = true
    /\ a = "Building " ++ PyMore.upper package ++ " package".
Proof.
  induction packages as [|p l IH]; [discriminate|].
  cbn [package_activity].
  destruct (Py.contains ("package_" ++ p) (Py.lower line)) eqn:E.
  - intros H. injection H as <-. exists p. split; [left; reflexivity | auto].
  - intros H. destruct (IH H) as (q & Hq & Hc & Ha).
    exists q. split; [right; exact Hq | auto].
Qed.

Lemma line_activity_describes self line a :
  line_activity self line = Some a -> describes self line a.
Proof.
  unfold line_activity, describes.
  destruct (Re.search_pat false (Re.compile "Building.*\.o") line).
  - destruct (ReGroup.search compiling_pattern line) as [g|] eqn:Eg.
    + intros H. injection H as <-. left.
      apply compiling_group in Eg as (pre & mid & stem & ext & post & E & -> & H).
      exists pre, mid, stem, ext, post. cbn [PyMore.str_group]. tauto.
    + destruct (package_activity (focus_packages self) line) as [b|] eqn:Ep.
      * intros H. injection H as <-. right; left.
        apply package_activity_spec in Ep. exact Ep.
      * destruct (Py.contains "linking" (Py.lower line)); [|discriminate].
        destruct (ReGroup.search linking_pattern line) as [g|] eqn:El;
          [|discriminate].
        intros H. injection H as <-. right; right.
        apply linking_group in El as (pre & mid & word & post & E & -> & H).
        exists pre, mid, word, post. cbn [PyMore.str_group]. tauto.
  - destruct (package_activity (focus_packages self) line) as [b|] eqn:Ep.
    + intros H. injection H as <-. right; left.
      apply package_activity_spec in Ep. exact Ep.
    + destruct (Py.contains "linking" (Py.lower line)); [|discriminate].
      destruct (ReGroup.search linking_pattern line) as [g|] eqn:El;
        [|discriminate].
      intros H. injection H as <-. right; right.
      apply linking_group in El as (pre & mid & word & post & E & -> & H).
      exists pre, mid, word, post. cbn [PyMore.str_group]. tauto.
Qed.

Lemma first_activity_spec self lines :
  first_activity self lines = "Processing..."
  \/ exists line,
       In line lines
       /\ line_activity self (Py.strip line)
          = Some (first_activity self lines).
Proof.
  induction lines as [|l lines IH]; [left; reflexivity|].
  cbn [first_activity].
  destruct (Py.truthy (Py.strip l)); cbn [negb].
  - destruct (line_activity self (Py.strip l)) as [a|] eqn:E.
    + right. exists l. split; [left; reflexivity | exact E].
    + destruct IH as [IH|(line & Hin & H)]; [left; exact IH|].
      right. exists line. split; [right; exact Hin | exact H].
  - destruct IH as [IH|(line & Hin & H)]; [left; exact IH|].
    right. exists line. split; [right; exact Hin | exact H].
Qed.

(** X16.  The descriptions there are.  The result is ["Processing..."]
    or it is read off one of the last ten lines, trimmed, in one of three
    ways: ["Compiling "] and a file name that stands in the line before
    [".o"] and after ["Building"], made of a non-empty stem without a
    slash and the ending [".cc"] or [".c"]; ["Building "], the name of a
    tracked package in capitals and [" package"], the lower-cased line
    holding [package_] and the name; or ["Linking "] and a non-empty word
    of letters, digits and underscores that stands in the line after
    ["Linking"]. *)
Theorem X16_activity_description :
  forall (self : Monitor) (output : string),
    let a := _get_current_activity self output in
    a = "Processing..."
    \/ exists line,
         In line (PyMore.last_n 10 (Py.split_lines output))
         /\ describes self (Py.strip line) a.
Proof.
  intros self output. cbv zeta. unfold _get_current_activity.
  destruct (first_activity_spec self
              (rev (PyMore.last_n 10 (Py.split_lines output))))
    as [H|(line & Hin & H)]; [left; exact H|].
  right. exists line. split; [apply in_rev; exact Hin|].
  apply line_activity_describes. exact H.
Qed.

Lemma last_n_app {A} (n : nat) (older recent : list A) :
  (n <= length recent)%nat ->
  PyMore.last_n n (older ++ recent) = PyMore.last_n n recent.
Proof.
  intros H. unfold PyMore.last_n. rewrite length_app, skipn_app.
  replace (length older + length recent - n - length older)%nat
    with (length recent - n)%nat by lia.
  rewrite skipn_all2 by lia. reflexivity.
Qed.

Lemma last_n_keeps {A} (n : nat) (older newer : list A) (x : A) :
  (length newer < n)%nat ->
  exists front, PyMore.last_n n (older ++ x :: newer) = (front ++ x :: newer)%list.
Proof.
  intros H. unfold PyMore.last_n. rewrite length_app, skipn_app.
  cbn [length].
  replace (length older + S (length newer) - n - length older)%nat
    with 0%nat by lia.
  cbn [skipn]. eauto.
Qed.

Lemma package_activity_empty packages : package_activity packages "" = None.
Proof. induction packages as [|p l IH]; [reflexivity | exact IH]. Qed.

Lemma line_activity_empty self : line_activity self "" = None.
Proof.
  unfold line_activity. rewrite package_activity_empty. reflexivity.
Qed.

Lemma first_activity_skip self l1 l2 :
  Forall (fun t => line_activity self (Py.strip t) = None) l1 ->
  first_activity self (l1 ++ l2) = first_activity self l2.
Proof.
  induction 1 as [|t l1 Ht _ IH]; [reflexivity|].
  cbn [app first_activity]. rewrite Ht.
  destruct (negb (Py.truthy (Py.strip t))); exact IH.
Qed.

Lemma first_activity_none self l :
  Forall (fun t => line_activity self (Py.strip t) = None) l ->
  first_activity self l = "Processing...".
Proof.
  intros H. rewrite <- (app_nil_r l). rewrite (first_activity_skip self l [] H).
  reflexivity.
Qed.

Lemma split_join_nonempty lines :
  lines <> [] ->
  Forall (fun x => single_line x = true) lines ->
  Py.split_lines (join_lines lines) = lines.
Proof.
  destruct lines as [|l lines]; [intros H; contradiction H; reflexivity|].
  intros _ H. apply split_join_lines. exact H.
Qed.

(** X14.  Only the last ten lines of a chunk are read for the
    description of the activity: when a chunk ends with at least ten
    lines, the lines before them make no difference to the result. *)
Theorem X14_only_last_ten_lines :
  forall (self : Monitor) (older recent : list string),
    (10 <= length recent)%nat ->
    Forall (fun l => single_line l = true) (older ++ recent) ->
    _get_current_activity self (join_lines (older ++ recent))
    = _get_current_activity self (join_lines recent).
Proof.
  intros self older recent Hlen Hall.
  assert (Hrec : Forall (fun l => single_line l = true) recent).
  { apply Forall_app in Hall as [_ H]. exact H. }
  assert (Hne : recent <> []).
  { intros E. rewrite E in Hlen. cbn in Hlen. lia. }
  unfold _get_current_activity.
  rewrite (split_join_nonempty (older ++ recent)), (split_join_nonempty recent);
    try assumption.
  - rewrite last_n_app by exact Hlen. reflexivity.
  - intros E. apply app_eq_nil in E as [_ E]. contradiction.
Qed.

(** An instance of X14: a linking line eleven lines from the end is not seen. *)
Lemma X14_only_last_ten_lines_witness :
  let self0 := init "build" None 3600 0 in
  let recent := ["1"; "2"; "3"; "4"; "5"; "6"; "7"; "8"; "9"; "10"] in
  _get_current_activity self0
    (join_lines ("[ 90%] Linking CXX executable driver" :: recent))
  = _get_current_activity self0 (join_lines recent).
Proof.
  cbv zeta.
  apply (X14_only_last_ten_lines (init "build" None 3600 0)
           ["[ 90%] Linking CXX executable driver"]
           ["1"; "2"; "3"; "4"; "5"; "6"; "7"; "8"; "9"; "10"]).
  - cbn. lia.
  - repeat constructor.
Defined.

(** X15.  The newest line that gives a description wins.  If a line of
    the chunk gives a description, fewer than ten lines follow it and
    none of them gives one, the result is the description of that line,
    whatever comes before it.  If none of the last ten lines gives a
    description the result is ["Processing..."]. *)
Theorem X15_newest_recognised_line_wins :
  forall (self : Monitor),
    (forall (older newer : list string) (line a : string),
       (length newer < 10)%nat ->
       Forall (fun l => single_line l = true) (older ++ line :: newer) ->
       Forall (fun t => line_activity self (Py.strip t) = None) newer ->
       line_activity self (Py.strip line) = Some a ->
       _get_current_activity self (join_lines (older ++ line :: newer)) = a)
    /\ (forall output : string,
          Forall (fun t => line_activity self (Py.strip t) = None)
            (PyMore.last_n 10 (Py.split_lines output)) ->
          _get_current_activity self output = "Processing...").
Proof.
  intros self. split.
  - intros older newer line a Hlen Hall Hnone Hline.
    unfold _get_current_activity.
    rewrite split_join_nonempty; [|intros E; apply app_eq_nil in E as [_ E];
                                   discriminate | exact Hall].
    destruct (last_n_keeps 10 older newer line Hlen) as [front ->].
    rewrite rev_app_distr. cbn [rev]. rewrite <- app_assoc. cbn [app].
    rewrite first_activity_skip.
    + cbn [first_activity]. rewrite Hline.
      destruct (Py.truthy (Py.strip line)) eqn:T; [reflexivity|].
      destruct (Py.strip line); [|discriminate].
      rewrite line_activity_empty in Hline. discriminate.
    + apply Forall_rev. exact Hnone.
  - intros output H. unfold _get_current_activity.
    apply first_activity_none, Forall_rev, H.
Qed.

(** An instance of X15: the package line is newer than the compiling line. *)
Lemma X15_newest_recognised_line_wins_witness :
  let self0 := init "build" None 3600 0 in
  _get_current_activity self0
    (join_lines ["[ 10%] Building CXX object a/b/main.cc.o";
                 "[ 60%] Built target package_rest";
                 "";
                 "-- done"])
  = "Building REST package".
Proof.
  cbv zeta.
  apply (proj1 (X15_newest_recognised_line_wins (init "build" None 3600 0))
           ["[ 10%] Building CXX object a/b/main.cc.o"]
           [""; "-- done"]
           "[ 60%] Built target package_rest").
  - cbn. lia.
  - repeat constructor.
  - repeat constructor.
  - vm_compute. reflexivity.
Defined.

(* ================================================================= *)
(** ** The monitoring loop *)

Lemma check_build_status_full_base self w :
  status (fst (fst (check_build_status_full self w)))
    = fst (fst (check_build_status self w))
  /\ snd (fst (check_build_status_full self w))
     = snd (fst (check_build_status self w))
  /\ snd (check_build_status_full self w) = snd (check_build_status self w).
Proof.
  unfold check_build_status_full.
  destruct (check_build_status self w) as [[st self'] w'].
  destruct (clock w - start_time self >? max_duration self).
  - repeat split.
  - destruct (_run_bash_output w) as [[[stdout stderr] completed] w''].
    repeat split.
Qed.

Lemma reachable_check_full self w :
  reachable self -> reachable (snd (fst (check_build_status_full self w))).
Proof.
  intros H. destruct (check_build_status_full_base self w) as (_ & -> & _).
  eapply reachable_reaches; [exact H|]. apply reaches_check, reaches_refl.
Qed.

Lemma reachable_wait self :
  reachable self -> reachable (snd (get_next_wait_interval self)).
Proof.
  intros H. eapply reachable_reaches; [exact H|]. apply reaches_wait, reaches_refl.
Qed.

Lemma reachable_wait_value self :
  reachable self ->
  exists d, fst (get_next_wait_interval self) = Some d /\ 30 <= d <= 900.
Proof.
  intros H.
  destruct (reachable_scheduler_ok _ (reachable_wait self H)) as [Hwi Hidx].
  destruct (wait_scheduler self) as (_ & _ & Hr).
  rewrite Hr.
  destruct (reaches_constants self _ (reaches_wait self self (reaches_refl self)))
    as (_ & _ & _ & Hw & _).
  rewrite <- Hw, Hwi.
  apply wait_value_bounds. exact Hidx.
Qed.

Lemma terminal_timeout self w :
  max_duration self < clock w - start_time self ->
  is_terminal (BuildStatus.state (fst (fst (check_build_status self w)))) = true.
Proof.
  intros H. rewrite check_build_status_timeout by (apply Z.gtb_lt; exact H).
  reflexivity.
Qed.

Lemma turns_needed_step self now d :
  (now - start_time self >? max_duration self) = false ->
  30 <= d ->
  (S (turns_needed self (now + d)) <= turns_needed self now)%nat.
Proof.
  intros Hlive Hd. unfold turns_needed. rewrite Hlive.
  rewrite Z.gtb_ltb in Hlive. apply Z.ltb_ge in Hlive.
  destruct (Z.gtb_spec (now + d - start_time self) (max_duration self)).
  - lia.
  - assert (H30 : (max_duration self - (now + d - start_time self)) / 30 + 1
                  <= (max_duration self - (now - start_time self)) / 30).
    { replace (max_duration self - (now - start_time self))
        with ((max_duration self - (now + d - start_time self)) + (d - 30) + 1 * 30)
        by lia.
      rewrite Z.div_add by lia.
      apply Z.add_le_mono_r. apply Z.div_le_mono; lia. }
    assert (0 <= (max_duration self - (now + d - start_time self)) / 30)
      by (apply Z.div_pos; lia).
    lia.
Qed.

Lemma result_events_add evs r :
  result_events (add_events evs r) = (evs ++ result_events r)%list.
Proof. destruct r; reflexivity. Qed.

Lemma flat_map_map_nil {A B C} (f : B -> list C) (g : A -> B) l :
  (forall a, f (g a) = []) -> flat_map f (map g l) = [].
Proof.
  intros H. induction l as [|a l IH]; [reflexivity|].
  cbn [map flat_map]. rewrite H, IH. reflexivity.
Qed.

Lemma flat_map_map_single {A B} (f : B -> list A) (g : A -> B) l :
  (forall a, f (g a) = [a]) -> flat_map f (map g l) = l.
Proof.
  intros H. induction l as [|a l IH]; [reflexivity|].
  cbn [map flat_map]. rewrite H, IH. reflexivity.
Qed.

Lemma turn_reports_packages st lp lpk :
  printed_packages (turn_reports st lp lpk) = new_packages st lpk.
Proof.
  unfold printed_packages, turn_reports, new_packages.
  rewrite !flat_map_app.
  rewrite (flat_map_map_single _ PrintPackage) by reflexivity.
  rewrite (flat_map_map_nil _ (fun e => PrintCritical (message e)))
    by reflexivity.
  destruct (BuildStatus.progress (status st) >? lp); cbn [flat_map app];
    rewrite app_nil_r; reflexivity.
Qed.

Lemma turn_reports_progress st lp lpk :
  printed_progress (turn_reports st lp lpk)
  = if BuildStatus.progress (status st) >? lp
    then [BuildStatus.progress (status st)] else [].
Proof.
  unfold printed_progress, turn_reports.
  rewrite !flat_map_app.
  rewrite (flat_map_map_nil _ PrintPackage) by reflexivity.
  rewrite (flat_map_map_nil _ (fun e => PrintCritical (message e)))
    by reflexivity.
  destruct (BuildStatus.progress (status st) >? lp); reflexivity.
Qed.

Lemma turn_reports_quiet st lp lpk :
  callbacks (turn_reports st lp lpk) = [] /\ sleeps (turn_reports st lp lpk) = [].
Proof.
  unfold callbacks, sleeps, turn_reports. rewrite !flat_map_app.
  rewrite !(flat_map_map_nil _ PrintPackage) by reflexivity.
  rewrite !(flat_map_map_nil _ (fun e => PrintCritical (message e)))
    by reflexivity.
  destruct (BuildStatus.progress (status st) >? lp); split; reflexivity.
Qed.

Lemma in_new_packages st last p :
  In p (new_packages st last) <->
  In p (BuildStatus.packages_built (status st)) /\ ~ In p last.
Proof.
  unfold new_packages. rewrite filter_In, nodup_In, negb_true_iff. split.
  - intros [H1 H2]. split; [exact H1|].
    intros Hin. apply mem_true_iff in Hin. congruence.
  - intros [H1 H2]. split; [exact H1|].
    destruct (Py.mem p last) eqn:E; [|reflexivity].
    apply mem_true_iff in E. contradiction.
Qed.

Lemma NoDup_new_packages st last : NoDup (new_packages st last).
Proof. unfold new_packages. apply NoDup_filter, NoDup_nodup. Qed.

Lemma printed_packages_app a b :
  printed_packages (a ++ b) = (printed_packages a ++ printed_packages b)%list.
Proof. apply flat_map_app. Qed.

Lemma printed_packages_callback (callback : bool) st :
  printed_packages (if callback then [Callback st] else []) = [].
Proof. destruct callback; reflexivity. Qed.

(** The names announced by the loop, whatever way it ends: each once,
    none that was reported before the loop, and together with those
    exactly the names built when the loop stops. *)
Lemma monitor_loop_packages callback script :
  forall self now calls lp lpk,
    incl lpk (packages_built self) ->
    let r := monitor_loop callback self now calls lp lpk script in
    let printed := printed_packages (result_events r) in
    NoDup printed
    /\ (forall p, In p printed -> ~ In p lpk)
    /\ (forall st self' events,
          r = LoopReturned st self' events ->
          forall p, In p (BuildStatus.packages_built (status st)) <->
                    In p lpk \/ In p printed).
Proof.
  induction script as [|[outcome lag] script IH];
    intros self now calls lp lpk Hincl; cbv zeta.
  - cbn. split; [constructor|]. split; [intros p []|]. intros; discriminate.
  - cbn [monitor_loop].
    pose proof (check_build_status_full_base self (mkWorld now outcome calls))
      as (Hst & Hself & _).
    destruct (check_build_status_full self (mkWorld now outcome calls))
      as [[st self1] w1].
    cbn [fst snd] in Hst, Hself.
    assert (Hbuilt : BuildStatus.packages_built (status st) = packages_built self1).
    { rewrite Hst, Hself. clear.
      check_cases self (mkWorld now outcome calls); reflexivity. }
    assert (Hgrow : incl lpk (packages_built self1)).
    { intros p Hp. apply Hincl in Hp. rewrite Hself, check_packages_built.
      destruct (_ >? _); [exact Hp | apply in_or_app; left; exact Hp]. }
    assert (Hturn : forall p, In p (BuildStatus.packages_built (status st)) <->
                              In p lpk \/ In p (new_packages st lpk)).
    { intros p. rewrite in_new_packages, Hbuilt. split.
      - intros H. destruct (in_dec string_dec p lpk); auto.
      - intros [H|[H _]]; [apply Hgrow, H | exact H]. }
    destruct (is_terminal (BuildStatus.state (status st))).
    + cbn [result_events]. rewrite turn_reports_packages.
      split; [apply NoDup_new_packages|]. split.
      * intros p Hp. apply in_new_packages in Hp. tauto.
      * intros st' self' events E. injection E as <- _ _. exact Hturn.
    + destruct (get_next_wait_interval self1) as [[wait|] self2] eqn:Ewait.
      * assert (Hb2 : packages_built self2 = packages_built self1).
        { replace self2 with (snd (get_next_wait_interval self1))
            by (rewrite Ewait; reflexivity).
          apply wait_packages_built. }
        assert (Hincl' : incl (BuildStatus.packages_built (status st))
                           (packages_built self2)).
        { rewrite Hb2, Hbuilt. apply incl_refl. }
        specialize (IH self2 (now + wait + lag) (fetches w1)
                      (if BuildStatus.progress (status st) >? lp
                       then BuildStatus.progress (status st) else lp)
                      (BuildStatus.packages_built (status st)) Hincl').
        cbv zeta in IH. destruct IH as (Hnd & Hnew & Hfinal).
        rewrite result_events_add, !printed_packages_app.
        rewrite turn_reports_packages, printed_packages_callback.
        cbn [printed_packages flat_map app]. rewrite app_nil_r.
        fold (printed_packages
                (result_events
                   (monitor_loop callback self2 (now + wait + lag) (fetches w1)
                      (if BuildStatus.progress (status st) >? lp
                       then BuildStatus.progress (status st) else lp)
                      (BuildStatus.packages_built (status st)) script))).
        split; [|split].
        -- apply NoDup_app; [apply NoDup_new_packages | exact Hnd |].
           intros p Hp Hp'. apply in_new_packages in Hp as [Hp _].
           exact (Hnew p Hp' Hp).
        -- intros p Hp. apply in_app_or in Hp as [Hp|Hp].
           ++ apply in_new_packages in Hp. tauto.
           ++ intros Hl. apply (Hnew p Hp). apply Hturn. left. exact Hl.
        -- intros st' self' events E p.
           destruct (monitor_loop callback self2 _ _ _ _ script) as [s1 m1 e1| |]
             eqn:El; cbn [add_events] in E; try discriminate.
           injection E as <- _ _.
           rewrite (Hfinal s1 m1 e1 eq_refl p), Hturn, in_app_iff. tauto.
      * cbn [result_events]. rewrite printed_packages_app.
        rewrite turn_reports_packages, printed_packages_callback, app_nil_r.
        split; [apply NoDup_new_packages|]. split.
        -- intros p Hp. apply in_new_packages in Hp. tauto.
        -- intros; discriminate.
Qed.

Lemma printed_progress_app a b :
  printed_progress (a ++ b) = (printed_progress a ++ printed_progress b)%list.
Proof. apply flat_map_app. Qed.

Lemma printed_criticals_app a b :
  printed_criticals (a ++ b)
  = (printed_criticals a ++ printed_criticals b)%list.
Proof. apply flat_map_app. Qed.

Lemma callbacks_app a b : callbacks (a ++ b) = (callbacks a ++ callbacks b)%list.
Proof. apply flat_map_app. Qed.

Lemma sleeps_app a b : sleeps (a ++ b) = (sleeps a ++ sleeps b)%list.
Proof. apply flat_map_app. Qed.

Lemma turn_reports_criticals st lp lpk :
  printed_criticals (turn_reports st lp lpk)
  = map message (filter critical (BuildStatus.errors (status st))).
Proof.
  unfold printed_criticals, turn_reports.
  rewrite !flat_map_app.
  rewrite (flat_map_map_nil _ PrintPackage) by reflexivity.
  assert (H : forall l : list ErrorEntry,
             flat_map (fun e => match e with PrintCritical m => [m] | _ => [] end)
               (map (fun e => PrintCritical (message e)) l) = map message l).
  { induction l as [|e l IH]; [reflexivity|].
    cbn [map flat_map app]. rewrite IH. reflexivity. }
  rewrite H.
  destruct (BuildStatus.progress (status st) >? lp); reflexivity.
Qed.

Lemma filter_critical_none (l : list ErrorEntry) :
  existsb critical l = false -> filter critical l = [].
Proof.
  induction l as [|e l IH]; [reflexivity|].
  cbn [existsb filter]. intros H. apply orb_false_iff in H as [-> H].
  auto.
Qed.

(** A status that does not end the loop carries no critical error, and
    was taken before the deadline. *)
Lemma working_phase self w :
  let st := fst (fst (check_build_status self w)) in
  is_terminal (BuildStatus.state st) = false ->
  existsb critical (BuildStatus.errors st) = false
  /\ (clock w - start_time self >? max_duration self) = false.
Proof.
  cbv zeta. check_cases self w.
  - cbn. discriminate.
  - cbn [fst snd snapshot BuildStatus.state BuildStatus.errors].
    assert (Hs : state (after_check self stdout stderr completed)
                 = _update_build_state (after_check self stdout stderr completed)
                     stdout completed) by reflexivity.
    rewrite Hs.
    destruct (update_build_state_sound
                (after_check self stdout stderr completed) stdout completed)
      as (H1 & H2 & H3 & H4 & H5 & H6 & H7 & H8).
    destruct (_update_build_state (after_check self stdout stderr completed)
                stdout completed) eqn:E; cbn [is_terminal];
      try discriminate; intros _; split; try reflexivity.
    + contradiction.
    + apply H5; reflexivity.
    + apply H6; reflexivity.
    + apply H7; reflexivity.
    + apply H8; reflexivity.
Qed.

Lemma wait_current_progress self :
  current_progress (snd (get_next_wait_interval self)) = current_progress self.
Proof.
  unfold get_next_wait_interval.
  destruct (2 <? consecutive_no_activity self)%nat; reflexivity.
Qed.

Lemma turns_needed_bound self now :
  start_time self <= now ->
  (turns_needed self now <= Z.to_nat (max_duration self / 30) + 2)%nat.
Proof.
  intros H. unfold turns_needed.
  destruct (Z.gtb_spec (now - start_time self) (max_duration self)); [lia|].
  assert ((max_duration self - (now - start_time self)) / 30
          <= max_duration self / 30) by (apply Z.div_le_mono; lia).
  lia.
Qed.

(** With enough turns in the script and time moving on, the loop
    returns, in a terminal state, and has slept fewer times than the
    turns that were surely enough. *)
Lemma monitor_loop_turns callback script :
  forall self now calls lp lpk,
    reachable self ->
    Forall (fun e => 0 <= snd e) script ->
    (turns_needed self now <= length script)%nat ->
    exists st self' events,
      monitor_loop callback self now calls lp lpk script
        = LoopReturned st self' events
      /\ is_terminal (BuildStatus.state (status st)) = true
      /\ reachable self'
      /\ (S (length (sleeps events)) <= turns_needed self now)%nat.
Proof.
  induction script as [|[outcome lag] script IH];
    intros self now calls lp lpk Hreach Hlag Hlen.
  - exfalso. unfold turns_needed in Hlen. cbn [length] in Hlen.
    destruct (now - start_time self >? max_duration self); lia.
  - cbn [monitor_loop].
    apply Forall_cons_iff in Hlag as [Hl Hlag']. cbn [snd] in Hl.
    pose proof (check_build_status_full_base self (mkWorld now outcome calls))
      as (Hst & Hself & Hw).
    pose proof (reachable_check_full self (mkWorld now outcome calls) Hreach)
      as Hreach1.
    destruct (check_build_status_full self (mkWorld now outcome calls))
      as [[st self1] w1] eqn:Echeck.
    cbn [fst snd] in Hst, Hself, Hw, Hreach1.
    destruct (is_terminal (BuildStatus.state (status st))) eqn:Hterm.
    + exists st, self1, (turn_reports st lp lpk).
      repeat split; auto.
      rewrite (proj2 (turn_reports_quiet st lp lpk)). cbn [length].
      unfold turns_needed.
      destruct (now - start_time self >? max_duration self); lia.
    + assert (Hlive : (now - start_time self >? max_duration self) = false).
      { destruct (Z.gtb_spec (now - start_time self) (max_duration self));
          [|reflexivity].
        pose proof (terminal_timeout self (mkWorld now outcome calls)) as Ht.
        cbn [clock] in Ht. rewrite <- Hst, Hterm in Ht.
        specialize (Ht ltac:(lia)). discriminate. }
      destruct (reachable_wait_value self1 Hreach1) as (d & Hd & Hrange).
      pose proof (reachable_wait self1 Hreach1) as Hreach2.
      destruct (get_next_wait_interval self1) as [[wait|] self2] eqn:Ewait;
        cbn [fst snd] in Hd, Hreach2; [|discriminate].
      injection Hd as ->.
      assert (Hconst : start_time self2 = start_time self
                       /\ max_duration self2 = max_duration self).
      { assert (Hr : reaches self self2).
        { replace self2 with (snd (get_next_wait_interval self1))
            by (rewrite Ewait; reflexivity).
          apply reaches_wait. rewrite Hself. apply reaches_check, reaches_refl. }
        destruct (reaches_constants _ _ Hr) as (Hs & Hm & _). auto. }
      destruct Hconst as [Hs Hm].
      pose proof (turns_needed_step self now (d + lag) Hlive ltac:(lia)) as Hstep.
      rewrite Z.add_assoc in Hstep.
      assert (Hsame : turns_needed self2 (now + d + lag)
                      = turns_needed self (now + d + lag)).
      { unfold turns_needed. rewrite Hs, Hm. reflexivity. }
      assert (Hlen' : (turns_needed self2 (now + d + lag) <= length script)%nat).
      { rewrite Hsame. cbn [length] in Hlen. lia. }
      destruct (IH self2 (now + d + lag) (fetches w1)
                  (if BuildStatus.progress (status st) >? lp
                   then BuildStatus.progress (status st) else lp)
                  (BuildStatus.packages_built (status st))
                  Hreach2 Hlag' Hlen')
        as (st' & self' & events & -> & Hterm' & Hreach' & Hsleeps).
      cbn [add_events].
      exists st', self', ((turn_reports st lp lpk
                           ++ (if callback then [Callback st] else [])
                           ++ [Sleep d]) ++ events)%list.
      repeat split; auto.
      rewrite !sleeps_app, (proj2 (turn_reports_quiet st lp lpk)).
      assert (Hc : sleeps (if callback then [Callback st] else []) = [])
        by (destruct callback; reflexivity).
      rewrite Hc. cbn [sleeps flat_map app length].
      rewrite Hsame in Hsleeps. lia.
Qed.

(** X17.  Monitoring ends by the deadline.  For a monitor that a
    session can reach and whose tracked names are plain, so that no
    search raises [re.error], started no later than the clock reads now, with
    no turn taking negative time and the surroundings scripted for at
    least [max_duration / 30 + 2] turns, [monitor_build_to_completion]
    returns, the phase of the status it returns is [COMPLETED], [FAILED]
    or [TIMEOUT], and it has slept at most [max_duration / 30 + 1]
    times. *)
Theorem X17_monitoring_ends_by_the_deadline :
  forall (callback : bool) (self : Monitor) (now : Z) (calls : nat)
         (script : list (run_outcome * Z)),
    reachable self ->
    plain_names self = true ->
    start_time self <= now ->
    Forall (fun turn => 0 <= snd turn) script ->
    (Z.to_nat (max_duration self / 30) + 2 <= length script)%nat ->
    exists st self' events,
      monitor_build_to_completion callback self now calls script
        = LoopReturned st self' events
      /\ is_terminal (BuildStatus.state (status st)) = true
      /\ (length (sleeps events) <= Z.to_nat (max_duration self / 30) + 1)%nat.
Proof.
  intros callback self now calls script Hreach Hplain Hnow Hlag Hlen.
  pose proof (turns_needed_bound self now Hnow) as Hb.
  destruct (monitor_loop_turns callback script self now calls (-1) []
              Hreach Hlag ltac:(lia))
    as (st & self' & events & E & Hterm & _ & Hsleeps).
  exists st, self', events. unfold monitor_build_to_completion.
  repeat split; auto. lia.
Qed.

(** An instance of X17: a deadline of 60 seconds and four scripted turns. *)
Lemma X17_monitoring_ends_by_the_deadline_witness :
  exists st self' events,
    monitor_build_to_completion true (init "b1" None 60 1000) 1000 0
      [(TimeoutExpired, 1); (CompletedProcess 1 "" "boom", 0);
       (CompletedProcess 0 "cmake" "", 2); (OtherException "x", 0)]
      = LoopReturned st self' events
    /\ is_terminal (BuildStatus.state (status st)) = true
    /\ (length (sleeps events)
        <= Z.to_nat (max_duration (init "b1" None 60 1000) / 30) + 1)%nat.
Proof.
  apply (X17_monitoring_ends_by_the_deadline true (init "b1" None 60 1000)
           1000 0).
  - apply reachable_init.
  - reflexivity.
  - cbn. lia.
  - repeat constructor; cbn; lia.
  - vm_compute. lia.
Defined.

(** X18.  Every built package is announced once.  However the
    surroundings behave and however far the loop gets, no name is
    announced twice in a run; and when the loop returns, the names it
    has announced are exactly the names in [packages_built] of the
    status it returns. *)
Theorem X18_packages_announced_once :
  forall (callback : bool) (self : Monitor) (now : Z) (calls : nat)
         (script : list (run_outcome * Z)),
    let r := monitor_build_to_completion callback self now calls script in
    let announced := printed_packages (result_events r) in
    NoDup announced
    /\ (forall st self' events,
          r = LoopReturned st self' events ->
          forall p, In p announced <->
                    In p (BuildStatus.packages_built (status st))).
Proof.
  intros callback self now calls script. cbv zeta.
  unfold monitor_build_to_completion.
  destruct (monitor_loop_packages callback script self now calls (-1) []
              ltac:(intros p []))
    as (Hnd & _ & Hfinal).
  cbv zeta in Hfinal. split; [exact Hnd|].
  intros st self' events E p. rewrite (Hfinal st self' events E p).
  split; [auto | intros [[]|H]; exact H].
Qed.

Lemma last_default {A} (b : list A) (d d' : A) :
  b <> [] -> last b d = last b d'.
Proof.
  induction b as [|x [|y b] IH]; intros H.
  - contradiction.
  - reflexivity.
  - change (last (y :: b) d = last (y :: b) d'). apply IH. discriminate.
Qed.

Lemma last_app_nonempty {A} (a b : list A) (d d' : A) :
  b <> [] -> last (a ++ b) d = last b d'.
Proof.
  intros H. induction a as [|x a IH].
  - apply last_default, H.
  - cbn [app]. destruct (a ++ b)%list eqn:E.
    + apply app_eq_nil in E as [_ E]. contradiction.
    + rewrite <- IH. reflexivity.
Qed.

(** Progress lines: above the last value shown, increasing, and ending
    with the progress of the returned status. *)
Lemma monitor_loop_progress callback script :
  forall self now calls lp lpk,
    lp <= current_progress self ->
    let r := monitor_loop callback self now calls lp lpk script in
    let shown := printed_progress (result_events r) in
    StronglySorted Z.lt shown
    /\ Forall (fun v => lp < v) shown
    /\ (forall st self' events,
          r = LoopReturned st self' events ->
          last shown lp = BuildStatus.progress (status st)
          /\ current_progress self <= BuildStatus.progress (status st)).
Proof.
  induction script as [|[outcome lag] script IH];
    intros self now calls lp lpk Hlp; cbv zeta.
  - cbn. split; [constructor|]. split; [constructor|]. intros; discriminate.
  - cbn [monitor_loop].
    pose proof (check_build_status_full_base self (mkWorld now outcome calls))
      as (Hst & Hself & _).
    destruct (check_progress self (mkWorld now outcome calls)) as [Hp Hmono].
    destruct (check_build_status_full self (mkWorld now outcome calls))
      as [[st self1] w1].
    cbn [fst snd] in Hst, Hself.
    rewrite <- Hst, <- Hself in Hp. rewrite <- Hself in Hmono.
    assert (Hturn : StronglySorted Z.lt (printed_progress (turn_reports st lp lpk))
                    /\ Forall (fun v => lp < v)
                         (printed_progress (turn_reports st lp lpk))
                    /\ last (printed_progress (turn_reports st lp lpk)) lp
                       = BuildStatus.progress (status st)).
    { rewrite turn_reports_progress.
      destruct (Z.gtb_spec (BuildStatus.progress (status st)) lp).
      - repeat constructor. exact H.
      - split; [constructor|]. split; [constructor|]. cbn. lia. }
    destruct Hturn as (Hts & Htf & Htl).
    destruct (is_terminal (BuildStatus.state (status st))).
    + cbn [result_events]. split; [exact Hts|]. split; [exact Htf|].
      intros st' self' events E. injection E as <- _ _.
      split; [exact Htl | lia].
    + destruct (get_next_wait_interval self1) as [[wait|] self2] eqn:Ewait.
      * assert (Hp2 : current_progress self2 = current_progress self1).
        { replace self2 with (snd (get_next_wait_interval self1))
            by (rewrite Ewait; reflexivity).
          apply wait_current_progress. }
        set (lp' := if BuildStatus.progress (status st) >? lp
                    then BuildStatus.progress (status st) else lp).
        assert (Hlp' : lp' = BuildStatus.progress (status st)).
        { subst lp'.
          destruct (Z.gtb_spec (BuildStatus.progress (status st)) lp); lia. }
        specialize (IH self2 (now + wait + lag) (fetches w1) lp'
                      (BuildStatus.packages_built (status st))
                      ltac:(lia)).
        cbv zeta in IH. destruct IH as (Hs & Hf & Hl).
        rewrite result_events_add, !printed_progress_app.
        assert (Hc : printed_progress (if callback then [Callback st] else [])
                     = []) by (destruct callback; reflexivity).
        rewrite Hc. cbn [printed_progress flat_map app]. rewrite app_nil_r.
        fold (printed_progress
                (result_events
                   (monitor_loop callback self2 (now + wait + lag) (fetches w1)
                      lp' (BuildStatus.packages_built (status st)) script))).
        set (rest := printed_progress
                       (result_events
                          (monitor_loop callback self2 (now + wait + lag)
                             (fetches w1) lp'
                             (BuildStatus.packages_built (status st)) script)))
          in *.
        rewrite turn_reports_progress in *.
        assert (Hrest : Forall (fun v => lp < v) rest).
        { eapply Forall_impl; [|exact Hf]. cbn. intros v Hv.
          destruct (Z.gtb_spec (BuildStatus.progress (status st)) lp); lia. }
        split; [|split].
        -- destruct (Z.gtb_spec (BuildStatus.progress (status st)) lp).
           ++ cbn [app]. constructor; [exact Hs|].
              eapply Forall_impl; [|exact Hf]. cbn. intros v Hv. lia.
           ++ exact Hs.
        -- apply Forall_app. split; [exact Htf | exact Hrest].
        -- intros st' self' events E.
           destruct (monitor_loop callback self2 _ _ _ _ script)
             as [s1 m1 e1| |] eqn:El; cbn [add_events] in E; try discriminate.
           injection E as <- _ _.
           destruct (Hl s1 m1 e1 eq_refl) as [Hl1 Hl2].
           split; [|lia]. rewrite <- Hl1.
           cbn [result_events] in rest.
           destruct rest as [|v rest'] eqn:Er.
           ++ rewrite app_nil_r. cbn [last]. lia.
           ++ apply last_app_nonempty. discriminate.
      * cbn [result_events]. rewrite printed_progress_app.
        assert (Hc : printed_progress (if callback then [Callback st] else [])
                     = []) by (destruct callback; reflexivity).
        rewrite Hc, app_nil_r.
        split; [exact Hts|]. split; [exact Htf|]. intros; discriminate.
Qed.

(** X19.  Progress lines go up.  For a monitor that a session can
    reach, the progress values printed in a run increase strictly; and
    when the loop returns, the last value printed is the progress of the
    status it returns, so that at least one progress line is printed. *)
Theorem X19_progress_lines_increase :
  forall (callback : bool) (self : Monitor) (now : Z) (calls : nat)
         (script : list (run_outcome * Z)),
    reachable self ->
    let r := monitor_build_to_completion callback self now calls script in
    let shown := printed_progress (result_events r) in
    StronglySorted Z.lt shown
    /\ (forall st self' events,
          r = LoopReturned st self' events ->
          exists earlier,
            shown = (earlier ++ [BuildStatus.progress (status st)])%list).
Proof.
  intros callback self now calls script Hreach. cbv zeta.
  unfold monitor_build_to_completion.
  destruct (reachable_progress_nonneg self Hreach) as [Hp _].
  destruct (monitor_loop_progress callback script self now calls (-1) []
              ltac:(lia)) as (Hs & Hf & Hl).
  cbv zeta in Hl. split; [exact Hs|].
  intros st self' events E. destruct (Hl st self' events E) as [Hl1 Hl2].
  rewrite E in *. cbn [result_events] in *.
  destruct (exists_last (l := printed_progress events)) as (earlier & v & Ev).
  - intros En. rewrite En in Hl1. cbn [last] in Hl1. lia.
  - exists earlier. rewrite Ev in Hl1 |- *.
    rewrite last_last in Hl1. rewrite Hl1. reflexivity.
Qed.

(** An instance of X19: a run of a fresh monitor over three chunks. *)
Lemma X19_progress_lines_increase_witness :
  let r := monitor_build_to_completion false (init "b1" None 3600 0) 5 0
             [(CompletedProcess 0 "[ 12%] Building CXX object a.cc.o" "", 1);
              (CompletedProcess 0 "[  7%] Building CXX object b.cc.o" "", 1);
              (CompletedProcess 0 "[100%] Built target driver" "", 1)] in
  let shown := printed_progress (result_events r) in
  StronglySorted Z.lt shown
  /\ (forall st self' events,
        r = LoopReturned st self' events ->
        exists earlier,
          shown = (earlier ++ [BuildStatus.progress (status st)])%list).
Proof.
  apply (X19_progress_lines_increase false (init "b1" None 3600 0) 5 0).
  apply reachable_init.
Defined.

(** The seconds slept are intervals of the schedule and the index into
    it is never out of range. *)
Lemma monitor_loop_sleeps callback script :
  forall self now calls lp lpk,
    reachable self ->
    let r := monitor_loop callback self now calls lp lpk script in
    (forall self' events, r <> LoopIndexError self' events)
    /\ Forall (fun d => In d [30; 60; 120; 240; 480; 900])
         (sleeps (result_events r)).
Proof.
  induction script as [|[outcome lag] script IH];
    intros self now calls lp lpk Hreach; cbv zeta.
  - cbn. split; [discriminate | constructor].
  - cbn [monitor_loop].
    pose proof (reachable_check_full self (mkWorld now outcome calls) Hreach)
      as Hreach1.
    destruct (check_build_status_full self (mkWorld now outcome calls))
      as [[st self1] w1].
    cbn [fst snd] in Hreach1.
    destruct (is_terminal (BuildStatus.state (status st))).
    + cbn [result_events]. rewrite (proj2 (turn_reports_quiet st lp lpk)).
      split; [discriminate | constructor].
    + pose proof (reachable_wait self1 Hreach1) as Hreach2.
      destruct (reachable_scheduler_ok _ Hreach2) as [Hwi Hidx].
      destruct (wait_scheduler self1) as (_ & _ & Hr).
      destruct (reaches_constants self1 _
                  (reaches_wait self1 self1 (reaches_refl self1)))
        as (_ & _ & _ & Hw & _).
      rewrite <- Hw, Hwi in Hr.
      destruct (get_next_wait_interval self1) as [[wait|] self2] eqn:Ewait;
        cbn [fst snd] in Hr, Hreach2, Hidx.
      * specialize (IH self2 (now + wait + lag) (fetches w1)
                      (if BuildStatus.progress (status st) >? lp
                       then BuildStatus.progress (status st) else lp)
                      (BuildStatus.packages_built (status st)) Hreach2).
        cbv zeta in IH. destruct IH as (Hne & Hall).
        split.
        -- intros self' events E.
           destruct (monitor_loop callback self2 _ _ _ _ script)
             as [s1 m1 e1|m1 e1|m1 e1] eqn:El; cbn [add_events] in E;
             try discriminate.
           exact (Hne m1 e1 eq_refl).
        -- rewrite result_events_add, !sleeps_app.
           rewrite (proj2 (turn_reports_quiet st lp lpk)).
           assert (Hc : sleeps (if callback then [Callback st] else []) = [])
             by (destruct callback; reflexivity).
           rewrite Hc. cbn [sleeps flat_map app].
           constructor; [|exact Hall].
           symmetry in Hr. apply nth_error_In in Hr. exact Hr.
      * exfalso. destruct (wait_value_bounds _ Hidx) as (d & Hd & _).
        rewrite Hd in Hr. discriminate.
Qed.

(** X20.  Sleeping follows the schedule.  For a monitor that a session
    can reach, the loop never fails with an index outside
    [wait_intervals], and every time it sleeps it sleeps for one of the
    six intervals 30, 60, 120, 240, 480 or 900 seconds. *)
Theorem X20_sleeps_follow_the_schedule :
  forall (callback : bool) (self : Monitor) (now : Z) (calls : nat)
         (script : list (run_outcome * Z)),
    reachable self ->
    let r := monitor_build_to_completion callback self now calls script in
    (forall self' events, r <> LoopIndexError self' events)
    /\ Forall (fun d => In d [30; 60; 120; 240; 480; 900])
         (sleeps (result_events r)).
Proof.
  intros callback self now calls script Hreach.
  exact (monitor_loop_sleeps callback script self now calls (-1) [] Hreach).
Qed.

(** An instance of X20: a run of a fresh monitor over four empty chunks. *)
Lemma X20_sleeps_follow_the_schedule_witness :
  let r := monitor_build_to_completion true (init "b1" None 3600 0) 5 0
             [(CompletedProcess 0 "" "", 1); (CompletedProcess 0 "" "", 1);
              (CompletedProcess 0 "" "", 1); (CompletedProcess 0 "" "", 1)] in
  (forall self' events, r <> LoopIndexError self' events)
  /\ Forall (fun d => In d [30; 60; 120; 240; 480; 900])
       (sleeps (result_events r)).
Proof.
  apply (X20_sleeps_follow_the_schedule true (init "b1" None 3600 0) 5 0).
  apply reachable_init.
Defined.

Lemma monitor_loop_criticals callback script :
  forall self now calls lp lpk,
    let r := monitor_loop callback self now calls lp lpk script in
    printed_criticals (result_events r)
    = match r with
      | LoopReturned st _ _ =>
          map message (filter critical (BuildStatus.errors (status st)))
      | _ => []
      end
    /\ Forall (fun st =>
                 is_terminal (BuildStatus.state (status st)) = false
                 /\ existsb critical (BuildStatus.errors (status st)) = false)
         (callbacks (result_events r)).
Proof.
  induction script as [|[outcome lag] script IH];
    intros self now calls lp lpk; cbv zeta.
  - cbn. split; [reflexivity | constructor].
  - cbn [monitor_loop].
    pose proof (check_build_status_full_base self (mkWorld now outcome calls))
      as (Hst & _ & _).
    pose proof (working_phase self (mkWorld now outcome calls)) as Hwork.
    cbv zeta in Hwork. rewrite <- Hst in Hwork.
    destruct (check_build_status_full self (mkWorld now outcome calls))
      as [[st self1] w1].
    cbn [fst snd] in Hst, Hwork.
    destruct (is_terminal (BuildStatus.state (status st))) eqn:Hterm.
    + cbn [result_events].
      rewrite turn_reports_criticals, (proj1 (turn_reports_quiet st lp lpk)).
      split; [reflexivity | constructor].
    + destruct (Hwork eq_refl) as [Hnone _].
      assert (Hquiet : printed_criticals (turn_reports st lp lpk) = []).
      { rewrite turn_reports_criticals, filter_critical_none by exact Hnone.
        reflexivity. }
      assert (Hc : printed_criticals (if callback then [Callback st] else [])
                   = []) by (destruct callback; reflexivity).
      assert (Hcb : Forall (fun st =>
                 is_terminal (BuildStatus.state (status st)) = false
                 /\ existsb critical (BuildStatus.errors (status st)) = false)
                 (callbacks (if callback then [Callback st] else []))).
      { destruct callback; repeat constructor; assumption. }
      destruct (get_next_wait_interval self1) as [[wait|] self2] eqn:Ewait.
      * specialize (IH self2 (now + wait + lag) (fetches w1)
                      (if BuildStatus.progress (status st) >? lp
                       then BuildStatus.progress (status st) else lp)
                      (BuildStatus.packages_built (status st))).
        cbv zeta in IH. destruct IH as (Hcr & Hall).
        rewrite result_events_add, !printed_criticals_app, !callbacks_app.
        rewrite Hquiet, Hc, (proj1 (turn_reports_quiet st lp lpk)).
        cbn [printed_criticals callbacks flat_map app]. rewrite app_nil_r.
        split.
        -- etransitivity; [exact Hcr|].
           destruct (monitor_loop callback self2 _ _ _ _ script); reflexivity.
        -- apply Forall_app. split; [exact Hcb | exact Hall].
      * cbn [result_events].
        rewrite printed_criticals_app, callbacks_app, Hquiet, Hc.
        rewrite (proj1 (turn_reports_quiet st lp lpk)), app_nil_r.
        split; [reflexivity | exact Hcb].
Qed.

(** X21.  A critical error ends the loop.  The critical errors printed
    in a whole run are those of the status the loop returns, in the
    order of its errors list: no turn but the last prints one, and a run
    that has not returned has printed none.  The callback is never handed
    a status in a final phase nor one with a critical error in its
    list. *)
Theorem X21_critical_errors_end_the_loop :
  forall (callback : bool) (self : Monitor) (now : Z) (calls : nat)
         (script : list (run_outcome * Z)),
    let r := monitor_build_to_completion callback self now calls script in
    printed_criticals (result_events r)
    = match r with
      | LoopReturned st _ _ =>
          map message (filter critical (BuildStatus.errors (status st)))
      | _ => []
      end
    /\ Forall (fun st =>
                 is_terminal (BuildStatus.state (status st)) = false
                 /\ existsb critical (BuildStatus.errors (status st)) = false)
         (callbacks (result_events r)).
Proof.
  intros callback self now calls script.
  exact (monitor_loop_criticals callback script self now calls (-1) []).
Qed.

(* ================================================================= *)
(** ** The command line *)

Lemma BuildState_eqb_spec a b : BuildState_eqb a b = true <-> a = b.
Proof. destruct a, b; cbn; split; intros H; congruence. Qed.

Lemma state_value_completed s : state_value s = "completed" <-> s = COMPLETED.
Proof. destruct s; cbn; split; intros H; congruence. Qed.

(** X22.  The exit code tells whether the build completed.  When [main]
    exits, the code is 0 or 1; without the JSON output format no report
    is printed; and when a report is printed, the code is 0 exactly when
    the state in the report is ["completed"], and exactly when its
    [success] field is true. *)
Theorem X22_exit_code_reports_completion :
  forall (args : Args) (now startup : Z) (script : list (run_outcome * Z))
         (code : Z) (report : option JsonResult),
    main args now startup script = Exit code report ->
    (code = 0 \/ code = 1)
    /\ (arg_output_json args = false -> report = None)
    /\ (forall j, report = Some j ->
          (code = 0 <-> json_state j = "completed")
          /\ (code = 0 <-> json_success j = true)).
Proof.
  intros args now startup script code report. unfold main.
  set (monitor := init _ _ _ _).
  set (outcome := if arg_single_check args then _ else _).
  destruct outcome as [st self events|self events|self events];
    [| |discriminate].
  - intros E. injection E as <- <-.
    pose proof (BuildState_eqb_spec (BuildStatus.state (status st)) COMPLETED)
      as Heq.
    pose proof (state_value_completed (BuildStatus.state (status st))) as Hval.
    split; [|split].
    + destruct (BuildState_eqb _ _); auto.
    + intros ->. reflexivity.
    + intros j Hj. destruct (arg_output_json args); [|discriminate].
      injection Hj as <-. cbn [json_of json_state json_success].
      rewrite Hval, <- Heq.
      destruct (BuildState_eqb _ _); split; split; intros H;
        try reflexivity; try discriminate; try lia.
  - intros E. injection E as <- <-.
    split; [auto|]. split; [reflexivity | discriminate].
Qed.

(** An instance of X22: a run of two turns that ends completed, with the
    JSON report. *)
Lemma X22_exit_code_reports_completion_witness :
  (0 = 0 \/ 0 = 1)
  /\ (arg_output_json (mkArgs "b1" ["http"] 3600 false true) = false ->
      Some (mkJson "completed" 100 "Processing..." ["http"] ["http"]
              0 0 32 true) = None)
  /\ (forall j,
        Some (mkJson "completed" 100 "Processing..." ["http"] ["http"]
                0 0 32 true) = Some j ->
        (0 = 0 <-> json_state j = "completed")
        /\ (0 = 0 <-> json_success j = true)).
Proof.
  apply (X22_exit_code_reports_completion
           (mkArgs "b1" ["http"] 3600 false true) 0 1
           [(CompletedProcess 0 "[ 50%] Built target package_http" "", 1);
            (CompletedProcess 0
               ("[100%] Built target driver" ++ String Py.nl "status:completed")
               "", 1)]).
  vm_compute. reflexivity.
Defined.

(** X23.  [main] exits.  With package names that are plain, so that no
    search raises [re.error], no negative time between building the
    monitor and its first check, no turn taking negative time and the
    surroundings scripted for at least [max_time / 30 + 2] turns, [main]
    reaches [sys.exit]; and when the JSON output format is asked for, it
    has printed the report before. *)
Theorem X23_main_exits :
  forall (args : Args) (now startup : Z) (script : list (run_outcome * Z)),
    forallb plain_name (arg_packages args) = true ->
    0 <= startup ->
    Forall (fun turn => 0 <= snd turn) script ->
    (Z.to_nat (arg_max_time args / 30) + 2 <= length script)%nat ->
    exists code report,
      main args now startup script = Exit code report
      /\ (arg_output_json args = true -> report <> None).
Proof.
  intros args now startup script Hplain Hstart Hlag Hlen. unfold main.
  set (monitor := init (arg_bash_id args) (Some (arg_packages args))
                    (arg_max_time args) now).
  destruct (arg_single_check args).
  - destruct script as [|[o lag] script]; [cbn [length] in Hlen; lia|].
    destruct (check_build_status_full monitor (mkWorld (now + startup) o 0))
      as [[st self] w].
    eexists _, _. split; [reflexivity|].
    intros ->. discriminate.
  - destruct (monitor_loop_turns false script monitor (now + startup) 0%nat
                (-1) [] (reachable_init _ _ _ _) Hlag) as
      (st & self' & events & E & _).
    + pose proof (turns_needed_bound monitor (now + startup)) as Hb.
      subst monitor. cbn [init start_time max_duration] in Hb |- *.
      specialize (Hb ltac:(lia)). lia.
    + unfold monitor_build_to_completion. rewrite E.
      eexists _, _. split; [reflexivity|].
      intros ->. discriminate.
Qed.

(** An instance of X23: a deadline of 45 seconds and three scripted turns. *)
Lemma X23_main_exits_witness :
  exists code report,
    main (mkArgs "b1" ["http"] 45 false true) 100 0
      [(CompletedProcess 0 "cmake" "", 0); (TimeoutExpired, 3);
       (OtherException "no such command", 0)]
      = Exit code report
    /\ (arg_output_json (mkArgs "b1" ["http"] 45 false true) = true ->
        report <> None).
Proof.
  apply (X23_main_exits (mkArgs "b1" ["http"] 45 false true) 100 0).
  - reflexivity.
  - lia.
  - repeat constructor; cbn; lia.
  - vm_compute. lia.
Defined.
